(** * mldatafind.io: segment filenames, catalog sorting and the archive codec

    A shallow embedding of [src/mldatafind/io.py].  The three functions of
    the module ([filter_and_sort_files], [read_timeseries] and
    [write_timeseries]) are translated statement by statement; the Python
    builtins and library calls they rely on (exceptions, [str] of numbers,
    binary64 arithmetic, [re], [pathlib], [sorted], [set], the keyed
    archive store) are modelled first, each in a module of its own.

    Strings are [String.string]: Python strings whose code points are
    below 256. *)

From Stdlib Require Import ZArith QArith Qround String Ascii List Bool Lia.
From Stdlib Require Import Permutation Sorted.
From Stdlib Require Import Floats.SpecFloat.
From stdpp Require Import base option list gmap strings.

Local Open Scope string_scope.
Local Open Scope Z_scope.

(* ===================================================================== *)
(** ** Exceptions and results *)
(* ===================================================================== *)

(** The exception classes the module can raise, each with its message. *)
Inductive exn : Type :=
| ValueError (msg : string)
| TypeError (msg : string)
| AttributeError (msg : string)
| KeyError (msg : string)
| ZeroDivisionError (msg : string)
| OverflowError (msg : string)
| IndexError (msg : string)
| OSError (msg : string).

(** A computation either returns or raises. *)
Inductive result (A : Type) : Type :=
| Ok (a : A)
| Raise (e : exn).
Arguments Ok {A} a.
Arguments Raise {A} e.

Definition bind {A B : Type} (r : result A) (k : A -> result B) : result B :=
  match r with
  | Ok a => k a
  | Raise e => Raise e
  end.

Notation "x <- r ;; k" := (bind r (fun x => k))
  (at level 100, r at next level, right associativity, only parsing).

Definition is_ok {A : Type} (r : result A) : Prop :=
  match r with Ok _ => True | Raise _ => False end.

Fixpoint mapM {A B : Type} (f : A -> result B) (l : list A) : result (list B) :=
  match l with
  | [] => Ok []
  | a :: l' => b <- f a ;; bs <- mapM f l' ;; Ok (b :: bs)
  end.

(* ===================================================================== *)
(** ** Strings *)
(* ===================================================================== *)

Module Str.

Definition newline : ascii := ascii_of_nat 10.

Definition is_digit (c : ascii) : bool :=
  let n := nat_of_ascii c in (48 <=? n)%nat && (n <=? 57)%nat.

Definition is_nonzero_digit (c : ascii) : bool :=
  let n := nat_of_ascii c in (49 <=? n)%nat && (n <=? 57)%nat.

Definition is_lower (c : ascii) : bool :=
  let n := nat_of_ascii c in (97 <=? n)%nat && (n <=? 122)%nat.

Definition is_upper (c : ascii) : bool :=
  let n := nat_of_ascii c in (65 <=? n)%nat && (n <=? 90)%nat.

Fixpoint forallb (p : ascii -> bool) (s : string) : bool :=
  match s with
  | EmptyString => true
  | String c s' => p c && forallb p s'
  end.

(** [s[:n]] *)
Fixpoint take (n : nat) (s : string) : string :=
  match n, s with
  | S n', String c s' => String c (take n' s')
  | _, _ => EmptyString
  end.

(** [s[n:]] *)
Fixpoint drop (n : nat) (s : string) : string :=
  match n, s with
  | S n', String _ s' => drop n' s'
  | _, _ => s
  end.

(** [s.startswith(p)], returning what follows the prefix. *)
Fixpoint strip_prefix (p s : string) : option string :=
  match p, s with
  | EmptyString, _ => Some s
  | String a p', String b s' =>
      if Ascii.eqb a b then strip_prefix p' s' else None
  | String _ _, EmptyString => None
  end.

(** [s.split(sep)] for a one-character separator. *)
Fixpoint split (sep : ascii) (s : string) : list string :=
  match s with
  | EmptyString => [EmptyString]
  | String c s' =>
      if Ascii.eqb c sep then EmptyString :: split sep s'
      else match split sep s' with
           | [] => [String c EmptyString]
           | w :: ws => String c w :: ws
           end
  end.

(** [sep.join(l)] for a list of strings. *)
Fixpoint join (sep : string) (l : list string) : string :=
  match l with
  | [] => EmptyString
  | [w] => w
  | w :: ws => w ++ sep ++ join sep ws
  end.

(** [c * n] *)
Fixpoint replicate (n : nat) (c : ascii) : string :=
  match n with
  | O => EmptyString
  | S n' => String c (replicate n' c)
  end.

Definition digit_char (d : Z) : ascii := ascii_of_nat (48 + Z.to_nat d).

Definition digit_val (c : ascii) : Z := Z.of_nat (nat_of_ascii c) - 48.

(** Decimal digits of a non-negative integer, most significant first;
    [fuel] bounds the number of digits. *)
Fixpoint digits_of (fuel : nat) (n : Z) (acc : string) : string :=
  match fuel with
  | O => acc
  | S fuel' =>
      let acc' := String (digit_char (n mod 10)) acc in
      if n <? 10 then acc' else digits_of fuel' (n / 10) acc'
  end.

Definition of_nonneg (n : Z) : string :=
  digits_of (S (Z.to_nat (Z.log2 n))) n EmptyString.

(** [str(z)] for a Python [int]. *)
Definition of_Z (z : Z) : string :=
  if z <? 0 then String "-" (of_nonneg (- z)) else of_nonneg z.

(** [int(s)] for a string of decimal digits. *)
Fixpoint value_acc (acc : Z) (s : string) : Z :=
  match s with
  | EmptyString => acc
  | String c s' => value_acc (10 * acc + digit_val c) s'
  end.

Definition value (s : string) : Z := value_acc 0 s.

(** Any character but the path separator. *)
Definition no_slash (c : ascii) : bool := negb (Ascii.eqb c "/").

(** The text in front of the first NUL character: what a C library sees
    of a string it is handed. *)
Fixpoint c_str (s : string) : string :=
  match s with
  | EmptyString => EmptyString
  | String c s' => if Ascii.eqb c Ascii.zero then EmptyString else String c (c_str s')
  end.

(** [len(s.encode())]: a code point from 128 on takes two bytes. *)
Fixpoint utf8_length (s : string) : nat :=
  match s with
  | EmptyString => 0
  | String c s' =>
      ((if (nat_of_ascii c <? 128)%nat then 1 else 2) + utf8_length s')%nat
  end.

End Str.

(* ===================================================================== *)
(** ** Python numbers: [int] and binary64 [float] *)
(* ===================================================================== *)

Module Float.

Definition prec : Z := 53.
Definition emax : Z := 1024.

(** A Python [float]: an IEEE-754 binary64 value. *)
Definition float : Type := spec_float.

(** [float(z)]: the nearest binary64 value, ties to even. *)
Definition of_Z (z : Z) : float := binary_normalize prec emax z 0 false.

(** [m * 2**e] rounded to binary64. *)
Definition make (m e : Z) : float := binary_normalize prec emax m e false.

Definition is_zero (x : float) : bool :=
  match x with S754_zero _ => true | _ => false end.

Definition is_finite (x : float) : bool :=
  match x with S754_zero _ | S754_finite _ _ _ => true | _ => false end.

(** [x == y] on floats. *)
Definition eqb (x y : float) : bool := SFeqb x y.

(** [x / y] on floats: Python raises on a zero divisor, and otherwise
    divides as IEEE-754 does. *)
Definition div (x y : float) : result float :=
  if is_zero y then Raise (ZeroDivisionError "float division by zero")
  else Ok (SFdiv prec emax x y).

(** [int(x)]: truncation towards zero. *)
Definition to_int (x : float) : result Z :=
  match x with
  | S754_nan => Raise (ValueError "cannot convert float NaN to integer")
  | S754_infinity _ =>
      Raise (OverflowError "cannot convert float infinity to integer")
  | S754_zero _ => Ok 0
  | S754_finite s m e =>
      let a := if 0 <=? e then Z.shiftl (Zpos m) e
               else Z.shiftr (Zpos m) (- e) in
      Ok (if s then - a else a)
  end.

(** [z == x] for an [int] and a [float]: Python compares the exact
    values. *)
Definition int_eqb (z : Z) (x : float) : bool :=
  match x with
  | S754_nan | S754_infinity _ => false
  | S754_zero _ => z =? 0
  | S754_finite s m e =>
      let v := if s then Zneg m else Zpos m in
      if 0 <=? e then z =? Z.shiftl v e
      else Z.shiftl z (- e) =? v
  end.

(** What [x == y] means on floats: the two zeros are equal, NaN equals
    nothing, and otherwise the two are the same value. *)
Definition same_value (x y : float) : Prop :=
  match x, y with
  | S754_zero _, S754_zero _ => True
  | S754_infinity s, S754_infinity s' => s = s'
  | S754_finite s m e, S754_finite s' m' e' => s = s' /\ m = m' /\ e = e'
  | _, _ => False
  end.

(** The real number a finite float stands for, as a rational. *)
Definition value (x : float) : Q :=
  match x with
  | S754_finite s m e =>
      let sm := if s then Zneg m else Zpos m in
      match e with
      | Z0 => inject_Z sm
      | Zpos p => inject_Z (sm * 2 ^ Zpos p)
      | Zneg p => Qmake sm (2 ^ p)%positive
      end
  | _ => 0%Q
  end.

(** The fractional part of the value is zero. *)
Definition is_whole (x : float) : bool :=
  Qeq_bool (inject_Z (Qfloor (value x))) (value x).

(** *** [repr] of a float

    Python prints the shortest decimal string that reads back as the
    same binary64 value (the one nearest to the value when several have
    that length), in positional notation when the decimal point falls
    within [-4 < decpt <= 16] and in exponent notation otherwise. *)

(** A positive value [x] and the ends of the interval of reals that
    round to it, all three over the common denominator [sc_den]. *)
Record scaled : Type := {
  sc_x : Z; sc_lo : Z; sc_hi : Z; sc_den : Z; sc_closed : bool
}.

Definition scale (m : positive) (e : Z) : scaled :=
  let boundary := (Zpos m =? 2 ^ 52) && (-1074 <? e) in
  if 0 <=? e then
    let p := 2 ^ e in
    {| sc_x := 4 * Zpos m * p;
       sc_lo := 4 * Zpos m * p - (if boundary then p else 2 * p);
       sc_hi := 4 * Zpos m * p + 2 * p;
       sc_den := 4;
       sc_closed := Z.even (Zpos m) |}
  else
    {| sc_x := 4 * Zpos m;
       sc_lo := 4 * Zpos m - (if boundary then 1 else 2);
       sc_hi := 4 * Zpos m + 2;
       sc_den := 4 * 2 ^ (- e);
       sc_closed := Z.even (Zpos m) |}.

(** [x < 10 ** k] *)
Definition below_pow10 (sc : scaled) (k : Z) : bool :=
  if 0 <=? k then sc_x sc <? sc_den sc * 10 ^ k
  else sc_x sc * 10 ^ (- k) <? sc_den sc.

(** The position of the decimal point: the least [k] from [k0] on with
    [x < 10 ** k]. *)
Fixpoint find_decpt (fuel : nat) (sc : scaled) (k : Z) : Z :=
  match fuel with
  | O => k
  | S fuel' => if below_pow10 sc k then k else find_decpt fuel' sc (k + 1)
  end.

Definition decpt_of (sc : scaled) : Z := find_decpt 640 sc (-324).

(** The [n]-digit decimal nearest to [x] among those that round to [x],
    as an integer number of units [10 ** (k - n)], if there is one. *)
Definition candidate (sc : scaled) (k : Z) (n : Z) : option Z :=
  let j := k - n in
  let a := if 0 <=? j then 1 else 10 ^ (- j) in
  let d := if 0 <=? j then sc_den sc * 10 ^ j else sc_den sc in
  let x := sc_x sc * a in
  let lo := sc_lo sc * a in
  let hi := sc_hi sc * a in
  let inside v :=
    if sc_closed sc then (lo <=? v) && (v <=? hi)
    else (lo <? v) && (v <? hi) in
  let c := x / d in
  if c * d =? x then Some c
  else
    let below := inside (c * d) in
    let above := inside ((c + 1) * d) in
    match below, above with
    | true, true =>
        match (x - c * d) ?= ((c + 1) * d - x) with
        | Lt => Some c
        | Gt => Some (c + 1)
        | Eq => Some (if Z.even c then c else c + 1)
        end
    | true, false => Some c
    | false, true => Some (c + 1)
    | false, false => None
    end.

(** The first of [n], [n + 1], ... that has a candidate. *)
Fixpoint shortest_from (fuel : nat) (sc : scaled) (k : Z) (n : Z) : Z * Z :=
  match fuel with
  | O => (sc_x sc * (if 0 <=? k - n then 1 else 10 ^ (n - k))
          / (if 0 <=? k - n then sc_den sc * 10 ^ (k - n) else sc_den sc), n)
  | S fuel' =>
      match candidate sc k n with
      | Some c => (c, n)
      | None => shortest_from fuel' sc k (n + 1)
      end
  end.

Fixpoint strip_zeros (fuel : nat) (c : Z) : Z :=
  match fuel with
  | O => c
  | S fuel' => if (c mod 10 =? 0) && (0 <? c) then strip_zeros fuel' (c / 10) else c
  end.

(** The digits (without trailing zeros) and the position of the decimal
    point: the value is [0.d1d2...dn * 10 ** decpt]. *)
Definition shortest_digits (m : positive) (e : Z) : string * Z :=
  let sc := scale m e in
  let k := decpt_of sc in
  let '(c, n) := shortest_from 17 sc k 1 in
  let k' := if c =? 10 ^ n then k + 1 else k in
  (Str.of_nonneg (strip_zeros 18 c), k').

Definition pad2 (s : string) : string :=
  match s with
  | String c EmptyString => String "0" s
  | _ => s
  end.

(** Exponent notation: [d.ddde+XX]. *)
Definition format_exp (ds : string) (decpt : Z) : string :=
  let mant :=
    match ds with
    | EmptyString => EmptyString
    | String c EmptyString => ds
    | String c rest => String c (String "." rest)
    end in
  let ex := decpt - 1 in
  mant ++ "e" ++ (if ex <? 0 then "-" else "+")
       ++ pad2 (Str.of_nonneg (Z.abs ex)).

(** Positional notation, always with a decimal point. *)
Definition format_fixed (ds : string) (decpt : Z) : string :=
  let n := Z.of_nat (String.length ds) in
  if decpt <=? 0 then
    "0." ++ Str.replicate (Z.to_nat (- decpt)) "0" ++ ds
  else if decpt <? n then
    Str.take (Z.to_nat decpt) ds ++ "." ++ Str.drop (Z.to_nat decpt) ds
  else
    ds ++ Str.replicate (Z.to_nat (decpt - n)) "0" ++ ".0".

Definition format_digits (ds : string) (decpt : Z) : string :=
  if (decpt <=? -4) || (16 <? decpt) then format_exp ds decpt
  else format_fixed ds decpt.

(** [repr(x)], which is also [str(x)] and what an f-string prints. *)
Definition repr (x : float) : string :=
  match x with
  | S754_nan => "nan"
  | S754_infinity s => if s then "-inf" else "inf"
  | S754_zero s => if s then "-0.0" else "0.0"
  | S754_finite s m e =>
      let '(ds, decpt) := shortest_digits m e in
      (if s then "-" else "") ++ format_digits ds decpt
  end.


End Float.

Abbreviation float := Float.float.

(** A number passed where the annotations say [float]: Python accepts an
    [int] there as well. *)
Inductive pynum : Type :=
| PyInt (z : Z)
| PyFloat (x : float).

Definition pynum_str (n : pynum) : string :=
  match n with
  | PyInt z => Str.of_Z z
  | PyFloat x => Float.repr x
  end.

(** The binary64 number a value is held as where floats are kept: a
    float stays what it is, an [int] becomes the nearest float (ties to
    even). *)
Definition pynum_float (n : pynum) : float :=
  match n with
  | PyInt z => Float.of_Z z
  | PyFloat x => x
  end.

(* ===================================================================== *)
(** ** Regular expressions: the fragment of [re] the module uses *)
(* ===================================================================== *)

Module Re.

(** Pattern syntax.  [Plus] and [Repeat] are the greedy quantifiers
    [+] and [{lo,hi}] applied to a character class, [AnyChar] is the
    pattern [.] and [Eos] the pattern [$]. *)
Inductive regex : Type :=
| Lit (s : string)
| Class (p : ascii -> bool)
| AnyChar
| Cat (r1 r2 : regex)
| Alt (r1 r2 : regex)
| Plus (p : ascii -> bool)
| Repeat (lo hi : nat) (p : ascii -> bool)
| Group (name : string) (r : regex)
| Eos.

(** The named groups captured so far, most recent first. *)
Definition captures : Type := list (string * string).

(** What a pattern consumed: the text between [s] and its tail [s']. *)
Definition consumed (s s' : string) : string :=
  Str.take (String.length s - String.length s') s.

Section Exec.
Context {R : Type}.

Definition orelse (a : option R) (b : option R) : option R :=
  match a with Some r => Some r | None => b end.

(** Greedy [p*]: take as many characters as possible, then give
    them back one at a time until the rest of the pattern matches. *)
Fixpoint star (p : ascii -> bool) (s : string)
    (k : string -> option R) : option R :=
  match s with
  | String c s' => if p c then orelse (star p s' k) (k s) else k s
  | EmptyString => k s
  end.

(** Greedy [p{lo,hi}]. *)
Fixpoint rep (p : ascii -> bool) (lo hi : nat) (s : string)
    (k : string -> option R) : option R :=
  let stop := match lo with O => k s | S _ => None end in
  match hi with
  | O => stop
  | S hi' =>
      match s with
      | String c s' =>
          if p c then orelse (rep p (Nat.pred lo) hi' s' k) stop else stop
      | EmptyString => stop
      end
  end.

(** A backtracking matcher in continuation-passing style: [exec r s
    caps k] matches [r] at the start of [s] and hands the rest of
    the string and the captures to [k]; alternatives are tried in
    the order [re] tries them. *)
Fixpoint exec (r : regex) (s : string) (caps : captures)
    (k : string -> captures -> option R) : option R :=
  match r with
  | Lit l =>
      match Str.strip_prefix l s with
      | Some s' => k s' caps
      | None => None
      end
  | Class p =>
      match s with
      | String c s' => if p c then k s' caps else None
      | EmptyString => None
      end
  | AnyChar =>
      match s with
      | String c s' => if Ascii.eqb c Str.newline then None else k s' caps
      | EmptyString => None
      end
  | Cat r1 r2 => exec r1 s caps (fun s' caps' => exec r2 s' caps' k)
  | Alt r1 r2 => orelse (exec r1 s caps k) (exec r2 s caps k)
  | Plus p =>
      match s with
      | String c s' => if p c then star p s' (fun s'' => k s'' caps) else None
      | EmptyString => None
      end
  | Repeat lo hi p => rep p lo hi s (fun s' => k s' caps)
  | Group name r1 =>
      exec r1 s caps (fun s' caps' => k s' ((name, consumed s s') :: caps'))
  | Eos =>
      match s with
      | EmptyString => k s caps
      | String c EmptyString => if Ascii.eqb c Str.newline then k s caps else None
      | _ => None
      end
  end.
End Exec.

(** The declarative reading of a pattern: [Matches r w rest caps] says
    that [r] can consume [w] when [rest] follows it, capturing [caps]
    (most recent first).  The text that follows matters to [$] only. *)
Inductive Matches : regex -> string -> string -> captures -> Prop :=
| M_Lit l rest : Matches (Lit l) l rest []
| M_Class (p : ascii -> bool) c rest :
    p c = true -> Matches (Class p) (String c EmptyString) rest []
| M_AnyChar c rest :
    Ascii.eqb c Str.newline = false ->
    Matches AnyChar (String c EmptyString) rest []
| M_Cat r1 r2 w1 w2 rest c1 c2 :
    Matches r1 w1 (w2 ++ rest) c1 -> Matches r2 w2 rest c2 ->
    Matches (Cat r1 r2) (w1 ++ w2) rest (c2 ++ c1)%list
| M_Alt_l r1 r2 w rest c : Matches r1 w rest c -> Matches (Alt r1 r2) w rest c
| M_Alt_r r1 r2 w rest c : Matches r2 w rest c -> Matches (Alt r1 r2) w rest c
| M_Plus (p : ascii -> bool) c w rest :
    p c = true -> Str.forallb p w = true -> Matches (Plus p) (String c w) rest []
| M_Repeat lo hi (p : ascii -> bool) w rest :
    Str.forallb p w = true ->
    (lo <= String.length w <= hi)%nat ->
    Matches (Repeat lo hi p) w rest []
| M_Group name r w rest c :
    Matches r w rest c -> Matches (Group name r) w rest ((name, w) :: c)
| M_Eos_end : Matches Eos EmptyString EmptyString []
| M_Eos_newline : Matches Eos EmptyString (String Str.newline EmptyString) [].

(** A match object: where the match starts and what the groups hold. *)
Record Match : Type := { m_start : nat; m_groups : captures }.

(** [m.group(name)] *)
Definition group (m : Match) (name : string) : string :=
  match List.find (fun kv => String.eqb (fst kv) name) (m_groups m) with
  | Some kv => snd kv
  | None => EmptyString
  end.

(** [r.match(s)] at offset [i] of the subject. *)
Definition match_at (r : regex) (i : nat) (s : string) : option Match :=
  exec r s [] (fun _ caps => Some {| m_start := i; m_groups := caps |}).

(** Try every start position, leftmost first. *)
Fixpoint search_from (r : regex) (i : nat) (s : string) : option Match :=
  match match_at r i s with
  | Some m => Some m
  | None =>
      match s with
      | EmptyString => None
      | String _ s' => search_from r (S i) s'
      end
  end.

(** [r.search(s)] *)
Definition search (r : regex) (s : string) : option Match :=
  search_from r 0 s.

End Re.

(* ===================================================================== *)
(** ** The filename grammar of [io.py] *)
(* ===================================================================== *)

(** [[a-zA-Z0-9_:-]] *)
Definition prefix_char (c : ascii) : bool :=
  Str.is_lower c || Str.is_upper c || Str.is_digit c
  || Ascii.eqb c "_" || Ascii.eqb c ":" || Ascii.eqb c "-".

(** [prefix_re = "[a-zA-Z0-9_:-]+"] *)
Definition prefix_re : Re.regex := Re.Plus prefix_char.

(** [t0_re = "[0-9]{10}"] *)
Definition t0_re : Re.regex := Re.Repeat 10 10 Str.is_digit.

(** [length_re = "[1-9][0-9]{0,3}"] *)
Definition length_re : Re.regex :=
  Re.Cat (Re.Class Str.is_nonzero_digit) (Re.Repeat 0 3 Str.is_digit).

(** [fname_re]: the three groups joined by dashes, then [.] (which is not
    escaped in the source, so it stands for any character but a newline),
    the suffix group and [$]. *)
Definition fname_re : Re.regex :=
  Re.Cat (Re.Group "prefix" prefix_re)
 (Re.Cat (Re.Lit "-")
 (Re.Cat (Re.Group "t0" t0_re)
 (Re.Cat (Re.Lit "-")
 (Re.Cat (Re.Group "length" length_re)
 (Re.Cat Re.AnyChar
 (Re.Cat (Re.Group "suffix" (Re.Alt (Re.Lit "gwf") (Re.Alt (Re.Lit "hdf5") (Re.Lit "h5"))))
         Re.Eos)))))).

(* ===================================================================== *)
(** ** Paths: the part of [pathlib.Path] the module uses (POSIX flavour) *)
(* ===================================================================== *)

Module Path.

(** A parsed path: the root (empty, one slash or two) and the names
    below it. *)
Record t : Type := { root : string; names : list string }.

(** The root of a path string: two leading slashes are kept, any other
    number of them is one. *)
Definition root_of (s : string) : string :=
  match s with
  | String c1 (String c2 (String c3 _)) =>
      if Ascii.eqb c1 "/" then
        if Ascii.eqb c2 "/" then if Ascii.eqb c3 "/" then "/" else "//"
        else "/"
      else ""
  | String c1 (String c2 EmptyString) =>
      if Ascii.eqb c1 "/" then if Ascii.eqb c2 "/" then "//" else "/" else ""
  | String c1 EmptyString => if Ascii.eqb c1 "/" then "/" else ""
  | EmptyString => ""
  end.

Definition is_name (w : string) : bool :=
  negb (String.eqb w "") && negb (String.eqb w ".").

(** [Path(s)]: empty components and [.] are dropped. *)
Definition of_string (s : string) : t :=
  {| root := root_of s; names := List.filter is_name (Str.split "/" s) |}.

(** [p.name]: the last component, empty for a bare root or [.]. *)
Definition name (p : t) : string := List.last (names p) "".

(** [p.parts] *)
Definition parts (p : t) : list string :=
  if String.eqb (root p) "" then names p else root p :: names p.

(** [str(p)] *)
Definition str (p : t) : string :=
  match names p with
  | [] => if String.eqb (root p) "" then "." else root p
  | _ => root p ++ Str.join "/" (names p)
  end.

(** [p / s] *)
Definition join (p : t) (s : string) : t :=
  let q := of_string s in
  if String.eqb (root q) "" then
    {| root := root p; names := names p ++ names q |}
  else q.

(** [p.parent] *)
Definition parent (p : t) : t :=
  {| root := root p; names := List.removelast (names p) |}.

(** Lexicographic order on lists of strings, as Python orders lists. *)
Fixpoint parts_ltb (a b : list string) : bool :=
  match a, b with
  | [], [] => false
  | [], _ :: _ => true
  | _ :: _, [] => false
  | x :: a', y :: b' =>
      if String.eqb x y then parts_ltb a' b' else String.ltb x y
  end.

(** [p == q] *)
Definition eqb (p q : t) : bool :=
  bool_decide (parts p = parts q).

(** [p < q] *)
Definition ltb (p q : t) : bool := parts_ltb (parts p) (parts q).

(** [getattr(p, attr)] for the attributes the module reads.  A path has
    a [name]; it has no attribute called [fname]. *)
Definition getattr (p : t) (attr : string) : result string :=
  if String.eqb attr "name" then Ok (name p)
  else Raise (AttributeError
                ("'PosixPath' object has no attribute '" ++ attr ++ "'")).

End Path.

(* ===================================================================== *)
(** ** Builtins: [str.join], [set], [sorted], ordered dictionaries *)
(* ===================================================================== *)

Module Py.

(** The objects handed to [str.join] in the module: strings and type
    objects. *)
Inductive obj : Type :=
| OStr (s : string)
| OType (name : string).

(** [sep.join(items)]: every item must be a string; the first one that
    is not raises [TypeError]. *)
Fixpoint join_from (i : nat) (sep : string) (items : list obj) : result string :=
  match items with
  | [] => Ok ""
  | OType _ :: _ =>
      Raise (TypeError ("sequence item " ++ Str.of_Z (Z.of_nat i)
                        ++ ": expected str instance, type found"))
  | OStr w :: rest =>
      tail <- join_from (S i) sep rest ;;
      Ok (match rest with [] => w | _ => w ++ sep ++ tail end)
  end.

Definition join (sep : string) (items : list obj) : result string :=
  join_from 0 sep items.

(** [set(l)] for floats: an element is added unless it equals ([==]) one
    already present.  Every element of the list is an object of its
    own, so a NaN, which equals nothing, is always added. *)
Definition set_add (s : list float) (x : float) : list float :=
  if List.existsb (Float.eqb x) s then s else s ++ [x].

Definition set (l : list float) : list float :=
  List.fold_left set_add l [].

Section Sorted.
Context {A : Type} (lt : A -> A -> result bool).

(** Put [x] in front of the first element it is less than: behind
    everything that is not greater, which keeps the sort stable. *)
Fixpoint insert (x : A) (l : list A) : result (list A) :=
  match l with
  | [] => Ok [x]
  | y :: l' =>
      b <- lt x y ;;
      if b then Ok (x :: l)
      else l'' <- insert x l' ;; Ok (y :: l'')
  end.

Fixpoint sort_into (acc : list A) (l : list A) : result (list A) :=
  match l with
  | [] => Ok acc
  | x :: l' => acc' <- insert x acc ;; sort_into acc' l'
  end.

(** [sorted(l)]: a stable insertion sort with [<] as its only
    comparison; an exception raised by a comparison ends the sort. *)
Definition sorted (l : list A) : result (list A) := sort_into [] l.
End Sorted.

Section Dict.
Context {V : Type}.

(** [d[k] = v] on a dictionary that keeps insertion order. *)
Fixpoint dict_set (d : list (string * V)) (k : string) (v : V)
    : list (string * V) :=
  match d with
  | [] => [(k, v)]
  | (k', v') :: d' =>
      if String.eqb k' k then (k, v) :: d' else (k', v') :: dict_set d' k v
  end.
End Dict.

End Py.

(* ===================================================================== *)
(** ** The archive store: [h5py] files in a file system *)
(* ===================================================================== *)

(** Sample values: the module never looks inside them. *)
Definition sample : Type := float.

(** A dataset: its samples and its attributes. *)
Record dataset : Type := {
  ds_data : list sample;
  ds_attrs : gmap string pynum
}.

(** An archive file: its attributes and its datasets by name. *)
Record h5file : Type := {
  h5_attrs : gmap string pynum;
  h5_datasets : gmap string dataset
}.

Definition h5_empty : h5file := {| h5_attrs := ∅; h5_datasets := ∅ |}.

(** The file system: for each directory (by its path string) the names of
    its entries in the order the system lists them, and the archive
    files by path string. *)
Record filesystem : Type := {
  fs_dirs : gmap string (list string);
  fs_files : gmap string h5file
}.

Module H5.

(** What an attribute takes of the numbers the module writes: any float,
    and an integer that fits in 64 bits, signed or unsigned.  An integer
    beyond that has no HDF5 type. *)
Definition storable (v : pynum) : bool :=
  match v with
  | PyFloat _ => true
  | PyInt z => (- 2 ^ 63 <=? z) && (z <? 2 ^ 64)
  end.

Definition no_hdf5_type : exn :=
  TypeError "Object dtype dtype('O') has no native HDF5 equivalent".

(** [f.attrs[k] = v] *)
Definition set_attr (f : h5file) (k : string) (v : pynum) : result h5file :=
  if storable v then
    Ok {| h5_attrs := <[k := v]> (h5_attrs f); h5_datasets := h5_datasets f |}
  else Raise no_hdf5_type.

(** [f.attrs[k]] *)
Definition get_attr (f : h5file) (k : string) : result pynum :=
  match h5_attrs f !! k with
  | Some v => Ok v
  | None => Raise (KeyError k)
  end.

(** The path a name stands for in a file: the components between the
    slashes of the text in front of the first NUL, with empty components
    and [.] left out. *)
Definition path (k : string) : list string :=
  List.filter Path.is_name (Str.split "/" (Str.c_str k)).

(** The path [p] leads to [q] or through it. *)
Fixpoint prefix_of (p q : list string) : bool :=
  match p, q with
  | [], _ => true
  | x :: p', y :: q' => String.eqb x y && prefix_of p' q'
  | _ :: _, [] => false
  end.

(** The names under which the file holds datasets. *)
Definition names (f : h5file) : list string :=
  List.map fst (map_to_list (h5_datasets f)).

(** [f.create_dataset(k, data=v)].  The name is a path: the groups on the
    way are made as needed.  The call raises when the path is empty,
    when a dataset or a group is at the path already, and when a dataset
    is on the way to it; otherwise the dataset is there under the
    name. *)
Definition create_dataset (f : h5file) (k : string) (v : list sample)
    : result h5file :=
  let p := path k in
  if bool_decide (p = []) then
    Raise (ValueError "Unable to create dataset (name already exists)")
  else if List.existsb (fun k' => prefix_of p (path k')) (names f) then
    Raise (ValueError "Unable to create dataset (name already exists)")
  else if List.existsb (fun k' => bool_decide (path k' = List.removelast p)) (names f) then
    Raise (TypeError "Incompatible object (Dataset) already exists")
  else if List.existsb (fun k' => prefix_of (path k') p) (names f) then
    Raise (ValueError "Unable to create group (component not found)")
  else
    Ok {| h5_attrs := h5_attrs f;
          h5_datasets := <[k := {| ds_data := v; ds_attrs := ∅ |}]> (h5_datasets f) |}.

(** [f[k].attrs[a] = v] *)
Definition set_dataset_attr (f : h5file) (k a : string) (v : pynum)
    : result h5file :=
  if storable v then
    Ok {| h5_attrs := h5_attrs f;
          h5_datasets :=
            alter (fun d => {| ds_data := ds_data d;
                               ds_attrs := <[a := v]> (ds_attrs d) |})
                  k (h5_datasets f) |}
  else Raise no_hdf5_type.

(** [f[k]] *)
Definition get_dataset (f : h5file) (k : string) : result dataset :=
  match h5_datasets f !! k with
  | Some d => Ok d
  | None => Raise (KeyError k)
  end.

(** [d.attrs[a]] *)
Definition dataset_attr (d : dataset) (a : string) : result pynum :=
  match ds_attrs d !! a with
  | Some v => Ok v
  | None => Raise (KeyError a)
  end.

(** The longest file name and the longest path the system takes, in
    bytes. *)
Definition NAME_MAX : nat := 255.
Definition PATH_MAX : nat := 4096.

(** [h5py.File(p, "w")]: creates the file, or empties the one that is
    there.  The name must not be too long for the system, the path must
    not be that of a directory, and the directory the file goes into
    must exist. *)
Definition open_w (fs : filesystem) (p : Path.t) : result filesystem :=
  let dir := Path.str (Path.parent p) in
  if (NAME_MAX <? Str.utf8_length (Path.name p))%nat
     || (PATH_MAX <=? Str.utf8_length (Path.str p))%nat then
    Raise (OSError ("Unable to create file " ++ Path.str p ++ " (File name too long)"))
  else if bool_decide (is_Some (fs_dirs fs !! Path.str p)) then
    Raise (OSError ("Unable to create file " ++ Path.str p ++ " (Is a directory)"))
  else
    match fs_dirs fs !! dir with
    | None => Raise (OSError ("Unable to create file " ++ Path.str p))
    | Some entries =>
        let entries' :=
          if bool_decide (Path.name p ∈ entries) then entries
          else (entries ++ [Path.name p])%list in
        Ok {| fs_dirs := <[dir := entries']> (fs_dirs fs);
              fs_files := <[Path.str p := h5_empty]> (fs_files fs) |}
    end.

(** [h5py.File(p, "r")] *)
Definition open_r (fs : filesystem) (p : Path.t) : result h5file :=
  match fs_files fs !! Path.str p with
  | Some f => Ok f
  | None => Raise (OSError ("Unable to open file " ++ Path.str p))
  end.

(** What the file holds when the handle is closed. *)
Definition close (fs : filesystem) (p : Path.t) (f : h5file) : filesystem :=
  {| fs_dirs := fs_dirs fs; fs_files := <[Path.str p := f]> (fs_files fs) |}.

End H5.

(* ===================================================================== *)
(** ** [filter_and_sort_files] *)
(* ===================================================================== *)

(** [PATH_LIKE = Union[str, Path]] *)
Inductive PATH_LIKE : Type :=
| IsPath (p : Path.t)
| IsStr (s : string).

(** [MAYBE_PATHS = Union[PATH_LIKE, Iterable[PATH_LIKE]]] *)
Inductive MAYBE_PATHS : Type :=
| Single (f : PATH_LIKE)
| Several (l : list PATH_LIKE).

Definition is_path (f : PATH_LIKE) : bool :=
  match f with IsPath _ => true | IsStr _ => false end.

Definition is_str (f : PATH_LIKE) : bool :=
  match f with IsStr _ => true | IsPath _ => false end.

(** [type(f)] *)
Definition type_of (f : PATH_LIKE) : Py.obj :=
  match f with
  | IsPath _ => Py.OType "PosixPath"
  | IsStr _ => Py.OType "str"
  end.

(** [Path(f)] *)
Definition to_path (f : PATH_LIKE) : Path.t :=
  match f with
  | IsPath p => p
  | IsStr s => Path.of_string s
  end.

(** [f"{f}"] *)
Definition path_like_str (f : PATH_LIKE) : string :=
  match f with
  | IsPath p => Path.str p
  | IsStr s => s
  end.

(** [f.name]: only a [Path] has the attribute. *)
Definition name_attr (f : PATH_LIKE) : result string :=
  match f with
  | IsPath p => Ok (Path.name p)
  | IsStr _ => Raise (AttributeError "'str' object has no attribute 'name'")
  end.

(** [f == g] *)
Definition path_like_eqb (f g : PATH_LIKE) : bool :=
  match f, g with
  | IsPath p, IsPath q => Path.eqb p q
  | IsStr s, IsStr t => String.eqb s t
  | _, _ => false
  end.

(** [f < g] *)
Definition path_like_lt (f g : PATH_LIKE) : result bool :=
  match f, g with
  | IsPath p, IsPath q => Ok (Path.ltb p q)
  | IsStr s, IsStr t => Ok (String.ltb s t)
  | IsPath _, IsStr _ =>
      Raise (TypeError "'<' not supported between instances of 'PosixPath' and 'str'")
  | IsStr _, IsPath _ =>
      Raise (TypeError "'<' not supported between instances of 'str' and 'PosixPath'")
  end.

(** The tuples that are sorted: [(m.group("t0"), f, m)]. *)
Definition entry : Type := string * PATH_LIKE * Re.Match.

Definition entry_t0 (t : entry) : string := fst (fst t).
Definition entry_file (t : entry) : PATH_LIKE := snd (fst t).
Definition entry_match (t : entry) : Re.Match := snd t.

(** [a < b] on two of these tuples: the first position where they differ
    ([==] is false) decides.  The match objects of two tuples are two
    objects, which are never equal and cannot be ordered. *)
Definition entry_lt (a b : entry) : result bool :=
  if negb (String.eqb (entry_t0 a) (entry_t0 b)) then
    Ok (String.ltb (entry_t0 a) (entry_t0 b))
  else if negb (path_like_eqb (entry_file a) (entry_file b)) then
    path_like_lt (entry_file a) (entry_file b)
  else
    Raise (TypeError "'<' not supported between instances of 're.Match' and 're.Match'").

(** What the function returns an element as: the file or its match. *)
Inductive item : Type :=
| File (f : PATH_LIKE)
| Matched (m : Re.Match).

(** [zip(map(fname_re.search, fname_it), fnames)] filtered on a match. *)
Fixpoint match_entries (fname_it : list string) (fnames : list PATH_LIKE)
    : list entry :=
  match fname_it, fnames with
  | n :: fname_it', f :: fnames' =>
      match Re.search fname_re n with
      | Some m => (Re.group m "t0", f, m) :: match_entries fname_it' fnames'
      | None => match_entries fname_it' fnames'
      end
  | _, _ => []
  end.

Definition filter_and_sort_files (fs : filesystem) (fnames : MAYBE_PATHS)
    (return_matches : bool) : result (list item) :=
  normalized <-
    match fnames with
    | Single f =>
        let fname_path := to_path f in
        match fs_dirs fs !! Path.str fname_path with
        | None =>
            Raise (ValueError ("'" ++ path_like_str f ++ "' is not a directory"))
        | Some entries =>
            let fnames :=
              List.map (fun n => IsPath {| Path.root := Path.root fname_path;
                                           Path.names := Path.names fname_path ++ [n] |})
                       entries in
            fname_it <- mapM name_attr fnames ;;
            Ok (fnames, fname_it)
        end
    | Several fnames =>
        if List.forallb is_path fnames then
          fname_it <- mapM name_attr fnames ;;
          Ok (fnames, fname_it)
        else if negb (List.forallb is_str fnames) then
          types <- Py.join ", " (List.map type_of fnames) ;;
          Raise (ValueError
                   ("'fnames' must either be a path to a directory "
                    ++ "or an iterable containing either all strings "
                    ++ "or all 'pathlib.Path' objects, instead found "
                    ++ types))
        else
          Ok (fnames, List.map (fun f => Path.name (to_path f)) fnames)
    end ;;
  let '(fnames, fname_it) := normalized in
  let tups := match_entries fname_it fnames in
  sorted_tups <- Py.sorted entry_lt tups ;;
  Ok (List.map (fun t => if return_matches then Matched (entry_match t)
                         else File (entry_file t))
               sorted_tups).

(* ===================================================================== *)
(** ** [read_timeseries] *)
(* ===================================================================== *)

(** [TimeSeries(data, t0=t0, sample_rate=sample_rate)]: the series keeps
    its start time and its sample rate as binary64 numbers, whatever
    kind of number it is given. *)
Record TimeSeries : Type := {
  ts_data : list sample;
  ts_t0 : float;
  ts_sample_rate : float
}.

(** [TimeSeriesDict]: channel names to series, in insertion order. *)
Definition TimeSeriesDict : Type := list (string * TimeSeries).

(** One turn of the loop over the requested channels. *)
Definition read_channel (path : Path.t) (f : h5file) (t0 : pynum)
    (ts_dict : TimeSeriesDict) (channel : string) : result TimeSeriesDict :=
  dataset <-
    match H5.get_dataset f channel with
    | Ok d => Ok d
    | Raise (KeyError _) =>
        fname <- Path.getattr path "fname" ;;
        Raise (ValueError ("Data file " ++ fname
                           ++ " doesn't contain channel " ++ channel))
    | Raise e => Raise e
    end ;;
  sample_rate <- H5.dataset_attr dataset "sample_rate" ;;
  Ok (Py.dict_set ts_dict channel
        {| ts_data := ds_data dataset;
           ts_t0 := pynum_float t0;
           ts_sample_rate := pynum_float sample_rate |}).

Fixpoint read_channels (path : Path.t) (f : h5file) (t0 : pynum)
    (ts_dict : TimeSeriesDict) (channels : list string) : result TimeSeriesDict :=
  match channels with
  | [] => Ok ts_dict
  | channel :: rest =>
      ts_dict' <- read_channel path f t0 ts_dict channel ;;
      read_channels path f t0 ts_dict' rest
  end.

Definition read_timeseries (fs : filesystem) (path : Path.t)
    (channels : list string) : result TimeSeriesDict :=
  let ts_dict : TimeSeriesDict := [] in
  f <- H5.open_r fs path ;;
  t0 <- H5.get_attr f "t0" ;;
  read_channels path f t0 ts_dict channels.

(* ===================================================================== *)
(** ** [write_timeseries] *)
(* ===================================================================== *)

(** What callers pass as [sample_rate]: the annotation allows a float or
    a list of floats, and nothing stops a caller from passing an [int]. *)
Inductive rate_spec : Type :=
| RateFloat (r : float)
| RateInt (z : Z)
| RateList (l : list float).

(** [**channels]: names to sample arrays, in the order given.  The names
    of a keyword dictionary are pairwise distinct. *)
Definition channel_map : Type := list (string * list sample).

(** [if isinstance(sample_rate, float):
       sample_rate = [sample_rate] * len(channels)] *)
Definition broadcast (sample_rate : rate_spec) (n : nat) : rate_spec :=
  match sample_rate with
  | RateFloat r => RateList (List.repeat r n)
  | _ => sample_rate
  end.

(** [len(sample_rate)] *)
Definition rate_len (sample_rate : rate_spec) : result nat :=
  match sample_rate with
  | RateList l => Ok (List.length l)
  | RateInt _ => Raise (TypeError "object of type 'int' has no len()")
  | RateFloat _ => Raise (TypeError "object of type 'float' has no len()")
  end.

(** Iterating over [sample_rate] *)
Definition rate_iter (sample_rate : rate_spec) : result (list float) :=
  match sample_rate with
  | RateList l => Ok l
  | RateInt _ => Raise (TypeError "'int' object is not iterable")
  | RateFloat _ => Raise (TypeError "'float' object is not iterable")
  end.

(** [sample_rate[i]] *)
Definition rate_index (sample_rate : rate_spec) (i : nat) : result float :=
  match sample_rate with
  | RateList l =>
      match List.nth_error l i with
      | Some r => Ok r
      | None => Raise (IndexError "list index out of range")
      end
  | RateInt _ => Raise (TypeError "'int' object is not subscriptable")
  | RateFloat _ => Raise (TypeError "'float' object is not subscriptable")
  end.

(** [len(dataset) / sample_rate] for each channel and its rate. *)
Fixpoint durations (datasets : list (list sample)) (rates : list float)
    : result (list float) :=
  match datasets, rates with
  | dataset :: datasets', sample_rate :: rates' =>
      d <- Float.div (Float.of_Z (Z.of_nat (List.length dataset))) sample_rate ;;
      ds <- durations datasets' rates' ;;
      Ok (d :: ds)
  | _, _ => Ok []
  end.

(** [int(length) if int(length) == length else length] *)
Definition normalize_length (length : float) : result pynum :=
  z <- Float.to_int length ;;
  if Float.int_eqb z length then
    z' <- Float.to_int length ;; Ok (PyInt z')
  else Ok (PyFloat length).

(** [f"{prefix}-{t0}-{length}.hdf5"] *)
Definition segment_name (prefix : string) (t0 : pynum) (length : pynum) : string :=
  prefix ++ "-" ++ pynum_str t0 ++ "-" ++ pynum_str length ++ ".hdf5".

(** The loop that fills the open file, from index [i] on.  It returns
    the state of the file together with the outcome, since what was
    written before an exception stays written. *)
Fixpoint write_channels (f : h5file) (t0 : pynum) (sample_rate : rate_spec)
    (i : nat) (channels : channel_map) : result unit * h5file :=
  match channels with
  | [] => (Ok tt, f)
  | (key, value) :: rest =>
      match H5.set_attr f "t0" t0 with
      | Raise e => (Raise e, f)
      | Ok f =>
          match H5.create_dataset f key value with
          | Raise e => (Raise e, f)
          | Ok f =>
              match rate_index sample_rate i with
              | Raise e => (Raise e, f)
              | Ok r =>
                  match H5.set_dataset_attr f key "sample_rate" (PyFloat r) with
                  | Raise e => (Raise e, f)
                  | Ok f => write_channels f t0 sample_rate (S i) rest
                  end
              end
          end
      end
  end.

(** The exception of the duration check. *)
Definition duration_error : exn :=
  ValueError "Duration of datasets must all be equal".

(** Everything before the file is opened: the validations and the name. *)
Definition prepare_write (write_dir : Path.t) (t0 : pynum)
    (sample_rate : rate_spec) (prefix : string) (channels : channel_map)
    : result (rate_spec * Path.t) :=
  let sample_rate := broadcast sample_rate (List.length channels) in
  n <- rate_len sample_rate ;;
  if negb (Nat.eqb n (List.length channels)) then
    Raise (ValueError ("Only " ++ Str.of_Z (Z.of_nat n) ++ " sample rates "
                       ++ "provided for "
                       ++ Str.of_Z (Z.of_nat (List.length channels))
                       ++ " channels"))
  else
    rates <- rate_iter sample_rate ;;
    lengths <- durations (List.map snd channels) rates ;;
    if negb (Nat.eqb (List.length (Py.set lengths)) 1) then
      Raise (ValueError "Duration of datasets must all be equal")
    else
      length <- match lengths with
                | length :: _ => Ok length
                | [] => Raise (IndexError "list index out of range")
                end ;;
      length <- normalize_length length ;;
      Ok (sample_rate, Path.join write_dir (segment_name prefix t0 length)).

(** The function returns its result and the file system it leaves. *)
Definition write_timeseries (fs : filesystem) (write_dir : Path.t) (t0 : pynum)
    (sample_rate : rate_spec) (prefix : string) (channels : channel_map)
    : result Path.t * filesystem :=
  match prepare_write write_dir t0 sample_rate prefix channels with
  | Raise e => (Raise e, fs)
  | Ok (sample_rate, fname) =>
      match H5.open_w fs fname with
      | Raise e => (Raise e, fs)
      | Ok fs' =>
          let '(r, f) := write_channels h5_empty t0 sample_rate 0 channels in
          let fs'' := H5.close fs' fname f in
          match r with
          | Raise e => (Raise e, fs'')
          | Ok _ => (Ok fname, fs'')
          end
      end
  end.

(* ===================================================================== *)
(** ** Sample data for the examples *)
(* ===================================================================== *)

Module Demo.

(** [n] samples, all zero. *)
Definition zeros (n : nat) : list sample := List.repeat (Float.of_Z 0) n.

(** A file system with one empty directory, [data]. *)
Definition fs : filesystem :=
  {| fs_dirs := {[ "data" := [] ]}; fs_files := ∅ |}.

Definition dir : Path.t := Path.of_string "data".

(** An archive with the single channel [strain]: four samples at 2 Hz. *)
Definition archive : h5file :=
  {| h5_attrs := {[ "t0" := PyInt 1000000000 ]};
     h5_datasets :=
       {[ "strain" := {| ds_data := zeros 4;
                         ds_attrs := {[ "sample_rate" := PyFloat (Float.of_Z 2) ]} |} ]} |}.

Definition archive_path : Path.t := Path.of_string "data/H1-1000000000-2.hdf5".

Definition fs_with_archive : filesystem :=
  {| fs_dirs := {[ "data" := ["H1-1000000000-2.hdf5"] ]};
     fs_files := {[ "data/H1-1000000000-2.hdf5" := archive ]} |}.

End Demo.

(* ===================================================================== *)
(** ** What a write is expected to leave and a read to return *)
(* ===================================================================== *)

(** The series a read should return for channels written at [t0] with
    the given rates, in the order of the channels. *)
Fixpoint series_of (t0 : pynum) (channels : channel_map) (rates : list float)
    : TimeSeriesDict :=
  match channels, rates with
  | (key, value) :: channels', r :: rates' =>
      (key, {| ts_data := value; ts_t0 := pynum_float t0; ts_sample_rate := r |})
      :: series_of t0 channels' rates'
  | _, _ => []
  end.

(** The datasets of an archive after the channels were added to [m]. *)
Fixpoint stored (channels : channel_map) (rates : list float)
    (m : gmap string dataset) : gmap string dataset :=
  match channels, rates with
  | (key, value) :: channels', r :: rates' =>
      stored channels' rates'
        (<[key := {| ds_data := value;
                     ds_attrs := {[ "sample_rate" := PyFloat r ]} |}]> m)
  | _, _ => m
  end.

(** In terms of the channels: any two of them have equal durations. *)
Definition pairwise_equal (lengths : list float) : Prop :=
  forall i j x y, i <> j -> lengths !! i = Some x -> lengths !! j = Some y ->
                  Float.eqb x y = true.

(** Every channel is in the archive with its samples and its rate. *)
Definition holds (m : gmap string dataset) (entry : string * TimeSeries) : Prop :=
  m !! fst entry
  = Some {| ds_data := ts_data (snd entry);
            ds_attrs := {[ "sample_rate" := PyFloat (ts_sample_rate (snd entry)) ]} |}.

(* ===================================================================== *)
(** ** The filename grammar as the specification states it *)
(* ===================================================================== *)

(** [<prefix>-<t0>-<length>.<suffix>], field by field. *)
Module Grammar.

(** prefix: one or more of [a-zA-Z0-9_:-] *)
Definition valid_prefix (s : string) : bool :=
  negb (String.eqb s "") && Str.forallb prefix_char s.

(** t0: ten digits *)
Definition valid_t0 (s : string) : bool :=
  Nat.eqb (String.length s) 10 && Str.forallb Str.is_digit s.

(** length: one to four digits, the first one not zero *)
Definition valid_length (s : string) : bool :=
  match s with
  | String c rest =>
      Str.is_nonzero_digit c && Str.forallb Str.is_digit rest
      && Nat.leb (String.length rest) 3
  | EmptyString => false
  end.

(** suffix: gwf, hdf5 or h5 *)
Definition valid_suffix (s : string) : bool :=
  String.eqb s "gwf" || String.eqb s "hdf5" || String.eqb s "h5".

(** A file name follows the grammar when it is the four fields joined by
    two dashes and a dot. *)
Definition conforms (name : string) : Prop :=
  exists p t l x,
    valid_prefix p = true /\ valid_t0 t = true /\ valid_length l = true
    /\ valid_suffix x = true
    /\ name = p ++ "-" ++ t ++ "-" ++ l ++ "." ++ x.

(** The names the pattern matches: the fields of the grammar, with any
    character but a newline where the grammar has its dot. *)
Definition accepted (w rest : string) (caps : Re.captures) : Prop :=
  exists p t l c x,
    valid_prefix p = true /\ valid_t0 t = true /\ valid_length l = true
    /\ Ascii.eqb c Str.newline = false /\ valid_suffix x = true
    /\ w = p ++ "-" ++ t ++ "-" ++ l ++ String c x
    /\ (rest = "" \/ rest = String Str.newline "")
    /\ caps = [("suffix", x); ("length", l); ("t0", t); ("prefix", p)].

End Grammar.

(* ===================================================================== *)
(** ** Vocabulary for the properties of the catalog sorter *)
(* ===================================================================== *)

(** The name the sorter matches against the pattern: [Path(f).name]. *)
Definition base_name (f : PATH_LIKE) : string := Path.name (to_path f).

(** Whether the name of a file is matched by [fname_re]. *)
Definition matched (f : PATH_LIKE) : bool :=
  match Re.search fname_re (base_name f) with
  | Some _ => true
  | None => false
  end.

(** The number in the [t0] field of the name of a file. *)
Definition file_t0 (f : PATH_LIKE) : Z :=
  match Re.search fname_re (base_name f) with
  | Some m => Str.value (Re.group m "t0")
  | None => 0
  end.

(** A collection of one kind: all paths or all strings. *)
Definition homogeneous (l : list PATH_LIKE) : Prop :=
  List.forallb is_path l = true \/ List.forallb is_str l = true.

(** No element of the collection equals ([==]) an earlier one. *)
Definition pairwise_distinct (l : list PATH_LIKE) : Prop :=
  ForallOrdPairs (fun f g => path_like_eqb g f = false) l.

(** An entry as [filter_and_sort_files] builds it from a file. *)
Definition entry_of (t : entry) : Prop :=
  Re.search fname_re (base_name (entry_file t)) = Some (entry_match t)
  /\ entry_t0 t = Re.group (entry_match t) "t0".

(** A string that ends in a character that is not a digit followed by
    digits only; after a minus sign there are at most three digits and
    before it the letter e. *)
Definition ends_in_run (r : string) : Prop :=
  exists s c D,
    r = s ++ String c D
    /\ Str.is_digit c = false /\ Str.forallb Str.is_digit D = true
    /\ (c = "-"%char ->
        (String.length D <= 3)%nat /\ exists s', s = s' ++ "e").

(* ===================================================================== *)
(** ** Vocabulary for the properties of the read path *)
(* ===================================================================== *)

(** The distinct elements of [l] that are not in [seen], in the order in
    which they first occur: the keys a dictionary gets when the elements
    are set one after the other. *)
Fixpoint first_occurrences (seen l : list string) : list string :=
  match l with
  | [] => []
  | x :: l' =>
      if bool_decide (x ∈ seen) then first_occurrences seen l'
      else x :: first_occurrences (x :: seen) l'
  end.

(** The series [ts] is what the archive holds for channel [c]: the
    channel is a dataset with a sample rate, and the series has its
    samples, that rate and the [t0] of the file, both as binary64
    numbers. *)
Definition readable (f : h5file) (t0 : pynum) (c : string) (ts : TimeSeries) : Prop :=
  exists d rate,
    h5_datasets f !! c = Some d
    /\ ds_attrs d !! "sample_rate" = Some rate
    /\ ts_sample_rate ts = pynum_float rate
    /\ ts_data ts = ds_data d /\ ts_t0 ts = pynum_float t0.

(* ===================================================================== *)
(** ** Vocabulary for the conditions of a round trip *)
(* ===================================================================== *)

(** A channel name that is one link name of the file format: not empty,
    not [.], with no slash and no NUL in it. *)
Definition plain_name (k : string) : bool :=
  Path.is_name k
  && Str.forallb (fun c => Str.no_slash c && negb (Ascii.eqb c Ascii.zero)) k.



(** A file can be created at [p]: the directory it goes into exists, [p]
    is not itself a directory, and neither the name nor the whole path is
    longer than the system takes. *)
Definition creatable (fs : filesystem) (p : Path.t) : Prop :=
  is_Some (fs_dirs fs !! Path.str (Path.parent p))
  /\ fs_dirs fs !! Path.str p = None
  /\ (Str.utf8_length (Path.name p) <= H5.NAME_MAX)%nat
  /\ (Str.utf8_length (Path.str p) < H5.PATH_MAX)%nat.

(* ===================================================================== *)
(** ** Vocabulary for the order the catalog sorter puts files in *)
(* ===================================================================== *)

(** What [==] and [<] look at in a file: the parts of a path, the string
    itself. *)
Definition file_key (f : PATH_LIKE) : list string :=
  match f with
  | IsPath p => Path.parts p
  | IsStr s => [s]
  end.

(** What the sort compares in the tuple of a file before it gets to the
    match object: the [t0] field and the file. *)
Definition entry_key (t : entry) : list string :=
  entry_t0 t :: file_key (entry_file t).

(** [f] is sorted before [g]: it has the earlier [t0], or the same [t0]
    and is the smaller file ([f < g]). *)
Definition comes_before (f g : PATH_LIKE) : Prop :=
  file_t0 f < file_t0 g
  \/ (file_t0 f = file_t0 g /\ path_like_lt f g = Ok true).

(** The path [iterdir] yields for the entry [n] of the directory [dir]. *)
Definition child (dir : Path.t) (n : string) : PATH_LIKE :=
  IsPath {| Path.root := Path.root dir; Path.names := Path.names dir ++ [n] |}.

(** The exception of comparing two match objects. *)
Definition match_tie : exn :=
  TypeError "'<' not supported between instances of 're.Match' and 're.Match'".

(** What decides the place of a file in the sorted list: the [t0] field
    the pattern captures in its name, then the file. *)
Definition sort_key (f : PATH_LIKE) : list string :=
  match Re.search fname_re (base_name f) with
  | Some m => Re.group m "t0" :: file_key f
  | None => []
  end.

(* ===================================================================== *)
(** * Properties *)
(* ===================================================================== *)

(** String concatenation unfolds on a constructor. *)
#[local] Arguments String.append !_ _ /.

(** ** Strings *)

Module StrFacts.

Lemma app_nil_r (s : string) : s ++ "" = s.
Proof. induction s; cbn; congruence. Qed.

Lemma app_assoc (a b c : string) : (a ++ b) ++ c = a ++ b ++ c.
Proof. induction a; cbn; congruence. Qed.

Lemma length_app (a b : string) :
  String.length (a ++ b) = (String.length a + String.length b)%nat.
Proof. induction a; cbn; congruence. Qed.

Lemma forallb_app p (a b : string) :
  Str.forallb p (a ++ b) = Str.forallb p a && Str.forallb p b.
Proof. induction a; cbn; [reflexivity|]. rewrite IHa. apply andb_assoc. Qed.

Lemma take_app (a b : string) : Str.take (String.length a) (a ++ b) = a.
Proof. induction a; cbn; [destruct b; reflexivity|congruence]. Qed.

Lemma strip_prefix_app l s s' : Str.strip_prefix l s = Some s' -> s = l ++ s'.
Proof.
  revert s. induction l as [|a l IH]; intros s H; cbn in *.
  - congruence.
  - destruct s as [|b s]; [discriminate|].
    destruct (Ascii.eqb_spec a b) as [->|]; [|discriminate].
    f_equal. now apply IH.
Qed.

Lemma strip_prefix_complete l s : Str.strip_prefix l (l ++ s) = Some s.
Proof. induction l as [|a l IH]; cbn; [reflexivity|]. now rewrite Ascii.eqb_refl. Qed.

End StrFacts.

(** ** Strings of digits and the numbers they stand for *)

Module DigitFacts.

Lemma value_acc_app acc s :
  Str.value_acc acc s = acc * 10 ^ Z.of_nat (String.length s) + Str.value s.
Proof.
  unfold Str.value. revert acc.
  induction s as [|c s IH]; intros acc; cbn [Str.value_acc String.length].
  - cbn. lia.
  - rewrite IH, (IH (10 * 0 + _)).
    rewrite Nat2Z.inj_succ, Z.pow_succ_r by lia. ring.
Qed.

Lemma value_cons c s :
  Str.value (String c s)
  = Str.digit_val c * 10 ^ Z.of_nat (String.length s) + Str.value s.
Proof.
  unfold Str.value at 1. cbn [Str.value_acc]. rewrite value_acc_app. ring.
Qed.

Lemma digit_val_bound c : Str.is_digit c = true -> 0 <= Str.digit_val c <= 9.
Proof.
  unfold Str.is_digit, Str.digit_val. intros H.
  apply andb_prop in H as [H1 H2].
  apply Nat.leb_le in H1, H2. lia.
Qed.

Lemma value_bound s :
  Str.forallb Str.is_digit s = true ->
  0 <= Str.value s < 10 ^ Z.of_nat (String.length s).
Proof.
  induction s as [|c s IH]; intros H.
  - cbn. lia.
  - cbn in H. apply andb_prop in H as [Hc Hs].
    rewrite value_cons. cbn [String.length].
    rewrite Nat2Z.inj_succ, Z.pow_succ_r by lia.
    pose proof (digit_val_bound c Hc). specialize (IH Hs). nia.
Qed.

Lemma ascii_compare_digit_val c1 c2 :
  Ascii.compare c1 c2 = (Str.digit_val c1 ?= Str.digit_val c2).
Proof.
  unfold Ascii.compare, Str.digit_val, nat_of_ascii.
  rewrite !N_nat_Z.
  destruct (N.compare_spec (N_of_ascii c1) (N_of_ascii c2)) as [E|E|E];
    symmetry;
    [apply Z.compare_eq_iff|apply Z.compare_lt_iff|apply Z.compare_gt_iff]; lia.
Qed.

(** Two strings of digits of the same length compare as their values. *)
Lemma compare_value a : forall b,
  String.length a = String.length b ->
  Str.forallb Str.is_digit a = true -> Str.forallb Str.is_digit b = true ->
  String.compare a b = (Str.value a ?= Str.value b).
Proof.
  induction a as [|c1 a IH]; intros [|c2 b] Hlen Ha Hb; try discriminate.
  - reflexivity.
  - cbn in Hlen, Ha, Hb. injection Hlen as Hlen.
    apply andb_prop in Ha as [Hc1 Ha]. apply andb_prop in Hb as [Hc2 Hb].
    cbn [String.compare]. rewrite ascii_compare_digit_val, !value_cons, <- Hlen.
    pose proof (value_bound a Ha) as Hva. pose proof (value_bound b Hb) as Hvb.
    rewrite <- Hlen in Hvb. specialize (IH b Hlen Ha Hb).
    set (n := 10 ^ Z.of_nat (String.length a)) in *.
    destruct (Z.compare_spec (Str.digit_val c1) (Str.digit_val c2)) as [E|E|E].
    + rewrite IH, E. symmetry.
      destruct (Z.compare_spec (Str.value a) (Str.value b));
        [apply Z.compare_eq_iff|apply Z.compare_lt_iff|apply Z.compare_gt_iff]; lia.
    + symmetry. apply Z.compare_lt_iff. nia.
    + symmetry. apply Z.compare_gt_iff. nia.
Qed.

End DigitFacts.

(** ** Printing integers *)

Module PrintFacts.

Lemma digit_char_digit d : 0 <= d <= 9 -> Str.is_digit (Str.digit_char d) = true.
Proof.
  intros H.
  assert (E : d = 0 \/ d = 1 \/ d = 2 \/ d = 3 \/ d = 4 \/ d = 5 \/ d = 6
              \/ d = 7 \/ d = 8 \/ d = 9) by lia.
  repeat (destruct E as [->|E]; [reflexivity|]). now subst.
Qed.

Lemma digit_char_nonzero d :
  1 <= d <= 9 -> Str.is_nonzero_digit (Str.digit_char d) = true.
Proof.
  intros H.
  assert (E : d = 1 \/ d = 2 \/ d = 3 \/ d = 4 \/ d = 5 \/ d = 6
              \/ d = 7 \/ d = 8 \/ d = 9) by lia.
  repeat (destruct E as [->|E]; [reflexivity|]). now subst.
Qed.

Lemma nonzero_digit_digit c : Str.is_nonzero_digit c = true -> Str.is_digit c = true.
Proof.
  unfold Str.is_nonzero_digit, Str.is_digit. intros H.
  apply andb_prop in H as [H1 H2]. apply Nat.leb_le in H1.
  rewrite H2, andb_true_r. apply Nat.leb_le. lia.
Qed.

(** A number with [j + 1] decimal digits prints as a digit that is not
    zero followed by [j] digits. *)
Lemma digits_of_spec j : forall fuel n acc,
  (j < fuel)%nat -> 10 ^ Z.of_nat j <= n < 10 ^ (Z.of_nat j + 1) ->
  exists c D,
    Str.digits_of fuel n acc = String c (D ++ acc)
    /\ Str.is_nonzero_digit c = true /\ Str.forallb Str.is_digit D = true
    /\ String.length D = j.
Proof.
  induction j as [|j IH]; intros fuel n acc Hf Hn.
  - destruct fuel as [|fuel]; [lia|]. cbn in Hn. cbn [Str.digits_of].
    destruct (Z.ltb_spec n 10); [|lia].
    exists (Str.digit_char (n mod 10)), "". cbn.
    rewrite Z.mod_small by lia. split; [reflexivity|].
    split; [apply digit_char_nonzero; lia|]. auto.
  - destruct fuel as [|fuel]; [lia|]. cbn [Str.digits_of].
    rewrite Nat2Z.inj_succ in Hn.
    replace (Z.succ (Z.of_nat j) + 1) with (Z.succ (Z.of_nat j + 1)) in Hn by lia.
    rewrite !Z.pow_succ_r in Hn by lia.
    assert (0 < 10 ^ Z.of_nat j) by (apply Z.pow_pos_nonneg; lia).
    destruct (Z.ltb_spec n 10); [lia|].
    destruct (IH fuel (n / 10) (String (Str.digit_char (n mod 10)) acc))
      as (c & D & -> & Hc & HD & Hlen); [lia| |].
    { split; [apply Z.div_le_lower_bound; lia|apply Z.div_lt_upper_bound; lia]. }
    exists c, (D ++ String (Str.digit_char (n mod 10)) "").
    rewrite StrFacts.app_assoc. cbn [String.append].
    split; [reflexivity|]. split; [exact Hc|].
    rewrite StrFacts.forallb_app, HD, StrFacts.length_app, Hlen. cbn.
    rewrite digit_char_digit by (pose proof (Z.mod_pos_bound n 10); lia).
    split; [reflexivity|lia].
Qed.

Lemma of_Z_spec j n :
  10 ^ Z.of_nat j <= n < 10 ^ (Z.of_nat j + 1) ->
  exists c D,
    Str.of_Z n = String c D
    /\ Str.is_nonzero_digit c = true /\ Str.forallb Str.is_digit D = true
    /\ String.length D = j.
Proof.
  intros Hn.
  assert (Hpos : 0 < n).
  { assert (0 < 10 ^ Z.of_nat j) by (apply Z.pow_pos_nonneg; lia). lia. }
  unfold Str.of_Z. destruct (Z.ltb_spec n 0); [lia|]. unfold Str.of_nonneg.
  destruct (digits_of_spec j (S (Z.to_nat (Z.log2 n))) n "") as (c & D & E & H');
    [|exact Hn|].
  - assert (Z.of_nat j <= Z.log2 n); [|lia].
    apply Z.log2_le_pow2; [lia|].
    etransitivity; [|apply Hn]. apply Z.pow_le_mono_l. lia.
  - exists c, D. rewrite E, StrFacts.app_nil_r. auto.
Qed.

(** Ten digits for an integer of ten digits. *)
Lemma of_Z_t0 n : 10 ^ 9 <= n < 10 ^ 10 -> Grammar.valid_t0 (Str.of_Z n) = true.
Proof.
  intros Hn. destruct (of_Z_spec 9 n Hn) as (c & D & -> & Hc & HD & Hlen).
  unfold Grammar.valid_t0. cbn. rewrite Hlen, HD, (nonzero_digit_digit c Hc).
  reflexivity.
Qed.

(** One to four digits, the first not zero, from 1 to 9999. *)
Lemma of_Z_length n : 1 <= n <= 9999 -> Grammar.valid_length (Str.of_Z n) = true.
Proof.
  intros Hn.
  assert (Hj : exists j, (j <= 3)%nat /\ 10 ^ Z.of_nat j <= n < 10 ^ (Z.of_nat j + 1)).
  { destruct (Z.lt_ge_cases n 10); [exists 0%nat; cbn; lia|].
    destruct (Z.lt_ge_cases n 100); [exists 1%nat; cbn; lia|].
    destruct (Z.lt_ge_cases n 1000); [exists 2%nat; cbn; lia|].
    exists 3%nat; cbn; lia. }
  destruct Hj as (j & Hj & Hb).
  destruct (of_Z_spec j n Hb) as (c & D & -> & Hc & HD & Hlen).
  cbn. rewrite Hc, HD, Hlen. cbn. now apply Nat.leb_le.
Qed.

Lemma digit_val_char d : 0 <= d <= 9 -> Str.digit_val (Str.digit_char d) = d.
Proof.
  intros H.
  assert (E : d = 0 \/ d = 1 \/ d = 2 \/ d = 3 \/ d = 4 \/ d = 5 \/ d = 6
              \/ d = 7 \/ d = 8 \/ d = 9) by lia.
  repeat (destruct E as [->|E]; [reflexivity|]). now subst.
Qed.

Lemma digits_of_value fuel : forall n acc,
  0 <= n < 2 ^ Z.of_nat fuel ->
  Str.value (Str.digits_of fuel n acc)
  = n * 10 ^ Z.of_nat (String.length acc) + Str.value acc.
Proof.
  induction fuel as [|fuel IH]; intros n acc Hn.
  - assert (n = 0) by (cbn in Hn; lia). subst. reflexivity.
  - cbn [Str.digits_of].
    pose proof (Z.mod_pos_bound n 10 ltac:(lia)) as Hm.
    pose proof (Z.div_mod n 10 ltac:(lia)) as Hdm.
    destruct (Z.ltb_spec n 10).
    + rewrite DigitFacts.value_cons, digit_val_char, Z.mod_small by lia.
      reflexivity.
    + rewrite IH.
      * rewrite DigitFacts.value_cons, digit_val_char by lia.
        cbn [String.length]. rewrite Nat2Z.inj_succ, Z.pow_succ_r by lia.
        set (p := 10 ^ Z.of_nat (String.length acc)). nia.
      * rewrite Nat2Z.inj_succ, Z.pow_succ_r in Hn by lia.
        split; [apply Z.div_pos; lia|].
        apply Z.div_lt_upper_bound; lia.
Qed.

(** Reading the printed form of a non-negative integer gives it back. *)
Lemma of_Z_value n : 0 <= n -> Str.value (Str.of_Z n) = n.
Proof.
  intros Hn. unfold Str.of_Z. destruct (Z.ltb_spec n 0); [lia|].
  unfold Str.of_nonneg. rewrite digits_of_value.
  - cbn. unfold Str.value. cbn. lia.
  - split; [exact Hn|]. rewrite Nat2Z.inj_succ, Z2Nat.id by apply Z.log2_nonneg.
    destruct (Z.eq_dec n 0) as [->|]; [cbn; lia|].
    apply Z.log2_spec. lia.
Qed.

End PrintFacts.

(** ** Equality of floats and the set of durations *)

Module FloatFacts.

Lemma compare_finite_eq (s s' : bool) (m m' : positive) (e e' : Z) :
  SFcompare (S754_finite s m e) (S754_finite s' m' e') = Some Eq
  <-> s = s' /\ m = m' /\ e = e'.
Proof.
  cbn. fold (Pos.compare m m').
  destruct s, s';
    destruct (Z.compare_spec e e') as [He|He|He];
    destruct (Pos.compare_spec m m') as [Hm|Hm|Hm]; cbn;
    split; try discriminate;
    try (intros (? & ? & ?); subst; auto; lia || discriminate);
    try (intros _; subst; auto).
Qed.

Lemma eqb_same_value x y : Float.eqb x y = true <-> Float.same_value x y.
Proof.
  unfold Float.eqb, SFeqb.
  destruct x as [s| s | |s m e], y as [s'|s'| |s' m' e'];
    try (cbn; split; [discriminate|contradiction]);
    try (cbn; split; [reflexivity|tauto]).
  all: try (cbn; destruct s; split; (discriminate || contradiction)).
  all: try (cbn; destruct s'; split; (discriminate || contradiction)).
  all: try (cbn; destruct s, s'; split; (reflexivity || discriminate)).
  pose proof (compare_finite_eq s s' m m' e e') as H.
  destruct (SFcompare (S754_finite s m e) (S754_finite s' m' e')) as [[]|];
    cbn [Float.same_value]; rewrite <- H; split; congruence.
Qed.

Lemma same_value_sym x y : Float.same_value x y -> Float.same_value y x.
Proof.
  destruct x, y; cbn; try tauto; try congruence.
  intros (-> & -> & ->). auto.
Qed.

Lemma same_value_trans x y z : Float.same_value x y -> Float.same_value y z -> Float.same_value x z.
Proof.
  destruct x, y, z; cbn; try tauto; try congruence.
  intros (-> & -> & ->) (-> & -> & ->). auto.
Qed.

Lemma eqb_sym x y : Float.eqb x y = true -> Float.eqb y x = true.
Proof. rewrite !eqb_same_value. apply same_value_sym. Qed.

Lemma eqb_trans x y z :
  Float.eqb x y = true -> Float.eqb y z = true -> Float.eqb x z = true.
Proof. rewrite !eqb_same_value. apply same_value_trans. Qed.

Lemma set_add_length s x : (List.length s <= List.length (Py.set_add s x))%nat.
Proof.
  unfold Py.set_add. destruct (List.existsb (Float.eqb x) s); [lia|].
  rewrite length_app. lia.
Qed.

Lemma set_fold_length l : forall s,
  (List.length s <= List.length (List.fold_left Py.set_add l s))%nat.
Proof.
  induction l as [|y l IH]; intros s; cbn; [lia|].
  etransitivity; [apply set_add_length|apply IH].
Qed.

Lemma set_fold_same x l :
  Forall (fun y => Float.eqb y x = true) l ->
  List.fold_left Py.set_add l [x] = [x].
Proof.
  induction 1 as [|y l Hy _ IH]; [reflexivity|].
  cbn. unfold Py.set_add at 2. cbn. now rewrite Hy.
Qed.

Lemma set_fold_one x l :
  List.length (List.fold_left Py.set_add l [x]) = 1%nat ->
  Forall (fun y => Float.eqb y x = true) l.
Proof.
  induction l as [|y l IH]; intros Hlen; [constructor|].
  cbn in Hlen. unfold Py.set_add at 2 in Hlen. cbn in Hlen.
  destruct (Float.eqb y x) eqn:Hy; cbn in Hlen.
  - constructor; auto.
  - pose proof (set_fold_length l [x; y]) as Hle. cbn in Hle. lia.
Qed.

(** The set of a non-empty list has one element exactly when every
    element equals the first. *)
Lemma set_size_one x l :
  List.length (Py.set (x :: l)) = 1%nat <-> Forall (fun y => Float.eqb y x = true) l.
Proof.
  unfold Py.set. cbn. split.
  - apply set_fold_one.
  - intros H. now rewrite set_fold_same.
Qed.

Lemma pairwise_equal_first x l :
  pairwise_equal (x :: l) <-> Forall (fun y => Float.eqb y x = true) l.
Proof.
  split.
  - intros H. apply Forall_lookup. intros j y Hj.
    apply (H (S j) 0%nat y x); [lia|exact Hj|reflexivity].
  - intros H i j a b Hij Ha Hb.
    rewrite Forall_lookup in H.
    destruct i as [|i], j as [|j]; cbn in Ha, Hb; try lia.
    + injection Ha as <-. apply eqb_sym. eauto.
    + injection Hb as <-. eauto.
    + eapply eqb_trans; [eapply H, Ha|apply eqb_sym; eapply H, Hb].
Qed.

End FloatFacts.

(** ** The matcher against the declarative reading of patterns *)

Module ReFacts.
Import Re.

Lemma consumed_app w s : consumed (w ++ s) s = w.
Proof.
  unfold consumed. rewrite StrFacts.length_app.
  replace (String.length w + String.length s - String.length s)%nat
    with (String.length w) by lia.
  apply StrFacts.take_app.
Qed.

Section Exec.
Context {R : Type}.
Implicit Types (k : string -> option R) (p : ascii -> bool).

Lemma orelse_some (a b : option R) r :
  orelse a b = Some r -> a = Some r \/ b = Some r.
Proof. destruct a; cbn; auto. Qed.

Lemma orelse_is_some (a b : option R) :
  is_Some a \/ is_Some b -> is_Some (orelse a b).
Proof. destruct a; cbn; [eauto|]. intros [[? [=]]|H]; exact H. Qed.

Lemma star_sound p s k r :
  star p s k = Some r ->
  exists a b, s = a ++ b /\ Str.forallb p a = true /\ k b = Some r.
Proof.
  induction s as [|c s IH]; cbn; intros H.
  - exists "", "". auto.
  - destruct (p c) eqn:Hc.
    + apply orelse_some in H as [H|H].
      * destruct (IH H) as (a & b & -> & Ha & Hk).
        exists (String c a), b. cbn. rewrite Hc, Ha. auto.
      * exists "", (String c s). auto.
    + exists "", (String c s). auto.
Qed.

Lemma star_complete p a b k :
  Str.forallb p a = true -> is_Some (k b) -> is_Some (star p (a ++ b) k).
Proof.
  intros Ha Hk. induction a as [|c a IH]; cbn in *.
  - destruct b as [|c b]; cbn; [exact Hk|].
    destruct (p c); [|exact Hk]. apply orelse_is_some. auto.
  - apply andb_prop in Ha as [Hc Ha]. rewrite Hc.
    apply orelse_is_some. auto.
Qed.

Lemma rep_sound p hi : forall lo s k r,
  rep p lo hi s k = Some r ->
  exists a b, s = a ++ b /\ Str.forallb p a = true
              /\ (lo <= String.length a <= hi)%nat /\ k b = Some r.
Proof.
  induction hi as [|hi IH]; intros lo s k r H.
  - cbn in H. destruct lo; [|discriminate].
    exists "", s. cbn. auto with lia.
  - cbn in H.
    assert (Hstop : match lo with O => k s | S _ => None end = Some r ->
                    exists a b, s = a ++ b /\ Str.forallb p a = true
                      /\ (lo <= String.length a <= S hi)%nat /\ k b = Some r).
    { destruct lo; [|discriminate]. intros Hk. exists "", s. cbn. auto with lia. }
    destruct s as [|c s]; [auto|].
    destruct (p c) eqn:Hc; [|auto].
    apply orelse_some in H as [H|H]; [|auto].
    destruct (IH _ _ _ _ H) as (a & b & -> & Ha & Hlen & Hk).
    exists (String c a), b. cbn. rewrite Hc, Ha.
    repeat split; auto; lia.
Qed.

Lemma rep_complete p hi : forall lo a b k,
  Str.forallb p a = true -> (lo <= String.length a <= hi)%nat ->
  is_Some (k b) -> is_Some (rep p lo hi (a ++ b) k).
Proof.
  induction hi as [|hi IH]; intros lo a b k Ha Hlen Hk.
  - destruct a; cbn in Hlen; [|lia]. destruct lo; [exact Hk|lia].
  - destruct a as [|c a].
    + cbn in Hlen. destruct lo; [|lia]. cbn.
      destruct b as [|c b]; [exact Hk|].
      destruct (p c); [|exact Hk]. apply orelse_is_some. auto.
    + cbn in Ha, Hlen. apply andb_prop in Ha as [Hc Ha].
      cbn. rewrite Hc. apply orelse_is_some. left.
      apply IH; auto. lia.
Qed.

Implicit Types (K : string -> captures -> option R).

(** Whatever the matcher returns comes from a way of matching the
    pattern at the start of the text. *)
Lemma exec_sound r : forall s caps K res,
  exec r s caps K = Some res ->
  exists w rest new,
    s = w ++ rest /\ Matches r w rest new /\ K rest (new ++ caps)%list = Some res.
Proof.
  induction r as [l|p| |r1 IH1 r2 IH2|r1 IH1 r2 IH2|p|lo hi p|name r IH|];
    intros s caps K res H; cbn in H.
  - destruct (Str.strip_prefix l s) as [s'|] eqn:Hs; [|discriminate].
    apply StrFacts.strip_prefix_app in Hs as ->.
    exists l, s', []. split; [reflexivity|]. split; [constructor|exact H].
  - destruct s as [|c s]; [discriminate|]. destruct (p c) eqn:Hc; [|discriminate].
    exists (String c ""), s, []. split; [reflexivity|]. split; [now constructor|exact H].
  - destruct s as [|c s]; [discriminate|].
    destruct (Ascii.eqb c Str.newline) eqn:Hc; [discriminate|].
    exists (String c ""), s, []. split; [reflexivity|]. split; [now constructor|exact H].
  - apply IH1 in H as (w1 & rest1 & c1 & -> & M1 & H).
    apply IH2 in H as (w2 & rest & c2 & -> & M2 & H).
    exists (w1 ++ w2), rest, (c2 ++ c1)%list.
    split; [now rewrite StrFacts.app_assoc|].
    split; [now constructor|]. now rewrite <- List.app_assoc.
  - apply orelse_some in H as [H|H].
    + apply IH1 in H as (w & rest & c & -> & M & H).
      exists w, rest, c. auto using M_Alt_l.
    + apply IH2 in H as (w & rest & c & -> & M & H).
      exists w, rest, c. auto using M_Alt_r.
  - destruct s as [|c s]; [discriminate|]. destruct (p c) eqn:Hc; [|discriminate].
    apply star_sound in H as (a & b & -> & Ha & H).
    exists (String c a), b, []. split; [reflexivity|]. split; [now constructor|exact H].
  - apply rep_sound in H as (a & b & -> & Ha & Hlen & H).
    exists a, b, []. split; [reflexivity|]. split; [now constructor|exact H].
  - apply IH in H as (w & rest & c & -> & M & H).
    rewrite consumed_app in H.
    exists w, rest, ((name, w) :: c). split; [reflexivity|]. split; [now constructor|exact H].
  - destruct s as [|c s].
    + exists "", "", []. split; [reflexivity|]. split; [constructor|exact H].
    + destruct s; [|discriminate].
      destruct (Ascii.eqb_spec c Str.newline) as [->|]; [|discriminate].
      exists "", (String Str.newline ""), []. split; [reflexivity|].
      split; [constructor|exact H].
Qed.

(** The matcher finds a match whenever there is a way of matching that
    the continuation accepts. *)
Lemma exec_complete r w rest new :
  Matches r w rest new ->
  forall caps K, is_Some (K rest (new ++ caps)%list) ->
                 is_Some (exec r (w ++ rest) caps K).
Proof.
  induction 1 as [l rest|p c rest Hc|c rest Hc|r1 r2 w1 w2 rest c1 c2 _ IH1 _ IH2
                 |r1 r2 w rest c _ IH|r1 r2 w rest c _ IH|p c w rest Hc Hw
                 |lo hi p w rest Hw Hlen|name r w rest c _ IH| |];
    intros caps K HK; cbn.
  - now rewrite StrFacts.strip_prefix_complete.
  - now rewrite Hc.
  - now rewrite Hc.
  - rewrite StrFacts.app_assoc. apply IH1. apply IH2.
    now rewrite List.app_assoc.
  - apply orelse_is_some. left. now apply IH.
  - apply orelse_is_some. right. now apply IH.
  - rewrite Hc. now apply star_complete.
  - now apply rep_complete.
  - apply IH. now rewrite consumed_app.
  - exact HK.
  - exact HK.
Qed.

End Exec.

Lemma search_from_sound r s : forall i m,
  search_from r i s = Some m ->
  exists pre w rest,
    s = pre ++ w ++ rest /\ Matches r w rest (m_groups m)
    /\ m_start m = (i + String.length pre)%nat.
Proof.
  induction s as [|c s IH]; intros i m H; cbn in H.
  - destruct (match_at r i "") as [m'|] eqn:Hm; [|discriminate].
    injection H as ->. unfold match_at in Hm.
    apply exec_sound in Hm as (w & rest & new & Hs & M & [= <-]).
    cbn. rewrite List.app_nil_r.
    exists "", w, rest. cbn. auto with lia.
  - destruct (match_at r i (String c s)) as [m'|] eqn:Hm.
    + injection H as ->. unfold match_at in Hm.
      apply exec_sound in Hm as (w & rest & new & Hs & M & [= <-]).
      cbn. rewrite List.app_nil_r.
      exists "", w, rest. cbn. auto with lia.
    + apply IH in H as (pre & w & rest & -> & M & Hst).
      exists (String c pre), w, rest. cbn. split; [reflexivity|].
      split; [exact M|lia].
Qed.

Lemma search_from_complete r w rest new pre : forall i,
  Matches r w rest new -> is_Some (search_from r i (pre ++ w ++ rest)).
Proof.
  induction pre as [|c pre IH]; intros i M.
  - cbn [String.append].
    assert (Hm : is_Some (match_at r i (w ++ rest))).
    { unfold match_at. eapply exec_complete; eauto. }
    destruct Hm as [m Hm].
    destruct (w ++ rest); cbn; rewrite Hm; eauto.
  - cbn. destruct (match_at r i _); [eauto|]. now apply IH.
Qed.

End ReFacts.

(** ** What [fname_re] accepts *)

Module FnameFacts.
Import Re Grammar.

Ltac invert_matches :=
  repeat match goal with
    | H : Matches (Cat _ _) _ _ _ |- _ => inversion H; subst; clear H
    | H : Matches (Group _ _) _ _ _ |- _ => inversion H; subst; clear H
    | H : Matches (Lit _) _ _ _ |- _ => inversion H; subst; clear H
    | H : Matches (Class _) _ _ _ |- _ => inversion H; subst; clear H
    | H : Matches (Plus _) _ _ _ |- _ => inversion H; subst; clear H
    | H : Matches (Repeat _ _ _) _ _ _ |- _ => inversion H; subst; clear H
    | H : Matches (Alt _ _) _ _ _ |- _ => inversion H; subst; clear H
    | H : Matches AnyChar _ _ _ |- _ => inversion H; subst; clear H
    | H : Matches Eos _ _ _ |- _ => inversion H; subst; clear H
    end.

Lemma fname_re_sound w rest caps :
  Matches fname_re w rest caps -> accepted w rest caps.
Proof.
  unfold fname_re, prefix_re, t0_re, length_re. intros M.
  invert_matches.
  all: match goal with
       | Hc : prefix_char ?c2 = true, Hp : Str.forallb prefix_char ?w = true,
         Ht : Str.forallb Str.is_digit ?t = true,
         Htl : (10 <= String.length ?t <= 10)%nat,
         Hd : Str.is_nonzero_digit ?c0 = true,
         Hl : Str.forallb Str.is_digit ?l = true,
         Hll : (0 <= String.length ?l <= 3)%nat
         |- accepted (_ ++ _ ++ _ ++ _ ++ _ ++ String ?c "" ++ ?x ++ "") _ _ =>
           exists (String c2 w), t, (String c0 l), c, x;
           unfold valid_prefix, valid_t0, valid_length; cbn;
           rewrite Hc, Hp, Ht, Hd, Hl;
           replace (String.length t) with 10%nat by lia;
           destruct (Nat.leb_spec (String.length l) 3); [|lia];
           repeat split; auto
       end.
Qed.

(** The other way round: every such name is matched. *)
Lemma fname_re_complete w rest caps :
  accepted w rest caps -> Matches fname_re w rest caps.
Proof.
  intros (p & t & l & c & x & Hp & Ht & Hl & Hc & Hx & -> & Hrest & ->).
  unfold valid_prefix in Hp. apply andb_prop in Hp as [Hne Hp].
  destruct p as [|c2 p]; [discriminate|]. cbn in Hp. apply andb_prop in Hp as [Hc2 Hp].
  unfold valid_t0 in Ht. apply andb_prop in Ht as [Htl Ht].
  apply Nat.eqb_eq in Htl.
  destruct l as [|c0 l]; [discriminate|]. cbn in Hl.
  apply andb_prop in Hl as [Hl Hll]. apply andb_prop in Hl as [Hc0 Hl].
  apply Nat.leb_le in Hll.
  assert (Hsuf : Matches (Alt (Lit "gwf") (Alt (Lit "hdf5") (Lit "h5"))) x rest []).
  { unfold valid_suffix in Hx.
    apply orb_prop in Hx as [Hx|Hx]; [apply orb_prop in Hx as [Hx|Hx]|];
      apply String.eqb_eq in Hx; subst x.
    - apply M_Alt_l, M_Lit.
    - apply M_Alt_r, M_Alt_l, M_Lit.
    - apply M_Alt_r, M_Alt_r, M_Lit. }
  unfold fname_re, prefix_re, t0_re, length_re.
  change [("suffix", x); ("length", String c0 l); ("t0", t); ("prefix", String c2 p)]
    with ((((((([] ++ [("suffix", x)]) ++ []) ++ [("length", String c0 l)]) ++ [])
             ++ [("t0", t)]) ++ []) ++ [("prefix", String c2 p)])%list.
  rewrite <- (StrFacts.app_nil_r x) at 1.
  apply M_Cat; [apply M_Group; now apply M_Plus|].
  apply M_Cat; [apply M_Lit|].
  apply M_Cat; [apply M_Group; apply M_Repeat; [exact Ht|lia]|].
  apply M_Cat; [apply M_Lit|].
  change (String c0 l ++ String c (x ++ ""))
    with ((String c0 "" ++ l) ++ String c "" ++ x ++ "").
  apply M_Cat.
  { apply M_Group.
    change [] with (@nil (string * string) ++ [])%list.
    apply (M_Cat _ _ (String c0 "") l); [now apply M_Class|].
    apply M_Repeat; [exact Hl|lia]. }
  apply M_Cat; [now apply M_AnyChar|].
  apply M_Cat.
  - apply M_Group. cbn [String.append]. exact Hsuf.
  - destruct Hrest as [->| ->]; constructor.
Qed.

End FnameFacts.

(** ** Searching a name for the pattern *)

Module SearchFacts.
Import Re Grammar FnameFacts.

Lemma search_sound s m :
  search fname_re s = Some m ->
  exists pre w rest, s = pre ++ w ++ rest /\ accepted w rest (m_groups m).
Proof.
  intros H. apply ReFacts.search_from_sound in H as (pre & w & rest & -> & M & _).
  exists pre, w, rest. split; [reflexivity|]. now apply fname_re_sound.
Qed.

Lemma search_complete pre w rest caps :
  accepted w rest caps -> is_Some (search fname_re (pre ++ w ++ rest)).
Proof.
  intros H. eapply ReFacts.search_from_complete, fname_re_complete, H.
Qed.

(** The [t0] group of a match is a string of ten digits. *)
Lemma search_t0 s m :
  search fname_re s = Some m -> valid_t0 (group m "t0") = true.
Proof.
  intros H. apply search_sound in H as (pre & w & rest & _ & Hacc).
  destruct Hacc as (p & t & l & c & x & _ & Ht & _ & _ & _ & _ & _ & Hcaps).
  unfold group. rewrite Hcaps. cbn. exact Ht.
Qed.

(** Every name that follows the grammar is matched. *)
Lemma conforms_search name : conforms name -> is_Some (search fname_re name).
Proof.
  intros (p & t & l & x & Hp & Ht & Hl & Hx & ->).
  pose proof (search_complete "" (p ++ "-" ++ t ++ "-" ++ l ++ String "." x) ""
                [("suffix", x); ("length", l); ("t0", t); ("prefix", p)]) as H.
  cbn [String.append] in H.
  rewrite !StrFacts.app_nil_r in H.
  apply H. exists p, t, l, "."%char, x. repeat split; auto.
Qed.

End SearchFacts.

(** ** Paths: the name of a file put into a directory *)

Module PathFacts.

Lemma split_no_slash s :
  Str.forallb Str.no_slash s = true -> Str.split "/" s = [s].
Proof.
  induction s as [|c s IH]; cbn; intros H; [reflexivity|].
  apply andb_prop in H as [Hc Hs]. unfold Str.no_slash in Hc.
  destruct (Ascii.eqb c "/"); [discriminate|]. now rewrite IH.
Qed.

Lemma root_of_no_slash s : Str.forallb Str.no_slash s = true -> Path.root_of s = "".
Proof.
  destruct s as [|c1 [|c2 [|c3 s]]]; cbn; intros H; try reflexivity;
    apply andb_prop in H as [H1 _]; unfold Str.no_slash in H1;
    destruct (Ascii.eqb c1 "/"); (discriminate || reflexivity).
Qed.

(** A name without a slash, put into a directory, is the name of the
    resulting path. *)
Lemma name_join dir s :
  Str.forallb Str.no_slash s = true -> Path.is_name s = true ->
  Path.name (Path.join dir s) = s.
Proof.
  intros Hs Hn. unfold Path.join, Path.of_string. cbn [Path.root Path.names].
  rewrite root_of_no_slash, split_no_slash by exact Hs. cbn [List.filter].
  rewrite Hn. cbn. unfold Path.name. cbn. apply List.last_last.
Qed.

Lemma prefix_char_no_slash c : prefix_char c = true -> Str.no_slash c = true.
Proof.
  unfold Str.no_slash. destruct (Ascii.eqb_spec c "/") as [->|]; [discriminate|reflexivity].
Qed.

Lemma digit_no_slash c : Str.is_digit c = true -> Str.no_slash c = true.
Proof.
  unfold Str.no_slash. destruct (Ascii.eqb_spec c "/") as [->|]; [discriminate|reflexivity].
Qed.

Lemma forallb_impl (p q : ascii -> bool) s :
  (forall c, p c = true -> q c = true) ->
  Str.forallb p s = true -> Str.forallb q s = true.
Proof.
  intros Hpq. induction s as [|c s IH]; cbn; [reflexivity|].
  intros H. apply andb_prop in H as [Hc Hs]. now rewrite (Hpq c Hc), IH.
Qed.

End PathFacts.

(** ** [sorted]: a permutation in key order *)

Module SortFacts.
Section Sorted.
Context {A : Type} (lt : A -> A -> result bool).
Variables (good : A -> Prop) (key : A -> Z).

(** On the elements in question [<] agrees with the order of the keys. *)
Hypothesis lt_true :
  forall x y, good x -> good y -> lt x y = Ok true -> key x <= key y.
Hypothesis lt_false :
  forall x y, good x -> good y -> lt x y = Ok false -> key y <= key x.

Local Abbreviation key_le := (fun x y : A => key x <= key y).

Lemma insert_perm x l l' : Py.insert lt x l = Ok l' -> Permutation (x :: l) l'.
Proof.
  revert l'. induction l as [|y l IH]; intros l' H; cbn in H.
  - injection H as <-. reflexivity.
  - destruct (lt x y) as [[]|]; cbn in H; try discriminate.
    + injection H as <-. reflexivity.
    + destruct (Py.insert lt x l) as [l''|]; cbn in H; [|discriminate].
      injection H as <-. rewrite perm_swap. constructor. now apply IH.
Qed.

Lemma insert_sorted x l l' :
  good x -> Forall good l -> StronglySorted key_le l ->
  Py.insert lt x l = Ok l' -> StronglySorted key_le l'.
Proof.
  intros Hx. revert l'. induction l as [|y l IH]; intros l' Hg Hs H; cbn in H.
  - injection H as <-. repeat constructor.
  - apply Forall_cons in Hg as [Hy Hg].
    apply StronglySorted_inv in Hs as [Hs Hy_le].
    destruct (lt x y) as [[]|] eqn:Hlt; cbn in H; try discriminate.
    + injection H as <-. constructor; [now constructor|].
      apply lt_true in Hlt; auto. constructor; [exact Hlt|].
      eapply Forall_impl; [exact Hy_le|]. cbn. intros; lia.
    + destruct (Py.insert lt x l) as [l''|] eqn:Hi; cbn in H; [|discriminate].
      injection H as <-. constructor; [now apply IH|].
      apply lt_false in Hlt; auto.
      apply insert_perm in Hi.
      eapply Permutation_Forall; [exact Hi|]. now constructor.
Qed.

Lemma insert_ok x l :
  Forall (fun y => is_ok (lt x y)) l -> exists l', Py.insert lt x l = Ok l'.
Proof.
  induction 1 as [|y l Hy _ [l' IH]]; cbn; [eauto|].
  destruct (lt x y) as [[]|]; cbn in *; [eauto| |contradiction].
  rewrite IH. cbn. eauto.
Qed.

Lemma sort_into_perm l : forall acc out,
  Py.sort_into lt acc l = Ok out -> Permutation (acc ++ l) out.
Proof.
  induction l as [|x l IH]; intros acc out H; cbn in H.
  - injection H as <-. now rewrite List.app_nil_r.
  - destruct (Py.insert lt x acc) as [acc'|] eqn:Hi; cbn in H; [|discriminate].
    apply IH in H. apply insert_perm in Hi.
    rewrite <- H, <- Hi. symmetry. apply Permutation_middle.
Qed.

Lemma sort_into_sorted l : forall acc out,
  Forall good acc -> Forall good l -> StronglySorted key_le acc ->
  Py.sort_into lt acc l = Ok out -> StronglySorted key_le out.
Proof.
  induction l as [|x l IH]; intros acc out Hga Hgl Hs H; cbn in H.
  - now injection H as <-.
  - apply Forall_cons in Hgl as [Hx Hgl].
    destruct (Py.insert lt x acc) as [acc'|] eqn:Hi; cbn in H; [|discriminate].
    apply (IH acc' out); [| exact Hgl | | exact H].
    + eapply Permutation_Forall; [apply (insert_perm _ _ _ Hi)|]. now constructor.
    + exact (insert_sorted x acc acc' Hx Hga Hs Hi).
Qed.

(** The sort returns when every comparison it may make returns: of an
    element with one that comes before it in the list. *)
Lemma sort_into_ok l : forall acc,
  Forall (fun z => Forall (fun y => is_ok (lt z y)) acc) l ->
  ForallOrdPairs (fun x y => is_ok (lt y x)) l ->
  exists out, Py.sort_into lt acc l = Ok out.
Proof.
  induction l as [|x l IH]; intros acc Hacc Hl; cbn; [eauto|].
  apply Forall_cons in Hacc as [Hx Hacc].
  inversion Hl as [|? ? Hxl Hl']; subst.
  destruct (insert_ok x acc Hx) as [acc' Hi]. rewrite Hi. cbn.
  apply IH; [|exact Hl'].
  apply Forall_forall. intros z Hz.
  eapply Permutation_Forall; [apply (insert_perm _ _ _ Hi)|].
  constructor.
  - rewrite Forall_forall in Hxl. now apply Hxl.
  - rewrite Forall_forall in Hacc. now apply Hacc.
Qed.

Lemma sorted_perm l out : Py.sorted lt l = Ok out -> Permutation l out.
Proof. apply (sort_into_perm l []). Qed.

Lemma sorted_sorted l out :
  Forall good l -> Py.sorted lt l = Ok out -> StronglySorted key_le out.
Proof. intros Hg. apply (sort_into_sorted l []); auto; constructor. Qed.

Lemma sorted_ok l :
  ForallOrdPairs (fun x y => is_ok (lt y x)) l -> exists out, Py.sorted lt l = Ok out.
Proof.
  intros H. apply sort_into_ok; [|exact H].
  apply Forall_forall. intros; constructor.
Qed.

(** With distinct keys the order is strict. *)
Lemma sorted_strict l :
  NoDup (List.map key l) -> StronglySorted key_le l ->
  StronglySorted (fun x y => key x < key y) l.
Proof.
  induction l as [|x l IH]; intros Hnd Hs; [constructor|].
  cbn in Hnd. apply NoDup_cons in Hnd as [Hx Hnd].
  apply StronglySorted_inv in Hs as [Hs Hle].
  constructor; [auto|].
  rewrite Forall_forall in *. intros y Hy.
  specialize (Hle y Hy). cbn in Hle.
  assert (key x <> key y).
  { intros E. apply Hx. rewrite E.
    apply list_elem_of_In, in_map, list_elem_of_In, Hy. }
  lia.
Qed.

End Sorted.
End SortFacts.

(** ** The catalog sorter: a collection that mixes paths and strings *)

(** C5: a collection that is neither all paths nor all strings makes the
    sort raise, but the exception is the [TypeError] of joining type
    objects, not the [ValueError] that describes the types. *)
Theorem sort_mixed_collection (fs : filesystem) (fnames : list PATH_LIKE)
    (return_matches : bool) :
  List.forallb is_path fnames = false ->
  List.forallb is_str fnames = false ->
  filter_and_sort_files fs (Several fnames) return_matches
  = Raise (TypeError "sequence item 0: expected str instance, type found").
Proof.
  intros Hp Hs. unfold filter_and_sort_files. rewrite Hp, Hs. cbn [negb bind].
  destruct fnames as [|f rest]; [discriminate|].
  destruct f; reflexivity.
Qed.

Lemma sort_mixed_collection_witness :
  filter_and_sort_files Demo.fs
    (Several [IsPath (Path.of_string "H1-1000000000-10.hdf5");
              IsStr "H1-1000000010-10.hdf5"]) false
  = Raise (TypeError "sequence item 0: expected str instance, type found").
Proof.
  apply (sort_mixed_collection Demo.fs
           [IsPath (Path.of_string "H1-1000000000-10.hdf5");
            IsStr "H1-1000000010-10.hdf5"] false); reflexivity.
Defined.

(** ** The catalog sorter on a collection of one kind *)

Module SorterFacts.

Lemma entry_of_t0 t : entry_of t -> Grammar.valid_t0 (entry_t0 t) = true.
Proof. intros [Hs ->]. eapply SearchFacts.search_t0, Hs. Qed.

Lemma entry_of_key t : entry_of t -> file_t0 (entry_file t) = Str.value (entry_t0 t).
Proof. intros [Hs ->]. unfold file_t0. now rewrite Hs. Qed.

Lemma t0_compare a b :
  entry_of a -> entry_of b ->
  String.compare (entry_t0 a) (entry_t0 b)
  = (file_t0 (entry_file a) ?= file_t0 (entry_file b)).
Proof.
  intros Ha Hb. rewrite (entry_of_key a Ha), (entry_of_key b Hb).
  apply entry_of_t0 in Ha, Hb. unfold Grammar.valid_t0 in Ha, Hb.
  apply andb_prop in Ha as [Hla Ha], Hb as [Hlb Hb].
  apply Nat.eqb_eq in Hla, Hlb.
  apply DigitFacts.compare_value; congruence.
Qed.

Lemma entry_lt_true a b :
  entry_of a -> entry_of b -> entry_lt a b = Ok true ->
  file_t0 (entry_file a) <= file_t0 (entry_file b).
Proof.
  intros Ha Hb. unfold entry_lt. pose proof (t0_compare a b Ha Hb) as Hc.
  destruct (String.eqb_spec (entry_t0 a) (entry_t0 b)) as [E|E]; cbn [negb].
  - intros _. rewrite (entry_of_key a Ha), (entry_of_key b Hb), E. lia.
  - unfold String.ltb. rewrite Hc.
    destruct (Z.compare_spec (file_t0 (entry_file a)) (file_t0 (entry_file b)));
      intros [=]; lia.
Qed.

Lemma entry_lt_false a b :
  entry_of a -> entry_of b -> entry_lt a b = Ok false ->
  file_t0 (entry_file b) <= file_t0 (entry_file a).
Proof.
  intros Ha Hb. unfold entry_lt. pose proof (t0_compare a b Ha Hb) as Hc.
  destruct (String.eqb_spec (entry_t0 a) (entry_t0 b)) as [E|E]; cbn [negb].
  - intros _. rewrite (entry_of_key a Ha), (entry_of_key b Hb), E. lia.
  - unfold String.ltb. rewrite Hc.
    destruct (Z.compare_spec (file_t0 (entry_file a)) (file_t0 (entry_file b)))
      as [E'|E'|E']; intros [=]; lia.
Qed.

(** Two files of the same kind that are not equal can be ordered. *)
Lemma entry_lt_ok a b :
  is_path (entry_file a) = is_path (entry_file b) ->
  path_like_eqb (entry_file a) (entry_file b) = false ->
  is_ok (entry_lt a b).
Proof.
  intros Hk Hne. unfold entry_lt.
  destruct (negb _); [exact I|]. rewrite Hne. cbn [negb].
  destruct (entry_file a), (entry_file b); cbn in *; try discriminate; exact I.
Qed.

Lemma name_attr_paths l :
  List.forallb is_path l = true -> mapM name_attr l = Ok (List.map base_name l).
Proof.
  induction l as [|[p|s] l IH]; cbn; intros H; try discriminate; [reflexivity|].
  rewrite IH by exact H. reflexivity.
Qed.

Lemma match_entries_files l :
  List.map entry_file (match_entries (List.map base_name l) l)
  = List.filter matched l.
Proof.
  induction l as [|f l IH]; cbn; [reflexivity|].
  unfold matched at 1. destruct (Re.search fname_re (base_name f)); cbn;
    now rewrite IH.
Qed.

Lemma match_entries_entry_of l :
  Forall entry_of (match_entries (List.map base_name l) l).
Proof.
  induction l as [|f l IH]; cbn; [constructor|].
  destruct (Re.search fname_re (base_name f)) as [m|] eqn:Hm; [|exact IH].
  constructor; [|exact IH]. split; [exact Hm|reflexivity].
Qed.

Lemma match_entries_in l t :
  t ∈ match_entries (List.map base_name l) l -> entry_file t ∈ l.
Proof.
  intros H. apply list_elem_of_In.
  apply (List.filter_In matched (entry_file t) l).
  rewrite <- match_entries_files. apply in_map, list_elem_of_In, H.
Qed.

Lemma path_like_eqb_sym f g : path_like_eqb f g = path_like_eqb g f.
Proof.
  destruct f, g; cbn; try reflexivity.
  - unfold Path.eqb. apply bool_decide_ext. split; congruence.
  - apply String.eqb_sym.
Qed.

Lemma same_kind l f g :
  homogeneous l -> f ∈ l -> g ∈ l -> is_path f = is_path g.
Proof.
  intros [H|H] Hf Hg; rewrite List.forallb_forall in H;
    apply list_elem_of_In in Hf, Hg; apply H in Hf, Hg.
  - congruence.
  - destruct f, g; cbn in *; congruence.
Qed.

Lemma match_entries_comparable_in (coll : list PATH_LIKE) l :
  homogeneous coll -> (forall f, f ∈ l -> f ∈ coll) -> pairwise_distinct l ->
  ForallOrdPairs (fun x y => is_ok (entry_lt y x))
    (match_entries (List.map base_name l) l).
Proof.
  intros Hh Hsub Hd.
  induction Hd as [|f l0 Hf Hd IH]; cbn; [constructor|].
  assert (Hrest : forall g, g ∈ l0 -> g ∈ coll).
  { intros g Hg. apply Hsub, elem_of_cons. now right. }
  destruct (Re.search fname_re (base_name f)) as [m|]; [|now apply IH].
  constructor; [|now apply IH].
  apply Forall_forall. intros t Ht. apply match_entries_in in Ht.
  apply entry_lt_ok; cbn.
  - apply (same_kind coll); auto. apply Hsub, elem_of_cons. now left.
  - rewrite Forall_forall in Hf. now apply Hf.
Qed.

Lemma match_entries_comparable l :
  homogeneous l -> pairwise_distinct l ->
  ForallOrdPairs (fun x y => is_ok (entry_lt y x))
    (match_entries (List.map base_name l) l).
Proof. intros Hh. now apply (match_entries_comparable_in l l). Qed.

Lemma sort_normalized fs l return_matches :
  homogeneous l ->
  filter_and_sort_files fs (Several l) return_matches
  = (sorted_tups <- Py.sorted entry_lt (match_entries (List.map base_name l) l) ;;
     Ok (List.map (fun t => if return_matches then Matched (entry_match t)
                            else File (entry_file t))
                  sorted_tups)).
Proof.
  intros Hh. unfold filter_and_sort_files.
  destruct (List.forallb is_path l) eqn:Hp.
  - rewrite name_attr_paths by exact Hp. reflexivity.
  - destruct Hh as [Hh|Hh]; [congruence|]. rewrite Hh. reflexivity.
Qed.

Lemma StronglySorted_map {A B} (f : A -> B) (R : B -> B -> Prop) l :
  StronglySorted (fun x y => R (f x) (f y)) l -> StronglySorted R (List.map f l).
Proof.
  induction 1 as [|x l _ IH Hx]; cbn; constructor; [exact IH|].
  apply Forall_forall. intros y Hy.
  apply list_elem_of_In, in_map_iff in Hy as (z & <- & Hz).
  rewrite Forall_forall in Hx. apply Hx, list_elem_of_In, Hz.
Qed.

(** Whatever the sort returns for a collection of one kind is the files
    with a matching name, in the order of their [t0] fields. *)
Lemma sort_collection_inv fs l out :
  homogeneous l ->
  filter_and_sort_files fs (Several l) false = Ok out ->
  exists files,
    out = List.map File files
    /\ Permutation (List.filter matched l) files
    /\ StronglySorted (fun f g => file_t0 f <= file_t0 g) files.
Proof.
  intros Hh H. rewrite sort_normalized in H by exact Hh.
  destruct (Py.sorted entry_lt _) as [tups|] eqn:Hs; cbn in H; [|discriminate].
  injection H as <-.
  exists (List.map entry_file tups). split; [now rewrite List.map_map|].
  split.
  - rewrite <- match_entries_files. apply Permutation_map.
    eapply SortFacts.sorted_perm, Hs.
  - apply StronglySorted_map.
    eapply (SortFacts.sorted_sorted entry_lt entry_of
              (fun t => file_t0 (entry_file t)));
      [apply entry_lt_true|apply entry_lt_false|apply match_entries_entry_of
      |exact Hs].
Qed.

(** The sort does return when no two elements of the collection are
    equal. *)
Lemma sort_collection_ok fs l :
  homogeneous l -> pairwise_distinct l ->
  exists out, filter_and_sort_files fs (Several l) false = Ok out.
Proof.
  intros Hh Hd. rewrite sort_normalized by exact Hh.
  destruct (SortFacts.sorted_ok entry_lt _ (match_entries_comparable l Hh Hd))
    as [tups ->].
  cbn. eauto.
Qed.

(** A collection of one kind without repeated elements is sorted into
    the files whose names match, in ascending order of [t0], strictly so
    when the [t0] fields differ. *)
Theorem sort_collection fs l :
  homogeneous l -> pairwise_distinct l ->
  exists files,
    filter_and_sort_files fs (Several l) false = Ok (List.map File files)
    /\ Permutation (List.filter matched l) files
    /\ StronglySorted (fun f g => file_t0 f <= file_t0 g) files
    /\ (NoDup (List.map file_t0 (List.filter matched l)) ->
        StronglySorted (fun f g => file_t0 f < file_t0 g) files).
Proof.
  intros Hh Hd. destruct (sort_collection_ok fs l Hh Hd) as [out Hout].
  destruct (sort_collection_inv fs l out Hh Hout) as (files & -> & Hp & Hs).
  exists files. repeat split; auto.
  intros Hnd. apply SortFacts.sorted_strict; [|exact Hs].
  rewrite <- (Permutation_map file_t0 Hp). exact Hnd.
Qed.

End SorterFacts.

(** ** The catalog sorter against the grammar *)

(** A collection that holds the same matching file twice cannot be
    sorted: the two tuples tie on [t0] and on the file, and their match
    objects cannot be ordered. *)
Lemma sort_repeated_file fs f return_matches :
  matched f = true ->
  filter_and_sort_files fs (Several [f; f]) return_matches
  = Raise (TypeError "'<' not supported between instances of 're.Match' and 're.Match'").
Proof.
  intros Hm. rewrite SorterFacts.sort_normalized
    by (destruct f; [left|right]; reflexivity).
  unfold matched in Hm. cbn [List.map match_entries].
  destruct (Re.search fname_re (base_name f)) as [m|]; [|discriminate].
  cbn. unfold entry_lt. cbn. rewrite String.eqb_refl. cbn.
  assert (E : path_like_eqb f f = true).
  { destruct f; cbn; [apply bool_decide_eq_true; reflexivity|apply String.eqb_refl]. }
  rewrite E. reflexivity.
Qed.

(** C3 does not hold of the code.  The pattern has an unescaped dot, so a
    name that breaks the grammar (no dot before the suffix) is returned;
    and a collection that holds a matching name twice is not sorted at
    all. *)
Theorem sort_against_grammar :
  (~ Grammar.conforms "H1-1000000000-10xhdf5"
   /\ filter_and_sort_files Demo.fs (Several [IsStr "H1-1000000000-10xhdf5"]) false
      = Ok [File (IsStr "H1-1000000000-10xhdf5")])
  /\ filter_and_sort_files Demo.fs
       (Several [IsStr "H1-1000000000-10.hdf5"; IsStr "H1-1000000000-10.hdf5"])
       false
     = Raise (TypeError "'<' not supported between instances of 're.Match' and 're.Match'").
Proof.
  split; [split|].
  - intros (p & t & l & x & _ & _ & _ & _ & E).
    assert (H : Str.forallb (fun c => negb (Ascii.eqb c ".")) "H1-1000000000-10xhdf5"
                = true) by reflexivity.
    rewrite E, !StrFacts.forallb_app in H. cbn in H.
    rewrite !andb_false_r in H. discriminate.
  - vm_compute. reflexivity.
  - apply sort_repeated_file. vm_compute. reflexivity.
Qed.

(** ** The archive store: what its operations return *)

Module H5Facts.

Lemma set_attr_inv f k v f' :
  H5.set_attr f k v = Ok f' ->
  H5.storable v = true
  /\ f' = {| h5_attrs := <[k := v]> (h5_attrs f); h5_datasets := h5_datasets f |}.
Proof.
  unfold H5.set_attr. destruct (H5.storable v); [|discriminate].
  intros [= <-]. auto.
Qed.

Lemma set_attr_error f k v e : H5.set_attr f k v = Raise e -> e = H5.no_hdf5_type.
Proof.
  unfold H5.set_attr. destruct (H5.storable v); [discriminate|]. now intros [= <-].
Qed.

Lemma set_attr_storable f k v :
  H5.storable v = true ->
  H5.set_attr f k v
  = Ok {| h5_attrs := <[k := v]> (h5_attrs f); h5_datasets := h5_datasets f |}.
Proof. unfold H5.set_attr. now intros ->. Qed.

Lemma set_dataset_attr_float f k a r :
  H5.set_dataset_attr f k a (PyFloat r)
  = Ok {| h5_attrs := h5_attrs f;
          h5_datasets :=
            alter (fun d => {| ds_data := ds_data d;
                               ds_attrs := <[a := PyFloat r]> (ds_attrs d) |})
                  k (h5_datasets f) |}.
Proof. reflexivity. Qed.

Lemma create_dataset_inv f k v f' :
  H5.create_dataset f k v = Ok f' ->
  f' = {| h5_attrs := h5_attrs f;
          h5_datasets := <[k := {| ds_data := v; ds_attrs := ∅ |}]> (h5_datasets f) |}.
Proof.
  unfold H5.create_dataset.
  repeat match goal with
         | |- context [if ?b then _ else _] => destruct b
         end; try discriminate.
  now intros [= <-].
Qed.

(** The exceptions of [create_dataset]. *)
Lemma create_dataset_error f k v e :
  H5.create_dataset f k v = Raise e ->
  e = ValueError "Unable to create dataset (name already exists)"
  \/ e = TypeError "Incompatible object (Dataset) already exists"
  \/ e = ValueError "Unable to create group (component not found)".
Proof.
  unfold H5.create_dataset.
  repeat match goal with
         | |- context [if ?b then _ else _] => destruct b
         end; intros [= <-]; auto.
Qed.

(** A name in the file that is on the way of no other one. *)
Lemma create_dataset_free f k v :
  H5.path k <> [] ->
  (forall k', k' ∈ H5.names f ->
              H5.prefix_of (H5.path k) (H5.path k') = false
              /\ H5.prefix_of (H5.path k') (H5.path k) = false) ->
  H5.create_dataset f k v
  = Ok {| h5_attrs := h5_attrs f;
          h5_datasets := <[k := {| ds_data := v; ds_attrs := ∅ |}]> (h5_datasets f) |}.
Proof.
  intros Hne Hfree. unfold H5.create_dataset.
  rewrite bool_decide_eq_false_2 by exact Hne.
  assert (H1 : List.existsb (fun k' => H5.prefix_of (H5.path k) (H5.path k'))
                 (H5.names f) = false).
  { apply not_true_is_false. intros H. apply List.existsb_exists in H as (k' & Hk' & H).
    apply list_elem_of_In, Hfree in Hk' as [Hk' _]. congruence. }
  assert (H2 : List.existsb (fun k' => H5.prefix_of (H5.path k') (H5.path k))
                 (H5.names f) = false).
  { apply not_true_is_false. intros H. apply List.existsb_exists in H as (k' & Hk' & H).
    apply list_elem_of_In, Hfree in Hk' as [_ Hk']. congruence. }
  assert (H3 : List.existsb
                 (fun k' => bool_decide (H5.path k' = List.removelast (H5.path k)))
                 (H5.names f) = false).
  { apply not_true_is_false. intros H. apply List.existsb_exists in H as (k' & Hk' & H).
    apply bool_decide_eq_true in H.
    apply list_elem_of_In, Hfree in Hk' as [_ Hk']. rewrite H in Hk'.
    clear -Hk'. revert Hk'. generalize (H5.path k) as p.
    induction p as [|x [|y p] IH]; cbn; try discriminate.
    rewrite String.eqb_refl. cbn [andb]. exact IH. }
  now rewrite H1, H3, H2.
Qed.

Lemma names_elem f k : k ∈ H5.names f <-> is_Some (h5_datasets f !! k).
Proof.
  unfold H5.names. split.
  - intros H. apply list_elem_of_In, in_map_iff in H as ([k' d] & <- & H).
    apply list_elem_of_In, elem_of_map_to_list in H. cbn. eauto.
  - intros [d H]. apply list_elem_of_In, in_map_iff. exists (k, d).
    split; [reflexivity|]. now apply list_elem_of_In, elem_of_map_to_list.
Qed.

(** A plain name is its own path. *)
Lemma c_str_plain k :
  Str.forallb (fun c => Str.no_slash c && negb (Ascii.eqb c Ascii.zero)) k = true ->
  Str.c_str k = k /\ Str.forallb Str.no_slash k = true.
Proof.
  induction k as [|c k IH]; cbn; [auto|]. intros H.
  apply andb_prop in H as [Hc Hk]. apply andb_prop in Hc as [Hs Hz].
  apply negb_true_iff in Hz. rewrite Hz, Hs. destruct (IH Hk) as [-> ->]. auto.
Qed.

Lemma path_plain k : plain_name k = true -> H5.path k = [k].
Proof.
  unfold plain_name, H5.path. intros H. apply andb_prop in H as [Hn Hk].
  destruct (c_str_plain k Hk) as [-> Hs].
  rewrite PathFacts.split_no_slash by exact Hs. cbn. now rewrite Hn.
Qed.

Lemma open_w_inv fs p fs' :
  H5.open_w fs p = Ok fs' ->
  exists entries,
    fs_dirs fs !! Path.str (Path.parent p) = Some entries
    /\ fs_dirs fs !! Path.str p = None
    /\ fs' = {| fs_dirs :=
                  <[Path.str (Path.parent p) :=
                      if bool_decide (Path.name p ∈ entries) then entries
                      else (entries ++ [Path.name p])%list]> (fs_dirs fs);
                fs_files := <[Path.str p := h5_empty]> (fs_files fs) |}.
Proof.
  unfold H5.open_w. destruct (_ || _); [discriminate|].
  destruct (bool_decide_reflect (is_Some (fs_dirs fs !! Path.str p))) as [Hd|Hd];
    [discriminate|].
  destruct (fs_dirs fs !! Path.str (Path.parent p)) as [entries|]; [|discriminate].
  intros [= <-]. exists entries. split; [reflexivity|]. split; [|reflexivity].
  destruct (fs_dirs fs !! Path.str p); [exfalso; eauto|reflexivity].
Qed.

Lemma open_w_error fs p e : H5.open_w fs p = Raise e -> exists msg, e = OSError msg.
Proof.
  unfold H5.open_w. destruct (_ || _); [intros [= <-]; eauto|].
  destruct (bool_decide _); [intros [= <-]; eauto|].
  destruct (fs_dirs fs !! Path.str (Path.parent p)); [discriminate|].
  intros [= <-]; eauto.
Qed.

Lemma open_w_missing fs p :
  fs_dirs fs !! Path.str (Path.parent p) = None ->
  exists msg, H5.open_w fs p = Raise (OSError msg).
Proof.
  intros Hd. unfold H5.open_w. destruct (_ || _); [eauto|].
  destruct (bool_decide _); [eauto|]. rewrite Hd. eauto.
Qed.

Lemma open_w_creatable fs p : is_ok (H5.open_w fs p) <-> creatable fs p.
Proof.
  unfold H5.open_w, creatable.
  destruct (Nat.ltb_spec H5.NAME_MAX (Str.utf8_length (Path.name p))) as [Hn|Hn];
    cbn [orb]; [split; [intros []|lia]|].
  destruct (Nat.leb_spec H5.PATH_MAX (Str.utf8_length (Path.str p))) as [Hp|Hp];
    [split; [intros []|lia]|].
  destruct (bool_decide_reflect (is_Some (fs_dirs fs !! Path.str p))) as [Hd|Hd].
  { split; [intros []|]. intros (_ & E & _). rewrite E in Hd.
    destruct Hd; discriminate. }
  assert (E : fs_dirs fs !! Path.str p = None).
  { destruct (fs_dirs fs !! Path.str p); [exfalso; eauto|reflexivity]. }
  destruct (fs_dirs fs !! Path.str (Path.parent p)) as [entries|].
  - split; [intros _|intros _; exact I]. eauto.
  - split; [intros []|]. intros ([x Hx] & _). discriminate.
Qed.

End H5Facts.

(** ** The read path: a requested channel that is not in the archive *)

Section ReadMissing.
Variables (path : Path.t) (f : h5file) (t0 : pynum).

Hypothesis rates_present :
  forall k d, h5_datasets f !! k = Some d -> is_Some (ds_attrs d !! "sample_rate").

Lemma read_channels_missing (channels : list string) (ts_dict : TimeSeriesDict) :
  Exists (fun c => h5_datasets f !! c = None) channels ->
  read_channels path f t0 ts_dict channels
  = Raise (AttributeError "'PosixPath' object has no attribute 'fname'").
Proof.
  intros Hex. revert ts_dict.
  induction channels as [|c rest IH]; intros ts_dict.
  - inversion Hex.
  - cbn [read_channels]. unfold read_channel, H5.get_dataset.
    destruct (h5_datasets f !! c) as [d|] eqn:Hc.
    + cbn [bind]. destruct (rates_present c d Hc) as [r Hr].
      unfold H5.dataset_attr. rewrite Hr. cbn [bind].
      apply IH. inversion Hex; subst; [congruence|assumption].
    + reflexivity.
Qed.
End ReadMissing.

(** C4: when a requested channel is not in the archive, the read raises,
    so no mapping is returned, but the exception is the [AttributeError]
    of [path.fname], not the [ValueError] that names the channel and the
    file. *)
Theorem read_missing_channel (fs : filesystem) (path : Path.t) (f : h5file)
    (t0 : pynum) (channels : list string) :
  fs_files fs !! Path.str path = Some f ->
  h5_attrs f !! "t0" = Some t0 ->
  (forall k d, h5_datasets f !! k = Some d -> is_Some (ds_attrs d !! "sample_rate")) ->
  Exists (fun c => h5_datasets f !! c = None) channels ->
  read_timeseries fs path channels
  = Raise (AttributeError "'PosixPath' object has no attribute 'fname'").
Proof.
  intros Hf Ht0 Hrates Hex.
  unfold read_timeseries, H5.open_r, H5.get_attr. rewrite Hf. cbn [bind].
  rewrite Ht0. cbn [bind]. now apply read_channels_missing.
Qed.

Lemma read_missing_channel_witness :
  read_timeseries Demo.fs_with_archive Demo.archive_path ["strain"; "aux"]
  = Raise (AttributeError "'PosixPath' object has no attribute 'fname'").
Proof.
  apply (read_missing_channel Demo.fs_with_archive Demo.archive_path
           Demo.archive (PyInt 1000000000)).
  - vm_compute. reflexivity.
  - vm_compute. reflexivity.
  - intros k d. unfold Demo.archive. cbn [h5_datasets].
    intros H. apply lookup_singleton_Some in H as [_ <-].
    cbn [ds_attrs]. rewrite lookup_singleton_eq. eauto.
  - apply Exists_cons_tl, Exists_cons_hd. vm_compute. reflexivity.
Defined.

(** ** The write path: validation of the sample rates *)

Section WriteValidation.
Variables (fs : filesystem) (write_dir : Path.t) (t0 : pynum) (prefix : string).

Lemma write_raises_before_open sample_rate channels e :
  prepare_write write_dir t0 sample_rate prefix channels = Raise e ->
  write_timeseries fs write_dir t0 sample_rate prefix channels = (Raise e, fs).
Proof. intros H. unfold write_timeseries. now rewrite H. Qed.

(** C7: a list of sample rates whose length is not the number of
    channels makes the write raise [ValueError] with both counts in the
    message, and the file system is left as it was. *)
Theorem write_rate_count_mismatch (rates : list float) (channels : channel_map) :
  List.length rates <> List.length channels ->
  write_timeseries fs write_dir t0 (RateList rates) prefix channels
  = (Raise (ValueError ("Only " ++ Str.of_Z (Z.of_nat (List.length rates))
                        ++ " sample rates provided for "
                        ++ Str.of_Z (Z.of_nat (List.length channels))
                        ++ " channels")),
     fs).
Proof.
  intros Hne. apply write_raises_before_open.
  unfold prepare_write. cbn [broadcast rate_len bind].
  destruct (Nat.eqb_spec (List.length rates) (List.length channels)) as [E|_];
    [contradiction|].
  reflexivity.
Qed.

(** C9: with no channels at all the write raises the [ValueError] of
    the duration check, whether the rates are an empty list or a single
    float, and the file system is left as it was. *)
Theorem write_no_channels :
  (forall r : float,
      write_timeseries fs write_dir t0 (RateFloat r) prefix []
      = (Raise (ValueError "Duration of datasets must all be equal"), fs))
  /\ write_timeseries fs write_dir t0 (RateList []) prefix []
     = (Raise (ValueError "Duration of datasets must all be equal"), fs).
Proof. split; [intros r|]; now apply write_raises_before_open. Qed.

(** C10: only a float is broadcast.  An [int] passed as the sample rate
    stays as it is, and the write raises [TypeError] where it takes the
    length of the sample rates; the file system is left as it was. *)
Theorem write_int_rate_not_broadcast (z : Z) (channels : channel_map) :
  broadcast (RateInt z) (List.length channels) = RateInt z
  /\ (forall r : float,
         broadcast (RateFloat r) (List.length channels)
         = RateList (List.repeat r (List.length channels)))
  /\ write_timeseries fs write_dir t0 (RateInt z) prefix channels
     = (Raise (TypeError "object of type 'int' has no len()"), fs).
Proof.
  split; [reflexivity|]. split; [reflexivity|].
  now apply write_raises_before_open.
Qed.

End WriteValidation.

Lemma write_rate_count_mismatch_witness :
  write_timeseries Demo.fs Demo.dir (PyInt 1000000000)
    (RateList [Float.of_Z 100]) "H1"
    [("a", Demo.zeros 1000); ("b", Demo.zeros 500)]
  = (Raise (ValueError "Only 1 sample rates provided for 2 channels"), Demo.fs).
Proof.
  apply (write_rate_count_mismatch Demo.fs Demo.dir (PyInt 1000000000) "H1"
           [Float.of_Z 100] [("a", Demo.zeros 1000); ("b", Demo.zeros 500)]).
  simpl. lia.
Defined.

(** ** The write path: the duration check *)

Lemma durations_length datasets : forall rates lengths,
  durations datasets rates = Ok lengths ->
  List.length lengths = Nat.min (List.length datasets) (List.length rates).
Proof.
  induction datasets as [|d datasets IH]; intros [|r rates] lengths H;
    cbn in H; try (injection H as <-; reflexivity).
  destruct (Float.div _ r) as [x|]; cbn in H; [|discriminate].
  destruct (durations datasets rates) as [xs|] eqn:Hxs; cbn in H; [|discriminate].
  injection H as <-. cbn. f_equal. now apply IH.
Qed.

(** What [prepare_write] comes to once the rates are a list of the right
    length and every division went through. *)
Lemma prepare_write_list write_dir t0 prefix rates (channels : channel_map) lengths :
  List.length rates = List.length channels ->
  durations (List.map snd channels) rates = Ok lengths ->
  prepare_write write_dir t0 (RateList rates) prefix channels
  = if negb (Nat.eqb (List.length (Py.set lengths)) 1) then Raise duration_error
    else
      length <- match lengths with
                | length :: _ => Ok length
                | [] => Raise (IndexError "list index out of range")
                end ;;
      length <- normalize_length length ;;
      Ok (RateList rates, Path.join write_dir (segment_name prefix t0 length)).
Proof.
  intros Hlen Hd. unfold prepare_write. cbn [broadcast rate_len bind].
  rewrite Hlen, Nat.eqb_refl. cbn [negb rate_iter bind]. rewrite Hd.
  reflexivity.
Qed.

Lemma write_channels_error sample_rate t0 channels : forall f i e f',
  write_channels f t0 sample_rate i channels = (Raise e, f') ->
  e <> duration_error.
Proof.
  induction channels as [|[key value] rest IH]; intros f i e f' H;
    cbn [write_channels] in H.
  - discriminate.
  - destruct (H5.set_attr f "t0" t0) as [f1|e1] eqn:H1.
    2:{ injection H as <- _. apply H5Facts.set_attr_error in H1 as ->. discriminate. }
    destruct (H5.create_dataset f1 key value) as [f2|e2] eqn:H2.
    2:{ injection H as <- _.
        apply H5Facts.create_dataset_error in H2 as [->|[->| ->]]; discriminate. }
    destruct (rate_index sample_rate i) as [r|e3] eqn:H3.
    2:{ injection H as <- _. destruct sample_rate as [r|z|l]; cbn in H3;
          try (injection H3 as <-; discriminate).
        destruct (nth_error l i); [discriminate|]. injection H3 as <-. discriminate. }
    rewrite H5Facts.set_dataset_attr_float in H. eapply IH, H.
Qed.

Lemma normalize_length_eq d :
  normalize_length d
  = match Float.to_int d with
    | Ok z => Ok (if Float.int_eqb z d then PyInt z else PyFloat d)
    | Raise e => Raise e
    end.
Proof.
  unfold normalize_length. destruct (Float.to_int d) as [z|e]; cbn [bind];
    [|reflexivity].
  destruct (Float.int_eqb z d); reflexivity.
Qed.

Lemma normalize_length_error d e :
  normalize_length d = Raise e -> e <> duration_error.
Proof.
  rewrite normalize_length_eq.
  destruct d; cbn [Float.to_int]; intros [= <-]; discriminate.
Qed.

(** C6: with a rate for every channel and every division defined, the
    write raises the [ValueError] of the duration check, leaving the file
    system as it was, when two channels have different durations; when
    any two channels have equal durations the set of durations has one
    element and that error is not raised. *)
Theorem write_duration_check (fs : filesystem) (write_dir : Path.t) (t0 : pynum)
    (prefix : string) (rates : list float) (channels : channel_map)
    (lengths : list float) :
  channels <> [] ->
  List.length rates = List.length channels ->
  durations (List.map snd channels) rates = Ok lengths ->
  ((exists i j x y, i <> j /\ lengths !! i = Some x /\ lengths !! j = Some y
                    /\ Float.eqb x y = false) ->
   write_timeseries fs write_dir t0 (RateList rates) prefix channels
   = (Raise duration_error, fs))
  /\ ((forall i j x y, i <> j -> lengths !! i = Some x -> lengths !! j = Some y ->
                       Float.eqb x y = true) ->
      List.length (Py.set lengths) = 1%nat
      /\ fst (write_timeseries fs write_dir t0 (RateList rates) prefix channels)
         <> Raise duration_error).
Proof.
  intros Hne Hlen Hd.
  pose proof (durations_length _ _ _ Hd) as Hl.
  rewrite length_map, Hlen, Nat.min_id in Hl.
  destruct lengths as [|d rest].
  { destruct channels; [contradiction|discriminate]. }
  pose proof (prepare_write_list write_dir t0 prefix rates channels _ Hlen Hd) as Hp.
  split.
  - intros (i & j & x & y & Hij & Hx & Hy & Hxy).
    apply write_raises_before_open. rewrite Hp.
    destruct (Nat.eqb_spec (List.length (Py.set (d :: rest))) 1) as [E|_];
      [|reflexivity].
    apply FloatFacts.set_size_one, FloatFacts.pairwise_equal_first in E.
    rewrite (E i j x y Hij Hx Hy) in Hxy. discriminate.
  - intros Hall.
    assert (E : List.length (Py.set (d :: rest)) = 1%nat)
      by now apply FloatFacts.set_size_one, FloatFacts.pairwise_equal_first.
    split; [exact E|].
    unfold write_timeseries. rewrite Hp, E. cbn [Nat.eqb negb bind].
    destruct (normalize_length d) as [len|e] eqn:Hn; cbn [bind fst].
    + destruct (H5.open_w fs _) as [fs'|e] eqn:Ho; cbn [fst].
      * destruct (write_channels _ _ _ _ _) as [[u|e] f] eqn:Hw; cbn [fst].
        -- discriminate.
        -- intros [= ->]. now apply write_channels_error in Hw.
      * apply H5Facts.open_w_error in Ho as [msg ->]. discriminate.
    + intros [= ->]. now apply normalize_length_error in Hn.
Qed.

Lemma write_duration_check_witness :
  write_timeseries Demo.fs Demo.dir (PyInt 1000000000)
    (RateList [Float.of_Z 100; Float.of_Z 40]) "H1"
    [("a", Demo.zeros 1000); ("b", Demo.zeros 500)]
  = (Raise duration_error, Demo.fs)
  /\ fst (write_timeseries Demo.fs Demo.dir (PyInt 1000000000)
            (RateList [Float.of_Z 100; Float.of_Z 50]) "H1"
            [("a", Demo.zeros 1000); ("b", Demo.zeros 500)])
     <> Raise duration_error.
Proof.
  split.
  - apply (write_duration_check Demo.fs Demo.dir (PyInt 1000000000) "H1"
             [Float.of_Z 100; Float.of_Z 40]
             [("a", Demo.zeros 1000); ("b", Demo.zeros 500)]
             [Float.of_Z 10; Float.make 25 (-1)]).
    + discriminate.
    + reflexivity.
    + vm_compute. reflexivity.
    + exists 0%nat, 1%nat, (Float.of_Z 10), (Float.make 25 (-1)).
      split; [lia|]. split; [reflexivity|]. split; [reflexivity|].
      vm_compute. reflexivity.
  - apply (write_duration_check Demo.fs Demo.dir (PyInt 1000000000) "H1"
             [Float.of_Z 100; Float.of_Z 50]
             [("a", Demo.zeros 1000); ("b", Demo.zeros 500)]
             [Float.of_Z 10; Float.of_Z 10]).
    + discriminate.
    + reflexivity.
    + vm_compute. reflexivity.
    + intros [|[|i]] [|[|j]] x y Hij Hx Hy; cbn in Hx, Hy; try lia;
        try discriminate; injection Hx as <-; injection Hy as <-;
        vm_compute; reflexivity.
Defined.

(** ** The write path: the length field of the file name *)

Lemma div_mul_exact (n d : Z) : 0 < d -> (n / d * d =? n) = (n mod d =? 0).
Proof.
  intros Hd. pose proof (Z.div_mod n d ltac:(lia)) as H.
  destruct (Z.eqb_spec (n / d * d) n), (Z.eqb_spec (n mod d) 0); lia.
Qed.

Lemma opp_div_exact (n d : Z) : 0 < d -> n mod d = 0 -> - (n / d) = (- n) / d.
Proof. intros Hd H. symmetry. apply Z.div_opp_l_z; lia. Qed.

Lemma opp_mod_zero (n d : Z) : 0 < d -> ((- n) mod d =? 0) = (n mod d =? 0).
Proof.
  intros Hd.
  destruct (Z.eqb_spec (n mod d) 0) as [E|E].
  - rewrite Z.mod_opp_l_z by lia. reflexivity.
  - destruct (Z.eqb_spec ((- n) mod d) 0) as [E'|E']; [|reflexivity].
    exfalso. apply E. rewrite <- (Z.opp_involutive n).
    apply Z.mod_opp_l_z; lia.
Qed.

Lemma normalize_whole d :
  Float.is_finite d = true ->
  normalize_length d
  = Ok (if Float.is_whole d then PyInt (Qfloor (Float.value d)) else PyFloat d).
Proof.
  intros Hfin. rewrite normalize_length_eq.
  destruct d as [s|s| |s m e]; try discriminate.
  - reflexivity.
  - unfold Float.is_whole. cbn [Float.to_int Float.int_eqb Float.value].
    destruct e as [|p|p].
    + cbn [Z.leb Z.compare Z.shiftl]. rewrite Qfloor_Z.
      rewrite Qeq_bool_refl.
      destruct s; cbn [Z.opp]; rewrite Z.eqb_refl; reflexivity.
    + replace (0 <=? Z.pos p) with true by reflexivity.
      rewrite !Z.shiftl_mul_pow2 by lia. rewrite Qfloor_Z, Qeq_bool_refl.
      destruct s.
      * replace (- (Z.pos m * 2 ^ Z.pos p)) with (Z.neg m * 2 ^ Z.pos p) by lia.
        rewrite Z.eqb_refl. reflexivity.
      * rewrite Z.eqb_refl. reflexivity.
    + replace (0 <=? Z.neg p) with false by reflexivity.
      replace (- Z.neg p) with (Z.pos p) by reflexivity.
      rewrite Z.shiftr_div_pow2 by lia.
      assert (HD : 0 < 2 ^ Z.pos p) by (apply Z.pow_pos_nonneg; lia).
      unfold Qeq_bool, Qfloor. cbn [Qnum Qden inject_Z].
      rewrite Pos2Z.inj_pow. change (Z.pos 2) with 2.
      rewrite Z.mul_1_r.
      set (D := 2 ^ Z.pos p) in *.
      rewrite Z.shiftl_mul_pow2 by lia. fold D.
      pose proof (Z.div_mod (Z.pos m) D ltac:(lia)) as Hdm.
      pose proof (Z.mod_pos_bound (Z.pos m) D HD) as Hb.
      destruct s.
      * change (Z.neg m) with (- Z.pos m).
        destruct (Z.eq_dec (Z.pos m mod D) 0) as [E|E].
        -- rewrite <- (opp_div_exact _ _ HD E).
           replace (- (Z.pos m / D) * D =? - Z.pos m) with true
             by (symmetry; apply Z.eqb_eq; lia).
           reflexivity.
        -- replace (- (Z.pos m / D) * D =? - Z.pos m) with false
             by (symmetry; apply Z.eqb_neq; lia).
           rewrite div_mul_exact, opp_mod_zero by lia.
           replace (Z.pos m mod D =? 0) with false
             by (symmetry; apply Z.eqb_neq; lia).
           reflexivity.
      * reflexivity.
Qed.

(** When the fractional part is zero the integer is the value itself. *)
Lemma is_whole_value d :
  Float.is_whole d = true -> (inject_Z (Qfloor (Float.value d)) == Float.value d)%Q.
Proof. unfold Float.is_whole. apply Qeq_bool_eq. Qed.

(** C8: for a finite common duration [d], the length that goes into the
    file name is the integer [d] stands for when the fractional part of
    [d] is zero, and [d] itself otherwise. *)
Theorem write_length_field (write_dir : Path.t) (t0 : pynum) (prefix : string)
    (rates : list float) (channels : channel_map) (d : float) (rest : list float) :
  List.length rates = List.length channels ->
  durations (List.map snd channels) rates = Ok (d :: rest) ->
  List.length (Py.set (d :: rest)) = 1%nat ->
  Float.is_finite d = true ->
  let length :=
    if Float.is_whole d then PyInt (Qfloor (Float.value d)) else PyFloat d in
  normalize_length d = Ok length
  /\ prepare_write write_dir t0 (RateList rates) prefix channels
     = Ok (RateList rates,
           Path.join write_dir
             (prefix ++ "-" ++ pynum_str t0 ++ "-" ++ pynum_str length ++ ".hdf5"))
  /\ (forall fs fname fs',
         write_timeseries fs write_dir t0 (RateList rates) prefix channels
         = (Ok fname, fs') ->
         fname = Path.join write_dir
                   (prefix ++ "-" ++ pynum_str t0 ++ "-" ++ pynum_str length
                    ++ ".hdf5")).
Proof.
  intros Hlen Hd Hset Hfin length.
  pose proof (normalize_whole d Hfin) as Hn. fold length in Hn.
  assert (Hp : prepare_write write_dir t0 (RateList rates) prefix channels
               = Ok (RateList rates,
                     Path.join write_dir (segment_name prefix t0 length))).
  { rewrite (prepare_write_list _ _ _ _ _ _ Hlen Hd), Hset.
    cbn [Nat.eqb negb bind]. rewrite Hn. reflexivity. }
  split; [exact Hn|]. split; [exact Hp|].
  intros fs fname fs' Hw. unfold write_timeseries in Hw. rewrite Hp in Hw.
  destruct (H5.open_w fs _); [|discriminate].
  destruct (write_channels _ _ _ _ _) as [[u|e] f]; [|discriminate].
  injection Hw as <- _. reflexivity.
Qed.

Lemma write_length_field_witness :
  prepare_write Demo.dir (PyInt 1000000000) (RateList [Float.of_Z 2]) "H1"
    [("a", Demo.zeros 5)]
  = Ok (RateList [Float.of_Z 2], Path.of_string "data/H1-1000000000-2.5.hdf5")
  /\ prepare_write Demo.dir (PyInt 1000000000) (RateList [Float.of_Z 2]) "H1"
       [("a", Demo.zeros 6)]
     = Ok (RateList [Float.of_Z 2], Path.of_string "data/H1-1000000000-3.hdf5").
Proof.
  split.
  - destruct (write_length_field Demo.dir (PyInt 1000000000) "H1"
                [Float.of_Z 2] [("a", Demo.zeros 5)] (Float.make 5 (-1)) [])
      as (_ & Hp & _);
      [reflexivity|vm_compute; reflexivity|reflexivity|reflexivity|].
    rewrite Hp. vm_compute. reflexivity.
  - destruct (write_length_field Demo.dir (PyInt 1000000000) "H1"
                [Float.of_Z 2] [("a", Demo.zeros 6)] (Float.of_Z 3) [])
      as (_ & Hp & _);
      [reflexivity|vm_compute; reflexivity|reflexivity|reflexivity|].
    rewrite Hp. vm_compute. reflexivity.
Defined.

(** ** Round trip: what was written is what is read *)

Section RoundTrip.
Variable t0 : pynum.

Lemma stored_lookup_other channels : forall rates m k,
  k ∉ List.map fst channels -> stored channels rates m !! k = m !! k.
Proof.
  induction channels as [|[key value] channels IH]; intros [|r rates] m k Hk;
    cbn; try reflexivity.
  cbn in Hk. apply not_elem_of_cons in Hk as [Hne Hk].
  rewrite IH by exact Hk. apply lookup_insert_ne. congruence.
Qed.

(** What a loop that went through has written. *)
Lemma write_channels_inv channels : forall rates pre f u f',
  write_channels f t0 (RateList (pre ++ rates)%list) (List.length pre) channels
  = (Ok u, f') ->
  (List.length channels <= List.length rates)%nat
  /\ (channels <> [] -> H5.storable t0 = true)
  /\ f' = {| h5_attrs := match channels with
                         | [] => h5_attrs f
                         | _ => <["t0" := t0]> (h5_attrs f)
                         end;
             h5_datasets := stored channels rates (h5_datasets f) |}.
Proof.
  induction channels as [|[key value] channels IH]; intros rates pre f u f' H;
    cbn [write_channels] in H.
  - injection H as _ <-. cbn. split; [lia|]. split; [contradiction|].
    destruct f, rates; reflexivity.
  - destruct (H5.set_attr f "t0" t0) as [f1|] eqn:H1; [|discriminate].
    apply H5Facts.set_attr_inv in H1 as [Hs ->].
    destruct (H5.create_dataset _ key value) as [f2|] eqn:H2; [|discriminate].
    apply H5Facts.create_dataset_inv in H2 as ->. cbn [h5_attrs h5_datasets] in H.
    cbn [rate_index] in H. rewrite nth_error_app2, Nat.sub_diag in H by lia.
    destruct rates as [|r rates]; [discriminate|]. cbn [nth_error] in H.
    rewrite H5Facts.set_dataset_attr_float in H. cbn [h5_attrs h5_datasets] in H.
    specialize (IH rates (pre ++ [r])%list). rewrite <- app_assoc in IH. cbn in IH.
    rewrite length_app in IH. cbn in IH. rewrite Nat.add_1_r in IH.
    apply IH in H as (Hlen & _ & ->). cbn [h5_attrs h5_datasets stored List.length].
    split; [lia|]. split; [auto|]. f_equal.
    + destruct channels; [reflexivity|]. apply insert_insert_eq.
    + f_equal. rewrite alter_insert_eq. cbn [ds_data ds_attrs].
      rewrite insert_empty. reflexivity.
Qed.

(** With a start time the file takes and plain, distinct names that are
    not in the file, the loop goes through. *)
Lemma write_channels_ok channels : forall rates pre f,
  H5.storable t0 = true ->
  NoDup (List.map fst channels) ->
  Forall (fun k => plain_name k = true) (List.map fst channels) ->
  (forall k, is_Some (h5_datasets f !! k) ->
             plain_name k = true /\ k ∉ List.map fst channels) ->
  (List.length channels <= List.length rates)%nat ->
  write_channels f t0 (RateList (pre ++ rates)%list) (List.length pre) channels
  = (Ok tt,
     {| h5_attrs := match channels with
                    | [] => h5_attrs f
                    | _ => <["t0" := t0]> (h5_attrs f)
                    end;
        h5_datasets := stored channels rates (h5_datasets f) |}).
Proof.
  induction channels as [|[key value] channels IH];
    intros rates pre f Hs Hnd Hplain Hfresh Hlen.
  - cbn. destruct f, rates; reflexivity.
  - destruct rates as [|r rates]; [cbn in Hlen; lia|].
    cbn in Hnd, Hplain. apply NoDup_cons in Hnd as [Hkey Hnd].
    apply Forall_cons in Hplain as [Hpk Hplain].
    cbn [write_channels]. rewrite (H5Facts.set_attr_storable _ _ _ Hs).
    rewrite H5Facts.create_dataset_free.
    2:{ rewrite (H5Facts.path_plain key Hpk). discriminate. }
    2:{ intros k' Hk'. apply H5Facts.names_elem in Hk'. cbn [h5_datasets] in Hk'.
        destruct (Hfresh k' Hk') as [Hpk' Hnin].
        rewrite (H5Facts.path_plain key Hpk), (H5Facts.path_plain k' Hpk').
        cbn [H5.prefix_of]. rewrite !andb_true_r, (String.eqb_sym k' key).
        assert (Hne : String.eqb key k' = false).
        { apply String.eqb_neq. intros ->. apply Hnin. cbn.
          apply elem_of_cons. now left. }
        now rewrite Hne. }
    cbn [h5_attrs h5_datasets rate_index].
    rewrite nth_error_app2, Nat.sub_diag by lia. cbn [nth_error].
    rewrite H5Facts.set_dataset_attr_float. cbn [h5_attrs h5_datasets].
    specialize (IH rates (pre ++ [r])%list). rewrite <- app_assoc in IH. cbn in IH.
    rewrite length_app in IH. cbn in IH. rewrite Nat.add_1_r in IH.
    rewrite IH; [|exact Hs|exact Hnd|exact Hplain| |cbn in Hlen; lia].
    + cbn [h5_attrs h5_datasets stored].
      f_equal. f_equal.
      * destruct channels; [reflexivity|]. apply insert_insert_eq.
      * f_equal. rewrite alter_insert_eq. cbn [ds_data ds_attrs].
        rewrite insert_empty. reflexivity.
    + intros k Hk. cbn [h5_datasets] in Hk.
      destruct (decide (k = key)) as [->|Hne]; [auto|].
      rewrite lookup_alter_ne, lookup_insert_ne in Hk by congruence.
      destruct (Hfresh k Hk) as [Hpk' Hnin]. split; [exact Hpk'|].
      intros Hin. apply Hnin. cbn. apply elem_of_cons. now right.
Qed.

Lemma stored_holds channels : forall rates m,
  NoDup (List.map fst channels) ->
  Forall (holds (stored channels rates m)) (series_of t0 channels rates).
Proof.
  induction channels as [|[key value] channels IH]; intros [|r rates] m Hnd;
    cbn; try constructor.
  - cbn in Hnd. apply NoDup_cons in Hnd as [Hkey Hnd].
    unfold holds. cbn. rewrite stored_lookup_other by exact Hkey.
    apply lookup_insert_eq.
  - cbn in Hnd. apply NoDup_cons in Hnd as [_ Hnd]. now apply IH.
Qed.

Lemma dict_set_fresh {V} (d : list (string * V)) k v :
  k ∉ List.map fst d -> Py.dict_set d k v = (d ++ [(k, v)])%list.
Proof.
  induction d as [|[k' v'] d IH]; intros Hk; cbn; [reflexivity|].
  cbn in Hk. apply not_elem_of_cons in Hk as [Hne Hk].
  destruct (String.eqb_spec k' k) as [->|_]; [contradiction|].
  rewrite IH by exact Hk. reflexivity.
Qed.

Lemma series_of_keys channels : forall rates,
  (List.length channels <= List.length rates)%nat ->
  List.map fst (series_of t0 channels rates) = List.map fst channels.
Proof.
  induction channels as [|[key value] channels IH]; intros [|r rates] Hlen;
    cbn in *; try reflexivity; try lia.
  f_equal. apply IH. lia.
Qed.

Lemma read_channels_ok path f (entries : TimeSeriesDict) : forall acc,
  Forall (holds (h5_datasets f)) entries ->
  Forall (fun e => ts_t0 (snd e) = pynum_float t0) entries ->
  NoDup (List.map fst acc ++ List.map fst entries)%list ->
  read_channels path f t0 acc (List.map fst entries) = Ok (acc ++ entries)%list.
Proof.
  induction entries as [|[k ts] entries IH]; intros acc Hh Ht Hnd.
  - cbn. now rewrite app_nil_r.
  - apply Forall_cons in Hh as [Hk Hh]. apply Forall_cons in Ht as [Htk Ht].
    cbn [List.map fst read_channels]. unfold read_channel, H5.get_dataset.
    unfold holds in Hk. cbn [fst snd] in Hk, Htk. rewrite Hk. cbn [bind].
    unfold H5.dataset_attr. cbn [ds_attrs ds_data].
    rewrite lookup_singleton_eq. cbn [bind].
    cbn in Hnd. pose proof Hnd as Hnd'.
    apply NoDup_app in Hnd as (Hacc & Hdisj & Hrest).
    rewrite dict_set_fresh
      by (intros Hin; apply (Hdisj _ Hin), elem_of_cons; left; reflexivity).
    rewrite IH; [| exact Hh | exact Ht |].
    + rewrite <- app_assoc. cbn. destruct ts; cbn in *; subst. reflexivity.
    + rewrite map_app. cbn. rewrite <- app_assoc. exact Hnd'.
Qed.

Lemma series_of_t0 channels : forall rates,
  Forall (fun e => ts_t0 (snd e) = pynum_float t0) (series_of t0 channels rates).
Proof.
  induction channels as [|[key value] channels IH]; intros [|r rates]; cbn;
    constructor; [reflexivity|apply IH].
Qed.

End RoundTrip.

Lemma write_broadcast fs write_dir t0 sample_rate prefix (channels : channel_map) rates :
  broadcast sample_rate (List.length channels) = RateList rates ->
  write_timeseries fs write_dir t0 sample_rate prefix channels
  = write_timeseries fs write_dir t0 (RateList rates) prefix channels.
Proof.
  intros H. unfold write_timeseries, prepare_write. rewrite H. reflexivity.
Qed.

(** A write whose validations pass, with a start time the archive takes
    and plain, distinct channel names, into a file that can be created:
    the write returns the path of the file, and reading the file back
    with the names of the channels returns the series of the channels. *)
Lemma write_then_read (fs : filesystem) (write_dir : Path.t) (t0 : pynum)
    (sample_rate : rate_spec) (prefix : string) (channels : channel_map)
    (rates : list float) (d : float) (rest : list float) (len : pynum) :
  broadcast sample_rate (List.length channels) = RateList rates ->
  List.length rates = List.length channels ->
  NoDup (List.map fst channels) ->
  Forall (fun k => plain_name k = true) (List.map fst channels) ->
  H5.storable t0 = true ->
  durations (List.map snd channels) rates = Ok (d :: rest) ->
  Forall (fun x => Float.eqb x d = true) rest ->
  normalize_length d = Ok len ->
  creatable fs (Path.join write_dir (segment_name prefix t0 len)) ->
  exists fs',
    write_timeseries fs write_dir t0 sample_rate prefix channels
    = (Ok (Path.join write_dir (segment_name prefix t0 len)), fs')
    /\ read_timeseries fs' (Path.join write_dir (segment_name prefix t0 len))
         (List.map fst channels)
       = Ok (series_of t0 channels rates).
Proof.
  intros Hb Hlen Hnd Hplain Hs Hd Heq Hn Ho.
  set (fname := Path.join write_dir (segment_name prefix t0 len)) in *.
  rewrite (write_broadcast _ _ _ _ _ _ _ Hb).
  unfold write_timeseries.
  rewrite (prepare_write_list _ _ _ _ _ _ Hlen Hd).
  rewrite (proj2 (FloatFacts.set_size_one d rest) Heq).
  cbn [Nat.eqb negb bind]. rewrite Hn. cbn [bind]. fold fname.
  apply H5Facts.open_w_creatable in Ho.
  destruct (H5.open_w fs fname) as [fs0|] eqn:Hopen; [|destruct Ho].
  pose proof (write_channels_ok t0 channels rates [] h5_empty Hs Hnd Hplain) as Hw.
  cbn [app List.length] in Hw. rewrite Hw; [| |lia].
  2:{ intros k [x Hx]. cbn in Hx. rewrite lookup_empty in Hx. discriminate. }
  eexists. split; [reflexivity|].
  unfold read_timeseries, H5.open_r, H5.close. cbn [fs_files].
  rewrite lookup_insert_eq. cbn [bind].
  assert (Hne : channels <> []).
  { intros ->. destruct rates; discriminate. }
  unfold H5.get_attr. cbn [h5_attrs h5_empty].
  destruct channels as [|c channels]; [contradiction|].
  rewrite lookup_insert_eq. cbn [bind].
  rewrite <- (series_of_keys t0 (c :: channels) rates) by lia.
  apply (read_channels_ok t0 _ _ _ []).
  - cbn [h5_datasets]. now apply stored_holds.
  - apply series_of_t0.
  - cbn [List.map app]. rewrite series_of_keys by lia. exact Hnd.
Qed.




(** ** How a float prints *)

Module ReprFacts.

Lemma digits_of_digits fuel : forall n acc,
  Str.forallb Str.is_digit acc = true ->
  Str.forallb Str.is_digit (Str.digits_of fuel n acc) = true.
Proof.
  induction fuel as [|fuel IH]; intros n acc Hacc; cbn [Str.digits_of];
    [exact Hacc|].
  assert (Hd : Str.forallb Str.is_digit (String (Str.digit_char (n mod 10)) acc)
               = true).
  { cbn. rewrite Hacc, PrintFacts.digit_char_digit; [reflexivity|].
    pose proof (Z.mod_pos_bound n 10). lia. }
  destruct (n <? 10); [exact Hd|]. now apply IH.
Qed.

Lemma digits_of_nonempty fuel : forall n acc,
  acc <> "" -> Str.digits_of fuel n acc <> "".
Proof.
  induction fuel as [|fuel IH]; intros n acc Hacc; cbn [Str.digits_of];
    [exact Hacc|].
  destruct (n <? 10); [discriminate|]. apply IH. discriminate.
Qed.

Lemma of_nonneg_digits n : Str.forallb Str.is_digit (Str.of_nonneg n) = true.
Proof. now apply digits_of_digits. Qed.

Lemma of_nonneg_nonempty n : Str.of_nonneg n <> "".
Proof.
  unfold Str.of_nonneg. cbn [Str.digits_of].
  destruct (n <? 10); [discriminate|]. apply digits_of_nonempty. discriminate.
Qed.

Lemma of_nonneg_short n :
  0 <= n < 1000 -> (String.length (Str.of_nonneg n) <= 3)%nat.
Proof.
  intros Hn. destruct (Z.eq_dec n 0) as [->|Hz]; [cbn; lia|].
  assert (Hj : exists j, (j <= 2)%nat /\ 10 ^ Z.of_nat j <= n < 10 ^ (Z.of_nat j + 1)).
  { destruct (Z.lt_ge_cases n 10); [exists 0%nat; cbn; lia|].
    destruct (Z.lt_ge_cases n 100); [exists 1%nat; cbn; lia|].
    exists 2%nat; cbn; lia. }
  destruct Hj as (j & Hj & Hb).
  destruct (PrintFacts.of_Z_spec j n Hb) as (c & D & E & _ & _ & Hlen).
  unfold Str.of_Z in E. destruct (Z.ltb_spec n 0); [lia|].
  rewrite E. cbn. lia.
Qed.

Lemma forallb_replicate p n c :
  p c = true -> Str.forallb p (Str.replicate n c) = true.
Proof. intros Hc. induction n; cbn; [reflexivity|]. now rewrite Hc. Qed.

Lemma forallb_drop p n : forall s,
  Str.forallb p s = true -> Str.forallb p (Str.drop n s) = true.
Proof.
  induction n as [|n IH]; intros [|c s] H; cbn [Str.drop]; auto.
  cbn [Str.forallb] in H. apply andb_prop in H as [_ H]. now apply IH.
Qed.

Lemma find_decpt_range fuel sc : forall k,
  k <= Float.find_decpt fuel sc k <= k + Z.of_nat fuel.
Proof.
  induction fuel as [|fuel IH]; intros k; cbn [Float.find_decpt]; [lia|].
  destruct (Float.below_pow10 sc k); [lia|]. specialize (IH (k + 1)). lia.
Qed.

Lemma pad2_digits s :
  Str.forallb Str.is_digit s = true -> Str.forallb Str.is_digit (Float.pad2 s) = true.
Proof.
  destruct s as [|c [|c' s]]; cbn; intros H; exact H.
Qed.

Lemma pad2_short s :
  (String.length s <= 3)%nat -> (String.length (Float.pad2 s) <= 3)%nat.
Proof. destruct s as [|c [|c' s]]; cbn; intros; lia. Qed.

Lemma ends_in_run_intro s c D :
  Str.is_digit c = false -> c <> "-"%char ->
  Str.forallb Str.is_digit D = true -> ends_in_run (s ++ String c D).
Proof.
  intros Hc Hm HD. exists s, c, D.
  split; [reflexivity|]. split; [exact Hc|]. split; [exact HD|].
  intros ->. contradiction.
Qed.

Lemma format_exp_run ds decpt :
  -500 < decpt < 500 -> ends_in_run (Float.format_exp ds decpt).
Proof.
  intros Hd. unfold Float.format_exp.
  set (mant := match ds with
               | "" => ""
               | String c "" => ds
               | String c (String _ _ as rest) => String c (String "." rest)
               end).
  set (digits := Float.pad2 (Str.of_nonneg (Z.abs (decpt - 1)))).
  assert (HD : Str.forallb Str.is_digit digits = true)
    by apply pad2_digits, of_nonneg_digits.
  assert (HL : (String.length digits <= 3)%nat)
    by (apply pad2_short, of_nonneg_short; lia).
  destruct (decpt - 1 <? 0).
  - exists (mant ++ "e"), "-"%char, digits.
    rewrite StrFacts.app_assoc.
    split; [reflexivity|]. split; [reflexivity|]. split; [exact HD|].
    intros _. split; [exact HL|]. now exists mant.
  - replace (mant ++ "e" ++ "+" ++ digits) with ((mant ++ "e") ++ String "+" digits)
      by now rewrite StrFacts.app_assoc.
    now apply ends_in_run_intro.
Qed.

Lemma format_fixed_run ds decpt :
  Str.forallb Str.is_digit ds = true -> ends_in_run (Float.format_fixed ds decpt).
Proof.
  intros Hds. unfold Float.format_fixed. cbv zeta.
  destruct (decpt <=? 0); [|destruct (decpt <? Z.of_nat (String.length ds))].
  - apply (ends_in_run_intro "0" "." (Str.replicate (Z.to_nat (- decpt)) "0" ++ ds));
      [reflexivity|discriminate|].
    rewrite StrFacts.forallb_app, Hds, forallb_replicate; reflexivity.
  - apply ends_in_run_intro; [reflexivity|discriminate|now apply forallb_drop].
  - rewrite <- StrFacts.app_assoc.
    apply ends_in_run_intro; [reflexivity|discriminate|reflexivity].
Qed.

Lemma ends_in_run_prepend a r : ends_in_run r -> ends_in_run (a ++ r).
Proof.
  intros (s & c & D & -> & Hc & HD & Hm).
  exists (a ++ s), c, D. rewrite StrFacts.app_assoc.
  split; [reflexivity|]. split; [exact Hc|]. split; [exact HD|].
  intros E. destruct (Hm E) as (HL & s' & ->). split; [exact HL|].
  exists (a ++ s'). now rewrite StrFacts.app_assoc.
Qed.

Lemma shortest_digits_spec m e :
  Str.forallb Str.is_digit (fst (Float.shortest_digits m e)) = true
  /\ -500 < snd (Float.shortest_digits m e) < 500.
Proof.
  unfold Float.shortest_digits.
  pose proof (find_decpt_range 640 (Float.scale m e) (-324)) as Hk.
  fold (Float.decpt_of (Float.scale m e)) in Hk.
  destruct (Float.shortest_from _ _ _ _) as [c n]. cbn [fst snd].
  split; [apply of_nonneg_digits|].
  destruct (c =? 10 ^ n); lia.
Qed.

(** Every float prints with such an ending. *)
Lemma repr_run x : ends_in_run (Float.repr x).
Proof.
  destruct x as [s|s| |s m e]; cbn [Float.repr].
  - destruct s;
      [apply (ends_in_run_intro "-0" "." "0")|apply (ends_in_run_intro "0" "." "0")];
      (reflexivity || discriminate).
  - destruct s;
      [apply (ends_in_run_intro "-in" "f" "")|apply (ends_in_run_intro "in" "f" "")];
      (reflexivity || discriminate).
  - apply (ends_in_run_intro "na" "n" ""); (reflexivity || discriminate).
  - destruct (shortest_digits_spec m e) as [Hds Hk].
    destruct (Float.shortest_digits m e) as [ds decpt]. cbn [fst snd] in *.
    apply ends_in_run_prepend. unfold Float.format_digits.
    destruct (_ || _); [now apply format_exp_run|now apply format_fixed_run].
Qed.

End ReprFacts.

(** ** Names the grammar has no place for *)

Module NameFacts.
Import ReprFacts.

Lemma app_inv_len a : forall b u v,
  a ++ u = b ++ v -> String.length u = String.length v -> a = b /\ u = v.
Proof.
  induction a as [|x a IH]; intros [|y b] u v E Hlen; cbn in E.
  - auto.
  - subst u. cbn in Hlen. rewrite StrFacts.length_app in Hlen. lia.
  - subst v. cbn in Hlen. rewrite StrFacts.length_app in Hlen. lia.
  - injection E as -> E. destruct (IH b u v E Hlen) as [-> ->]. auto.
Qed.

(** A string is cut in one way only into a head, a character that is not
    a digit, and digits. *)
Lemma tail_run_unique s1 : forall s2 c1 c2 D1 D2,
  s1 ++ String c1 D1 = s2 ++ String c2 D2 ->
  Str.is_digit c1 = false -> Str.is_digit c2 = false ->
  Str.forallb Str.is_digit D1 = true -> Str.forallb Str.is_digit D2 = true ->
  s1 = s2 /\ c1 = c2 /\ D1 = D2.
Proof.
  induction s1 as [|x s1 IH]; intros [|y s2] c1 c2 D1 D2 E H1 H2 HD1 HD2;
    cbn in E.
  - injection E as -> ->. auto.
  - injection E as -> ->. rewrite StrFacts.forallb_app in HD1. cbn in HD1.
    rewrite H2, andb_false_r in HD1. discriminate.
  - injection E as -> <-. rewrite StrFacts.forallb_app in HD2. cbn in HD2.
    rewrite H1, andb_false_r in HD2. discriminate.
  - injection E as -> E.
    destruct (IH s2 c1 c2 D1 D2 E H1 H2 HD1 HD2) as (-> & -> & ->). auto.
Qed.

Lemma valid_length_digits l :
  Grammar.valid_length l = true -> Str.forallb Str.is_digit l = true.
Proof.
  destruct l as [|c l]; [discriminate|]. cbn. intros H.
  apply andb_prop in H as [H _]. apply andb_prop in H as [Hc Hl].
  now rewrite (PrintFacts.nonzero_digit_digit c Hc), Hl.
Qed.

Lemma valid_t0_digits t :
  Grammar.valid_t0 t = true ->
  String.length t = 10%nat /\ Str.forallb Str.is_digit t = true.
Proof.
  unfold Grammar.valid_t0. intros H. apply andb_prop in H as [Hl Ht].
  now apply Nat.eqb_eq in Hl.
Qed.

(** What is in front of the suffix when the pattern is found in a name
    that ends in [.hdf5]: some text, then a prefix, ten digits and a
    length, with dashes between them. *)
Lemma search_hdf5 body m :
  Re.search fname_re (body ++ ".hdf5") = Some m ->
  exists pre p t l,
    Grammar.valid_prefix p = true /\ Grammar.valid_t0 t = true
    /\ Grammar.valid_length l = true
    /\ body = ((pre ++ p) ++ String "-" t) ++ String "-" l.
Proof.
  intros H. apply SearchFacts.search_sound in H as (pre & w & rest & E & Hacc).
  destruct Hacc as (p & t & l & c & x & Hp & Ht & Hl & Hc & Hx & -> & Hrest & _).
  exists pre, p, t, l. repeat (split; [assumption|]).
  assert (E' : body ++ ".hdf5"
               = ((((pre ++ p) ++ String "-" t) ++ String "-" l) ++ String c x) ++ rest).
  { rewrite E, !StrFacts.app_assoc. reflexivity. }
  clear E. destruct Hrest as [->| ->].
  - rewrite StrFacts.app_nil_r in E'. unfold Grammar.valid_suffix in Hx.
    apply orb_prop in Hx as [Hx|Hx]; [apply orb_prop in Hx as [Hx|Hx]|];
      apply String.eqb_eq in Hx; subst x.
    + exfalso.
      change (body ++ ".hdf5") with (body ++ ".hdf" ++ "5") in E'.
      change (String c "gwf") with (String c "gw" ++ "f") in E'.
      rewrite <- !StrFacts.app_assoc in E'.
      apply app_inv_len in E' as [_ [=]]. reflexivity.
    + now apply app_inv_len in E' as [-> _].
    + exfalso.
      change (body ++ ".hdf5") with (body ++ ".hd" ++ "f5") in E'.
      change (String c "h5") with (String c "" ++ "h5") in E'.
      rewrite <- !StrFacts.app_assoc in E'.
      apply app_inv_len in E' as [_ [=]]. reflexivity.
  - exfalso.
    change (body ++ ".hdf5") with (body ++ ".hdf" ++ "5") in E'.
    rewrite <- (StrFacts.app_assoc body) in E'.
    apply app_inv_len in E' as [_ [=]]. reflexivity.
Qed.

Lemma segment_name_body prefix t0 len :
  segment_name prefix t0 len
  = ((prefix ++ String "-" (pynum_str t0)) ++ String "-" (pynum_str len)) ++ ".hdf5".
Proof. unfold segment_name. rewrite !StrFacts.app_assoc. reflexivity. Qed.

(** With a float length the pattern is not found in the name. *)
Lemma float_length_name prefix t0 y :
  Re.search fname_re (segment_name prefix t0 (PyFloat y)) = None.
Proof.
  destruct (Re.search _ _) as [m|] eqn:H; [exfalso|reflexivity].
  rewrite segment_name_body in H.
  apply search_hdf5 in H as (pre & p & t & l & Hp & Ht & Hl & E).
  apply valid_t0_digits in Ht as [Htl Ht].
  cbn [pynum_str] in E.
  destruct (repr_run y) as (s & c & D & Hy & Hc & HD & Hm).
  rewrite Hy in E.
  change (String "-" (s ++ String c D)) with ((String "-" s) ++ String c D) in E.
  rewrite <- StrFacts.app_assoc in E.
  apply tail_run_unique in E as (E & Ec & _);
    [|exact Hc|reflexivity|exact HD|now apply valid_length_digits].
  destruct (Hm Ec) as (_ & s' & ->).
  change (String "-" (s' ++ "e")) with ((String "-" s') ++ String "e" "") in E.
  rewrite <- StrFacts.app_assoc in E.
  apply tail_run_unique in E as (_ & [=] & _); try reflexivity. exact Ht.
Qed.

(** With a float start time the pattern is not found in the name. *)
Lemma float_t0_name prefix x len :
  Re.search fname_re (segment_name prefix (PyFloat x) len) = None.
Proof.
  destruct len as [n|y]; [|apply float_length_name].
  destruct (Re.search _ _) as [m|] eqn:H; [exfalso|reflexivity].
  rewrite segment_name_body in H.
  apply search_hdf5 in H as (pre & p & t & l & Hp & Ht & Hl & E).
  apply valid_t0_digits in Ht as [Htl Ht].
  cbn [pynum_str] in E.
  destruct (repr_run x) as (s & c & D & Hx & Hc & HD & Hm).
  unfold Str.of_Z in E. destruct (n <? 0).
  - change (String "-" (String "-" (Str.of_nonneg (- n))))
      with (String "-" "" ++ String "-" (Str.of_nonneg (- n))) in E.
    rewrite <- StrFacts.app_assoc in E.
    apply tail_run_unique in E as (E & _ & _);
      [|reflexivity|reflexivity|apply of_nonneg_digits
       |now apply valid_length_digits].
    apply tail_run_unique in E as (_ & _ & <-);
      [discriminate|reflexivity|reflexivity|reflexivity|exact Ht].
  - apply tail_run_unique in E as (E & _ & _);
      [|reflexivity|reflexivity|apply of_nonneg_digits
       |now apply valid_length_digits].
    rewrite Hx in E.
    change (String "-" (s ++ String c D)) with ((String "-" s) ++ String c D) in E.
    rewrite <- StrFacts.app_assoc in E.
    apply tail_run_unique in E as (_ & Ec & ->);
      [|exact Hc|reflexivity|exact HD|exact Ht].
    destruct (Hm Ec) as [HL _]. lia.
Qed.

End NameFacts.

(** ** Paths: the name of a written file *)

Module JoinFacts.
Import PathFacts.

Lemma split_nonempty s : Str.split "/" s <> [].
Proof.
  destruct s as [|c s]; cbn; [discriminate|].
  destruct (Ascii.eqb c "/"); [discriminate|].
  destruct (Str.split "/" s); discriminate.
Qed.

(** Text without a slash put behind a string extends its last component. *)
Lemma split_app s tail :
  Str.forallb Str.no_slash tail = true ->
  Str.split "/" (s ++ tail)
  = (List.removelast (Str.split "/" s)
     ++ [(List.last (Str.split "/" s) "" ++ tail)%string])%list.
Proof.
  intros Ht. induction s as [|c s IH].
  - cbn. now apply split_no_slash.
  - cbn [String.append Str.split]. rewrite IH.
    pose proof (split_nonempty s) as Hne.
    destruct (Ascii.eqb c "/").
    + destruct (Str.split "/" s) as [|w ws]; [contradiction|]. reflexivity.
    + destruct (Str.split "/" s) as [|w [|w' ws]]; [contradiction| |]; reflexivity.
Qed.

Lemma last_app_singleton {A} (l : list A) (x d : A) : List.last (l ++ [x]) d = x.
Proof. apply List.last_last. Qed.

(** The name of a path made of a directory and a string that ends in
    slash-free text. *)
Lemma name_join_tail dir s tail :
  Str.forallb Str.no_slash tail = true ->
  Path.is_name (List.last (Str.split "/" s) "" ++ tail) = true ->
  Path.name (Path.join dir (s ++ tail)) = List.last (Str.split "/" s) "" ++ tail.
Proof.
  intros Ht Hn.
  assert (Hnames : exists l, Path.names (Path.of_string (s ++ tail))
                             = (l ++ [(List.last (Str.split "/" s) "" ++ tail)%string])%list).
  { unfold Path.of_string. cbn [Path.names]. rewrite split_app by exact Ht.
    rewrite List.filter_app. cbn [List.filter]. rewrite Hn. eauto. }
  destruct Hnames as [l Hl].
  unfold Path.join, Path.name.
  destruct (String.eqb _ ""); cbn [Path.names]; rewrite Hl.
  - rewrite List.app_assoc. apply List.last_last.
  - apply List.last_last.
Qed.

Lemma forallb_take p n : forall s,
  Str.forallb p s = true -> Str.forallb p (Str.take n s) = true.
Proof.
  induction n as [|n IH]; intros [|c s] H; cbn [Str.take Str.forallb]; auto.
  cbn [Str.forallb] in H. apply andb_prop in H as [Hc H]. now rewrite Hc, IH.
Qed.

Lemma digits_no_slash s :
  Str.forallb Str.is_digit s = true -> Str.forallb Str.no_slash s = true.
Proof. apply forallb_impl, digit_no_slash. Qed.

Lemma of_Z_no_slash n : Str.forallb Str.no_slash (Str.of_Z n) = true.
Proof.
  unfold Str.of_Z. destruct (n <? 0); cbn [Str.forallb];
    rewrite digits_no_slash by apply ReprFacts.of_nonneg_digits; reflexivity.
Qed.

Lemma repr_no_slash x : Str.forallb Str.no_slash (Float.repr x) = true.
Proof.
  destruct x as [s|s| |s m e]; cbn [Float.repr]; try (destruct s; reflexivity);
    [reflexivity|].
  destruct (ReprFacts.shortest_digits_spec m e) as [Hds _].
  destruct (Float.shortest_digits m e) as [ds decpt]. cbn [fst] in Hds.
  apply digits_no_slash in Hds.
  rewrite StrFacts.forallb_app. apply andb_true_intro. split; [now destruct s|].
  unfold Float.format_digits, Float.format_exp, Float.format_fixed.
  destruct (_ || _).
  - rewrite !StrFacts.forallb_app. cbn [Str.forallb].
    rewrite (digits_no_slash _ (ReprFacts.pad2_digits _ (ReprFacts.of_nonneg_digits _))).
    destruct (decpt - 1 <? 0); cbn; rewrite andb_true_r;
      (destruct ds as [|c [|c' ds']]; [reflexivity|exact Hds|];
       cbn in Hds |- *; apply andb_prop in Hds as [-> ->]; reflexivity).
  - cbv zeta. destruct (decpt <=? 0); [|destruct (decpt <? _)];
      rewrite !StrFacts.forallb_app; cbn [Str.forallb].
    + rewrite Hds, ReprFacts.forallb_replicate; reflexivity.
    + rewrite forallb_take, ReprFacts.forallb_drop by exact Hds. reflexivity.
    + rewrite Hds, ReprFacts.forallb_replicate; reflexivity.
Qed.

Lemma pynum_str_no_slash n : Str.forallb Str.no_slash (pynum_str n) = true.
Proof. destruct n; [apply of_Z_no_slash|apply repr_no_slash]. Qed.

(** The base name of the path a write builds is again a segment name,
    with the last component of the prefix for its prefix. *)
Lemma name_join_segment dir prefix t0 len :
  Path.name (Path.join dir (segment_name prefix t0 len))
  = segment_name (List.last (Str.split "/" prefix) "") t0 len.
Proof.
  unfold segment_name. apply name_join_tail.
  - cbn [String.append Str.forallb]. rewrite StrFacts.forallb_app.
    cbn [String.append Str.forallb]. rewrite StrFacts.forallb_app.
    rewrite !pynum_str_no_slash. reflexivity.
  - unfold Path.is_name. apply andb_true_intro.
    split; apply negb_true_iff, String.eqb_neq;
      destruct (List.last _ _) as [|c [|c' b]]; cbn; discriminate.
Qed.

End JoinFacts.

(** ** The names the write path gives its files *)

(** What a successful write went through. *)
Lemma write_ok_inv fs write_dir t0 sample_rate prefix (channels : channel_map)
    fname fs' :
  write_timeseries fs write_dir t0 sample_rate prefix channels = (Ok fname, fs') ->
  exists rates d rest len,
    broadcast sample_rate (List.length channels) = RateList rates
    /\ List.length rates = List.length channels
    /\ durations (List.map snd channels) rates = Ok (d :: rest)
    /\ List.length (Py.set (d :: rest)) = 1%nat
    /\ normalize_length d = Ok len
    /\ fname = Path.join write_dir (segment_name prefix t0 len).
Proof.
  intros Hw. unfold write_timeseries, prepare_write in Hw.
  destruct (broadcast sample_rate (List.length channels)) as [r|z|rates];
    try discriminate.
  cbn [rate_len bind rate_iter] in Hw.
  destruct (Nat.eqb_spec (List.length rates) (List.length channels)) as [Hlen|];
    [|discriminate].
  cbn [negb] in Hw.
  destruct (durations (List.map snd channels) rates) as [lengths|] eqn:Hd;
    [|discriminate].
  cbn [bind] in Hw.
  destruct (Nat.eqb_spec (List.length (Py.set lengths)) 1) as [Hset|];
    [|discriminate].
  cbn [negb] in Hw.
  destruct lengths as [|d rest]; [discriminate|]. cbn [bind] in Hw.
  destruct (normalize_length d) as [len|] eqn:Hn; [|discriminate].
  cbn [bind] in Hw.
  destruct (H5.open_w fs _); [|discriminate].
  destruct (write_channels _ _ _ _ _) as [[u|e] f]; [|discriminate].
  injection Hw as <- _.
  exists rates, d, rest, len. auto 10.
Qed.

Lemma normalize_length_finite d len :
  normalize_length d = Ok len -> Float.is_finite d = true.
Proof.
  rewrite normalize_length_eq. destruct d; cbn; (discriminate || reflexivity).
Qed.

(** The path a successful write returns. *)
Lemma write_ok_name fs write_dir t0 sample_rate prefix (channels : channel_map)
    rates d rest len fname fs' :
  write_timeseries fs write_dir t0 sample_rate prefix channels = (Ok fname, fs') ->
  broadcast sample_rate (List.length channels) = RateList rates ->
  durations (List.map snd channels) rates = Ok (d :: rest) ->
  normalize_length d = Ok len ->
  fname = Path.join write_dir (segment_name prefix t0 len).
Proof.
  intros Hw Hb Hd Hn.
  apply write_ok_inv in Hw as (rates' & d' & rest' & len' & Hb' & _ & Hd' & _ & Hn' & ->).
  rewrite Hb in Hb'. injection Hb' as <-. rewrite Hd in Hd'. injection Hd' as <- <-.
  rewrite Hn in Hn'. now injection Hn' as <-.
Qed.

(** The name for an integer start time of ten digits, a whole duration
    from 1 to 9999 and a prefix of the grammar. *)
Lemma segment_name_conforms prefix t0 n :
  Grammar.valid_prefix prefix = true ->
  10 ^ 9 <= t0 < 10 ^ 10 -> 1 <= n <= 9999 ->
  Grammar.conforms (segment_name prefix (PyInt t0) (PyInt n)).
Proof.
  intros Hp Ht Hn. exists prefix, (Str.of_Z t0), (Str.of_Z n), "hdf5".
  split; [exact Hp|]. split; [now apply PrintFacts.of_Z_t0|].
  split; [now apply PrintFacts.of_Z_length|]. split; reflexivity.
Qed.

Lemma valid_t0_no_slash s :
  Grammar.valid_t0 s = true -> Str.forallb Str.no_slash s = true.
Proof.
  unfold Grammar.valid_t0. intros H. apply andb_prop in H as [_ H].
  eapply PathFacts.forallb_impl, H. apply PathFacts.digit_no_slash.
Qed.

Lemma valid_length_no_slash s :
  Grammar.valid_length s = true -> Str.forallb Str.no_slash s = true.
Proof.
  destruct s as [|c s]; [discriminate|]. cbn. intros H.
  apply andb_prop in H as [H _]. apply andb_prop in H as [Hc Hs].
  rewrite (PathFacts.digit_no_slash c (PrintFacts.nonzero_digit_digit c Hc)).
  eapply PathFacts.forallb_impl, Hs. apply PathFacts.digit_no_slash.
Qed.

(** A name that follows the grammar is a single path component. *)
Lemma conforms_component name :
  Grammar.conforms name ->
  Str.forallb Str.no_slash name = true /\ Path.is_name name = true.
Proof.
  intros (p & t & l & x & Hp & Ht & Hl & Hx & ->).
  unfold Grammar.valid_prefix in Hp. apply andb_prop in Hp as [Hne Hp].
  split.
  - rewrite !StrFacts.forallb_app.
    rewrite (PathFacts.forallb_impl _ _ p PathFacts.prefix_char_no_slash Hp).
    rewrite (valid_t0_no_slash t Ht), (valid_length_no_slash l Hl).
    unfold Grammar.valid_suffix in Hx.
    apply orb_prop in Hx as [Hx|Hx]; [apply orb_prop in Hx as [Hx|Hx]|];
      apply String.eqb_eq in Hx; subst x; reflexivity.
  - destruct p as [|c p]; [discriminate|]. unfold Path.is_name.
    apply andb_true_intro. split; apply negb_true_iff, String.eqb_neq;
      destruct p; discriminate.
Qed.

Lemma conforms_matched f :
  Grammar.conforms (base_name f) -> matched f = true.
Proof.
  intros H. apply SearchFacts.conforms_search in H as [m Hm].
  unfold matched. now rewrite Hm.
Qed.

(** C1, amended: a successful write with an integer start time of ten
    digits, a whole common duration from 1 to 9999 and a prefix of the
    grammar returns a path whose base name follows the grammar, and the
    sort of any collection of one kind without repeated elements returns
    every element that has this base name. *)
Theorem write_name_sortable (fs : filesystem) (write_dir : Path.t) (t0 : Z)
    (sample_rate : rate_spec) (prefix : string) (channels : channel_map)
    (rates : list float) (d : float) (rest : list float) (n : Z)
    (fname : Path.t) (fs' : filesystem) :
  write_timeseries fs write_dir (PyInt t0) sample_rate prefix channels
  = (Ok fname, fs') ->
  broadcast sample_rate (List.length channels) = RateList rates ->
  durations (List.map snd channels) rates = Ok (d :: rest) ->
  normalize_length d = Ok (PyInt n) ->
  10 ^ 9 <= t0 < 10 ^ 10 ->
  1 <= n <= 9999 ->
  Grammar.valid_prefix prefix = true ->
  Grammar.conforms (Path.name fname)
  /\ forall (l : list PATH_LIKE) (f : PATH_LIKE),
       homogeneous l -> pairwise_distinct l ->
       f ∈ l -> base_name f = Path.name fname ->
       exists files,
         filter_and_sort_files fs' (Several l) false = Ok (List.map File files)
         /\ f ∈ files.
Proof.
  intros Hw Hb Hd Hn Ht Hr Hp.
  pose proof (segment_name_conforms prefix t0 n Hp Ht Hr) as Hc.
  assert (Hname : Path.name fname = segment_name prefix (PyInt t0) (PyInt n)).
  { rewrite (write_ok_name _ _ _ _ _ _ _ _ _ _ _ _ Hw Hb Hd Hn).
    destruct (conforms_component _ Hc) as [Hs Hi].
    now apply PathFacts.name_join. }
  rewrite Hname. split; [exact Hc|].
  intros l f Hh Hdist Hf Hbase.
  destruct (SorterFacts.sort_collection fs' l Hh Hdist) as (files & Hs & Hperm & _).
  exists files. split; [exact Hs|].
  rewrite <- Hperm. apply list_elem_of_In, List.filter_In.
  split; [now apply list_elem_of_In|].
  apply conforms_matched. now rewrite Hbase.
Qed.

Lemma write_name_sortable_witness :
  let fname :=
    Path.join Demo.dir (segment_name "H1" (PyInt 1000000000) (PyInt 10)) in
  let fs' :=
    snd (write_timeseries Demo.fs Demo.dir (PyInt 1000000000)
           (RateFloat (Float.of_Z 100)) "H1" [("strain", Demo.zeros 1000)]) in
  Grammar.conforms (Path.name fname)
  /\ forall (l : list PATH_LIKE) (f : PATH_LIKE),
       homogeneous l -> pairwise_distinct l ->
       f ∈ l -> base_name f = Path.name fname ->
       exists files,
         filter_and_sort_files fs' (Several l) false = Ok (List.map File files)
         /\ f ∈ files.
Proof.
  intros fname fs'.
  apply (write_name_sortable Demo.fs Demo.dir 1000000000
           (RateFloat (Float.of_Z 100)) "H1" [("strain", Demo.zeros 1000)]
           [Float.of_Z 100] (Float.of_Z 10) [] 10 fname fs').
  - vm_compute. reflexivity.
  - reflexivity.
  - vm_compute. reflexivity.
  - vm_compute. reflexivity.
  - lia.
  - lia.
  - reflexivity.
Defined.

(** C1 as stated does not hold.  The scenario of the specification, with
    the start time a float, gives a name that the pattern does not match,
    and so does a duration that is not a whole number; the sort leaves
    both files out. *)
Lemma write_name_unmatched :
  (exists fname fs',
      write_timeseries Demo.fs Demo.dir (PyFloat (Float.of_Z 1000000000))
        (RateFloat (Float.of_Z 100)) "H1" [("strain", Demo.zeros 1000)]
      = (Ok fname, fs')
      /\ Path.name fname = "H1-1000000000.0-10.hdf5"
      /\ ~ Grammar.conforms (Path.name fname)
      /\ filter_and_sort_files fs' (Several [IsPath fname]) false = Ok [])
  /\ (exists fname fs',
        write_timeseries Demo.fs Demo.dir (PyInt 1000000000)
          (RateFloat (Float.of_Z 2)) "H1" [("strain", Demo.zeros 5)]
        = (Ok fname, fs')
        /\ Path.name fname = "H1-1000000000-2.5.hdf5"
        /\ ~ Grammar.conforms (Path.name fname)
        /\ filter_and_sort_files fs' (Several [IsPath fname]) false = Ok []).
Proof.
  split.
  - eexists. eexists. split; [vm_compute; reflexivity|].
    split; [vm_compute; reflexivity|].
    split; [|vm_compute; reflexivity].
    intros H. apply SearchFacts.conforms_search in H as [m Hm].
    vm_compute in Hm. discriminate.
  - eexists. eexists. split; [vm_compute; reflexivity|].
    split; [vm_compute; reflexivity|].
    split; [|vm_compute; reflexivity].
    intros H. apply SearchFacts.conforms_search in H as [m Hm].
    vm_compute in Hm. discriminate.
Qed.

(** ** Names the sort never returns *)

(** A file whose name the pattern is not found in is in no list the sort
    returns. *)
Lemma sort_leaves_out fs l out f :
  homogeneous l -> matched f = false ->
  filter_and_sort_files fs (Several l) false = Ok out -> File f ∉ out.
Proof.
  intros Hh Hm Hs Hin.
  destruct (SorterFacts.sort_collection_inv fs l out Hh Hs) as (files & -> & Hp & _).
  apply list_elem_of_In, in_map_iff in Hin as (g & [= ->] & Hg).
  apply list_elem_of_In in Hg. rewrite <- Hp in Hg.
  apply list_elem_of_In, List.filter_In in Hg as [_ Hg]. congruence.
Qed.

(** A write with a float start time returns a path in whose base name
    the pattern is not found, whatever the other arguments. *)
Theorem write_float_t0_unmatched (fs : filesystem) (write_dir : Path.t) (x : float)
    (sample_rate : rate_spec) (prefix : string) (channels : channel_map)
    (fname : Path.t) (fs' : filesystem) :
  write_timeseries fs write_dir (PyFloat x) sample_rate prefix channels
  = (Ok fname, fs') ->
  Re.search fname_re (Path.name fname) = None.
Proof.
  intros Hw. apply write_ok_inv in Hw as (rates & d & rest & len & _ & _ & _ & _ & _ & ->).
  rewrite JoinFacts.name_join_segment. apply NameFacts.float_t0_name.
Qed.

(** X25: a write whose common duration is not a whole number returns a path
    in whose base name the pattern is not found. *)
Theorem write_fraction_unmatched (fs : filesystem) (write_dir : Path.t) (t0 : pynum)
    (rates : list float) (prefix : string) (channels : channel_map)
    (d : float) (rest : list float) (fname : Path.t) (fs' : filesystem) :
  write_timeseries fs write_dir t0 (RateList rates) prefix channels
  = (Ok fname, fs') ->
  durations (List.map snd channels) rates = Ok (d :: rest) ->
  Float.is_whole d = false ->
  Re.search fname_re (Path.name fname) = None.
Proof.
  intros Hw Hd Hwhole.
  apply write_ok_inv in Hw as (rates' & d' & rest' & len & Hb & _ & Hd' & _ & Hn & ->).
  cbn in Hb. injection Hb as <-. rewrite Hd in Hd'. injection Hd' as <- <-.
  rewrite (normalize_whole d (normalize_length_finite d len Hn)), Hwhole in Hn.
  injection Hn as <-.
  rewrite JoinFacts.name_join_segment. apply NameFacts.float_length_name.
Qed.

(** X26: the sort of a collection of one kind returns no element whose base
    name is that of a file written with a float start time. *)
Theorem write_float_t0_left_out (fs : filesystem) (write_dir : Path.t) (x : float)
    (sample_rate : rate_spec) (prefix : string) (channels : channel_map)
    (fname : Path.t) (fs' : filesystem) :
  write_timeseries fs write_dir (PyFloat x) sample_rate prefix channels
  = (Ok fname, fs') ->
  forall (l : list PATH_LIKE) (out : list item) (f : PATH_LIKE),
    homogeneous l -> base_name f = Path.name fname ->
    filter_and_sort_files fs' (Several l) false = Ok out -> File f ∉ out.
Proof.
  intros Hw l out f Hh Hbase Hs.
  apply (sort_leaves_out fs' l out f Hh); [|exact Hs].
  unfold matched. rewrite Hbase.
  now rewrite (write_float_t0_unmatched _ _ _ _ _ _ _ _ Hw).
Qed.

(** ** The read path on any archive *)

Module ReadFacts.

Lemma dict_set_keys {V} (d : list (string * V)) k v :
  List.map fst (Py.dict_set d k v)
  = if bool_decide (k ∈ List.map fst d) then List.map fst d
    else (List.map fst d ++ [k])%list.
Proof.
  induction d as [|[k' v'] d IH]; cbn; [reflexivity|].
  destruct (String.eqb_spec k' k) as [->|Hne]; cbn.
  - rewrite bool_decide_eq_true_2 by (apply elem_of_cons; now left). reflexivity.
  - rewrite IH. destruct (bool_decide_reflect (k ∈ List.map fst d)) as [Hin|Hin].
    + rewrite bool_decide_eq_true_2 by (apply elem_of_cons; now right). reflexivity.
    + rewrite bool_decide_eq_false_2; [reflexivity|].
      intros H. apply elem_of_cons in H as [E|H]; [congruence|contradiction].
Qed.

Lemma dict_set_elem {V} (d : list (string * V)) k v kv :
  kv ∈ Py.dict_set d k v -> kv = (k, v) \/ kv ∈ d.
Proof.
  induction d as [|[k' v'] d IH]; cbn.
  - intros H. apply list_elem_of_singleton in H. now left.
  - destruct (String.eqb_spec k' k) as [->|Hne]; intros H;
      apply elem_of_cons in H as [E|H]; auto.
    + right. apply elem_of_cons. now right.
    + right. apply elem_of_cons. now left.
    + destruct (IH H) as [E|E]; [now left|]. right. apply elem_of_cons. now right.
Qed.

(** Only the elements of [seen] matter, not their order. *)
Lemma first_occurrences_ext l : forall seen seen',
  (forall x, x ∈ seen <-> x ∈ seen') ->
  first_occurrences seen l = first_occurrences seen' l.
Proof.
  induction l as [|x l IH]; intros seen seen' H; cbn; [reflexivity|].
  destruct (bool_decide_reflect (x ∈ seen)) as [H1|H1];
    destruct (bool_decide_reflect (x ∈ seen')) as [H2|H2];
    try (apply H in H1; contradiction); try (apply H in H2; contradiction).
  - now apply IH.
  - f_equal. apply IH. intros y. rewrite !elem_of_cons, H. tauto.
Qed.

Lemma first_occurrences_spec l : forall seen,
  NoDup seen ->
  NoDup (seen ++ first_occurrences seen l)
  /\ (forall c, c ∈ (seen ++ first_occurrences seen l)%list <-> c ∈ seen \/ c ∈ l).
Proof.
  induction l as [|x l IH]; intros seen Hnd; cbn [first_occurrences].
  - rewrite app_nil_r. split; [exact Hnd|]. intros c. split; [auto|].
    intros [H|H]; [exact H|]. inversion H.
  - destruct (bool_decide_reflect (x ∈ seen)) as [Hin|Hin].
    + destruct (IH seen Hnd) as [H1 H2]. split; [exact H1|].
      intros c. rewrite H2, elem_of_cons. split; [tauto|].
      intros [H|[->|H]]; auto.
    + assert (Hnd' : NoDup (x :: seen)) by now constructor.
      destruct (IH (x :: seen) Hnd') as [H1 H2].
      assert (Hp : Permutation ((x :: seen) ++ first_occurrences (x :: seen) l)
                     (seen ++ x :: first_occurrences (x :: seen) l)).
      { cbn. apply Permutation_middle. }
      split; [now rewrite <- Hp|].
      intros c. rewrite <- Hp, H2, !elem_of_cons. tauto.
Qed.

Section Channels.
Variables (path : Path.t) (f : h5file) (t0 : pynum).


Lemma read_channels_present (channels : list string) : forall acc,
  Forall (fun c => exists ts, readable f t0 c ts) channels ->
  Forall (fun kv => readable f t0 (fst kv) (snd kv)) acc ->
  exists ts_dict,
    read_channels path f t0 acc channels = Ok ts_dict
    /\ List.map fst ts_dict
       = (List.map fst acc ++ first_occurrences (List.map fst acc) channels)%list
    /\ Forall (fun kv => readable f t0 (fst kv) (snd kv)) ts_dict.
Proof.
  induction channels as [|c channels IH]; intros acc Hch Hacc.
  - exists acc. cbn. rewrite app_nil_r. auto.
  - apply Forall_cons in Hch as [(ts & d & rate & Hd & Hr & Hrate & Hdata & Ht0) Hch].
    cbn [read_channels]. unfold read_channel, H5.get_dataset, H5.dataset_attr.
    rewrite Hd. cbn [bind]. rewrite Hr. cbn [bind].
    set (ts' := {| ts_data := ds_data d; ts_t0 := pynum_float t0;
                   ts_sample_rate := pynum_float rate |}).
    destruct (IH (Py.dict_set acc c ts') Hch) as (ts_dict & Hrd & Hkeys & Hall).
    { apply Forall_forall. intros kv Hkv.
      apply dict_set_elem in Hkv as [->|Hkv].
      - exists d, rate. cbn. auto.
      - rewrite Forall_forall in Hacc. now apply Hacc. }
    exists ts_dict. split; [exact Hrd|]. split; [|exact Hall].
    rewrite Hkeys, dict_set_keys. cbn [first_occurrences].
    destruct (bool_decide_reflect (c ∈ List.map fst acc)) as [Hin|Hin].
    + reflexivity.
    + rewrite <- app_assoc. cbn. do 2 f_equal.
      apply first_occurrences_ext. intros x.
      rewrite elem_of_app, !elem_of_cons, elem_of_nil. tauto.
Qed.

End Channels.
End ReadFacts.

(** X11: on an archive with the [t0] attribute in which every requested
    channel is a dataset with a sample rate, the read returns one series
    for each distinct requested name, in the order in which the names
    first occur, each with the samples of its dataset and, as binary64
    numbers, the rate of its dataset and the [t0] of the file. *)
Theorem read_present_channels (fs : filesystem) (path : Path.t) (f : h5file)
    (t0 : pynum) (channels : list string) :
  fs_files fs !! Path.str path = Some f ->
  h5_attrs f !! "t0" = Some t0 ->
  Forall (fun c => exists ts, readable f t0 c ts) channels ->
  exists ts_dict,
    read_timeseries fs path channels = Ok ts_dict
    /\ List.map fst ts_dict = first_occurrences [] channels
    /\ NoDup (List.map fst ts_dict)
    /\ (forall c, c ∈ List.map fst ts_dict <-> c ∈ channels)
    /\ Forall (fun kv => readable f t0 (fst kv) (snd kv)) ts_dict.
Proof.
  intros Hf Ht0 Hch.
  unfold read_timeseries, H5.open_r, H5.get_attr. rewrite Hf. cbn [bind].
  rewrite Ht0. cbn [bind].
  destruct (ReadFacts.read_channels_present path f t0 channels [] Hch)
    as (ts_dict & Hrd & Hkeys & Hall); [constructor|].
  cbn in Hkeys. exists ts_dict. split; [exact Hrd|]. split; [exact Hkeys|].
  destruct (ReadFacts.first_occurrences_spec channels [] NoDup_nil_2) as [Hnd Hin].
  cbn in Hnd, Hin. rewrite Hkeys. split; [exact Hnd|]. split; [|exact Hall].
  intros c. rewrite Hin. split; [intros [H|H]; [inversion H|exact H]|auto].
Qed.

Lemma read_present_channels_witness :
  exists ts_dict,
    read_timeseries Demo.fs_with_archive Demo.archive_path ["strain"; "strain"]
    = Ok ts_dict
    /\ List.map fst ts_dict = first_occurrences [] ["strain"; "strain"]
    /\ NoDup (List.map fst ts_dict)
    /\ (forall c, c ∈ List.map fst ts_dict <-> c ∈ ["strain"; "strain"])
    /\ Forall (fun kv => readable Demo.archive (PyInt 1000000000) (fst kv) (snd kv))
         ts_dict.
Proof.
  assert (H : exists ts, readable Demo.archive (PyInt 1000000000) "strain" ts).
  { exists {| ts_data := Demo.zeros 4; ts_t0 := Float.of_Z 1000000000;
              ts_sample_rate := Float.of_Z 2 |}.
    exists {| ds_data := Demo.zeros 4;
              ds_attrs := {[ "sample_rate" := PyFloat (Float.of_Z 2) ]} |}.
    exists (PyFloat (Float.of_Z 2)).
    split; [apply lookup_singleton_eq|].
    split; [apply lookup_singleton_eq|repeat split; reflexivity]. }
  apply (read_present_channels Demo.fs_with_archive Demo.archive_path Demo.archive
           (PyInt 1000000000) ["strain"; "strain"]).
  - vm_compute. reflexivity.
  - vm_compute. reflexivity.
  - repeat constructor; exact H.
Defined.

(** X12: before it looks at any channel the read opens the file and takes
    its [t0]: a path that holds no archive raises [OSError], and an
    archive without the [t0] attribute raises [KeyError], whatever
    channels are requested, none included. *)
Theorem read_unreadable_archive (fs : filesystem) (path : Path.t)
    (channels : list string) :
  (fs_files fs !! Path.str path = None ->
   exists msg, read_timeseries fs path channels = Raise (OSError msg))
  /\ (forall f, fs_files fs !! Path.str path = Some f -> h5_attrs f !! "t0" = None ->
      exists msg, read_timeseries fs path channels = Raise (KeyError msg)).
Proof.
  split.
  - intros H. unfold read_timeseries, H5.open_r. rewrite H. cbn. eauto.
  - intros f Hf Ht0. unfold read_timeseries, H5.open_r, H5.get_attr.
    rewrite Hf. cbn [bind]. rewrite Ht0. cbn. eauto.
Qed.



(** ** The write path: failures and what a write leaves behind *)

Module WriteFacts.

(** What [prepare_write] went through when it returns. *)
Lemma prepare_write_inv write_dir t0 sample_rate prefix (channels : channel_map)
    sr fname :
  prepare_write write_dir t0 sample_rate prefix channels = Ok (sr, fname) ->
  exists rates d rest len,
    sr = RateList rates
    /\ broadcast sample_rate (List.length channels) = RateList rates
    /\ List.length rates = List.length channels
    /\ durations (List.map snd channels) rates = Ok (d :: rest)
    /\ List.length (Py.set (d :: rest)) = 1%nat
    /\ normalize_length d = Ok len
    /\ fname = Path.join write_dir (segment_name prefix t0 len).
Proof.
  intros Hp. unfold prepare_write in Hp.
  destruct (broadcast sample_rate (List.length channels)) as [r|z|rates];
    try discriminate.
  cbn [rate_len bind rate_iter] in Hp.
  destruct (Nat.eqb_spec (List.length rates) (List.length channels)) as [Hlen|];
    [|discriminate].
  cbn [negb] in Hp.
  destruct (durations (List.map snd channels) rates) as [lengths|] eqn:Hd;
    [|discriminate].
  cbn [bind] in Hp.
  destruct (Nat.eqb_spec (List.length (Py.set lengths)) 1) as [Hset|];
    [|discriminate].
  cbn [negb] in Hp.
  destruct lengths as [|d rest]; [discriminate|]. cbn [bind] in Hp.
  destruct (normalize_length d) as [len|] eqn:Hn; [|discriminate].
  cbn [bind] in Hp. injection Hp as <- <-.
  exists rates, d, rest, len. auto 10.
Qed.

(** What a loop that went through leaves in a new file. *)
Lemma write_channels_stored t0 rates (channels : channel_map) u f :
  channels <> [] ->
  write_channels h5_empty t0 (RateList rates) 0 channels = (Ok u, f) ->
  H5.storable t0 = true
  /\ f = {| h5_attrs := {[ "t0" := t0 ]};
            h5_datasets := stored channels rates ∅ |}.
Proof.
  intros Hne Hw.
  apply (write_channels_inv t0 channels rates [] h5_empty) in Hw
    as (_ & Hs & ->).
  split; [auto|]. destruct channels; [contradiction|].
  cbn [h5_attrs h5_empty h5_datasets]. rewrite insert_empty. reflexivity.
Qed.

(** Opening a file that was just created, whatever was put into it,
    gives the file system of the first opening. *)
Lemma open_w_again fs p fs0 f :
  H5.open_w fs p = Ok fs0 ->
  H5.open_w {| fs_dirs := fs_dirs fs0; fs_files := <[Path.str p := f]> (fs_files fs0) |} p
  = Ok fs0.
Proof.
  intros Ho. pose proof Ho as Hi.
  apply H5Facts.open_w_inv in Hi as (entries & Hdir & Hfile & ->).
  unfold H5.open_w in *. destruct (_ || _); [discriminate|].
  cbn [fs_dirs fs_files].
  assert (Hne : Path.str (Path.parent p) <> Path.str p) by congruence.
  rewrite lookup_insert_ne by exact Hne. rewrite Hfile.
  destruct (bool_decide_reflect (is_Some (@None (list string)))) as [[x Hx]|_];
    [discriminate|].
  rewrite lookup_insert_eq.
  assert (Hin : Path.name p
                ∈ (if bool_decide (Path.name p ∈ entries) then entries
                   else (entries ++ [Path.name p])%list)).
  { destruct (bool_decide_reflect (Path.name p ∈ entries)) as [H|H]; [exact H|].
    apply elem_of_app. right. apply elem_of_cons. now left. }
  rewrite (bool_decide_eq_true_2 _ Hin).
  now rewrite !insert_insert_eq.
Qed.

(** A loop that raises: the exception is one of the archive, and the
    file holds no dataset but those it held and channels of the write. *)
Lemma write_channels_raise t0 (channels : channel_map) : forall rates pre f e f',
  (List.length channels <= List.length rates)%nat ->
  write_channels f t0 (RateList (pre ++ rates)%list) (List.length pre) channels
  = (Raise e, f') ->
  (exists msg, e = TypeError msg \/ e = ValueError msg)
  /\ (forall k, is_Some (h5_datasets f' !! k) ->
                is_Some (h5_datasets f !! k) \/ k ∈ List.map fst channels).
Proof.
  induction channels as [|[key value] channels IH]; intros rates pre f e f' Hlen H;
    cbn [write_channels] in H; [discriminate|].
  destruct (H5.set_attr f "t0" t0) as [f1|e1] eqn:H1.
  2:{ injection H as <- <-. apply H5Facts.set_attr_error in H1 as ->.
      split; [unfold H5.no_hdf5_type; eauto|auto]. }
  apply H5Facts.set_attr_inv in H1 as [Hs ->].
  destruct (H5.create_dataset _ key value) as [f2|e2] eqn:H2.
  2:{ injection H as <- <-. split; [|auto].
      apply H5Facts.create_dataset_error in H2 as [->|[->| ->]]; eauto. }
  apply H5Facts.create_dataset_inv in H2 as ->. cbn [h5_attrs h5_datasets] in H.
  destruct rates as [|r rates]; [cbn in Hlen; lia|].
  cbn [rate_index] in H. rewrite nth_error_app2, Nat.sub_diag in H by lia.
  cbn [nth_error] in H.
  rewrite H5Facts.set_dataset_attr_float in H. cbn [h5_attrs h5_datasets] in H.
  specialize (IH rates (pre ++ [r])%list). rewrite <- app_assoc in IH. cbn in IH.
  rewrite length_app in IH. cbn in IH. rewrite Nat.add_1_r in IH.
  apply IH in H as [He Hk]; [|cbn in Hlen; lia].
  split; [exact He|]. intros k Hin. cbn [List.map fst].
  destruct (decide (k = key)) as [->|Hne].
  - right. apply elem_of_cons. now left.
  - destruct (Hk k Hin) as [Hold|Hrest].
    + left. cbn [h5_datasets] in Hold.
      rewrite lookup_alter_ne, lookup_insert_ne in Hold by congruence. exact Hold.
    + right. apply elem_of_cons. now right.
Qed.

Lemma durations_nonempty (channels : channel_map) rates d rest :
  durations (List.map snd channels) rates = Ok (d :: rest) -> channels <> [].
Proof. intros H ->. discriminate. Qed.

(** A successful write, step by step. *)
Lemma write_ok_steps fs write_dir t0 sample_rate prefix (channels : channel_map)
    fname fs' :
  NoDup (List.map fst channels) ->
  write_timeseries fs write_dir t0 sample_rate prefix channels = (Ok fname, fs') ->
  exists rates entries,
    broadcast sample_rate (List.length channels) = RateList rates
    /\ List.length rates = List.length channels
    /\ fs_dirs fs !! Path.str (Path.parent fname) = Some entries
    /\ fs' = {| fs_dirs :=
                  <[Path.str (Path.parent fname) :=
                      if bool_decide (Path.name fname ∈ entries) then entries
                      else (entries ++ [Path.name fname])%list]> (fs_dirs fs);
                fs_files :=
                  <[Path.str fname :=
                      {| h5_attrs := {[ "t0" := t0 ]};
                         h5_datasets := stored channels rates ∅ |}]> (fs_files fs) |}.
Proof.
  intros Hnd Hw. unfold write_timeseries in Hw.
  destruct (prepare_write _ _ _ _ _) as [[sr fname']|] eqn:Hp;
    [|discriminate].
  apply prepare_write_inv in Hp
    as (rates & d & rest & len & -> & Hb & Hlen & Hd & _ & _ & Hname).
  destruct (H5.open_w fs fname') as [fs0|] eqn:Ho; [|discriminate].
  apply H5Facts.open_w_inv in Ho as (entries & Hdir & _ & ->).
  destruct (write_channels h5_empty t0 (RateList rates) 0 channels)
    as [[u|e] f] eqn:Hc; [|discriminate].
  apply write_channels_stored in Hc as [_ ->];
    [|exact (durations_nonempty _ _ _ _ Hd)].
  injection Hw as <- <-.
  exists rates, entries. split; [exact Hb|]. split; [exact Hlen|].
  split; [exact Hdir|]. unfold H5.close. cbn [fs_dirs fs_files].
  now rewrite insert_insert_eq.
Qed.

Lemma durations_zero datasets : forall rates,
  List.length datasets = List.length rates ->
  Exists (fun r => Float.is_zero r = true) rates ->
  exists msg, durations datasets rates = Raise (ZeroDivisionError msg).
Proof.
  induction datasets as [|x datasets IH]; intros [|r rates] Hlen Hex;
    try discriminate; try (inversion Hex; fail).
  cbn [durations]. unfold Float.div.
  destruct (Float.is_zero r) eqn:Hr; [cbn; eauto|].
  cbn [bind]. inversion Hex as [? ? Hz|? ? Hz]; subst; [congruence|].
  destruct (IH rates) as [msg ->]; [cbn in Hlen; lia|exact Hz|].
  cbn. eauto.
Qed.

(** Without a zero rate every division returns; a NaN rate gives a NaN
    duration. *)
Lemma durations_defined datasets : forall rates,
  List.length datasets = List.length rates ->
  Forall (fun r => Float.is_zero r = false) rates ->
  exists lengths,
    durations datasets rates = Ok lengths
    /\ (S754_nan ∈ rates -> S754_nan ∈ lengths).
Proof.
  induction datasets as [|x datasets IH]; intros [|r rates] Hlen Hnz;
    try discriminate.
  - exists []. split; [reflexivity|auto].
  - apply Forall_cons in Hnz as [Hr Hnz].
    destruct (IH rates) as (lengths & Hd & Hnan); [cbn in Hlen; lia|exact Hnz|].
    cbn [durations]. unfold Float.div. rewrite Hr. cbn [bind]. rewrite Hd.
    cbn [bind]. eexists. split; [reflexivity|].
    intros Hin. apply elem_of_cons in Hin as [<-|Hin].
    + apply elem_of_cons. left.
      destruct (Float.of_Z _); reflexivity.
    + apply elem_of_cons. right. auto.
Qed.

Lemma eqb_nan_l x : Float.eqb S754_nan x = false.
Proof. destruct x; reflexivity. Qed.

Lemma eqb_nan_r x : Float.eqb x S754_nan = false.
Proof. destruct x; reflexivity. Qed.

(** A list of durations with a NaN in it passes the check of the set
    only when it is the NaN alone. *)
Lemma set_with_nan lengths :
  S754_nan ∈ lengths -> List.length (Py.set lengths) = 1%nat ->
  lengths = [S754_nan].
Proof.
  destruct lengths as [|d rest]; [intros H; inversion H|].
  intros Hin Hset. apply FloatFacts.set_size_one in Hset.
  apply elem_of_cons in Hin as [<-|Hin].
  - destruct rest as [|y rest]; [reflexivity|].
    apply Forall_cons in Hset as [Hy _]. rewrite eqb_nan_r in Hy. discriminate.
  - rewrite Forall_forall in Hset. apply Hset in Hin.
    rewrite eqb_nan_l in Hin. discriminate.
Qed.

End WriteFacts.

(** X14: a sample rate of zero makes the write raise [ZeroDivisionError]
    where it computes the durations, before any file is opened: the file
    system is left as it was. *)
Theorem write_zero_rate (fs : filesystem) (write_dir : Path.t) (t0 : pynum)
    (sample_rate : rate_spec) (prefix : string) (channels : channel_map)
    (rates : list float) :
  broadcast sample_rate (List.length channels) = RateList rates ->
  List.length rates = List.length channels ->
  Exists (fun r => Float.is_zero r = true) rates ->
  exists msg,
    write_timeseries fs write_dir t0 sample_rate prefix channels
    = (Raise (ZeroDivisionError msg), fs).
Proof.
  intros Hb Hlen Hz.
  destruct (WriteFacts.durations_zero (List.map snd channels) rates) as [msg Hd];
    [now rewrite length_map|exact Hz|].
  exists msg. apply write_raises_before_open.
  unfold prepare_write. rewrite Hb. cbn [rate_len bind rate_iter].
  rewrite Hlen, Nat.eqb_refl. cbn [negb]. rewrite Hd. reflexivity.
Qed.

Lemma write_zero_rate_witness :
  exists msg,
    write_timeseries Demo.fs Demo.dir (PyInt 1000000000)
      (RateFloat (Float.of_Z 0)) "H1" [("strain", Demo.zeros 4)]
    = (Raise (ZeroDivisionError msg), Demo.fs).
Proof.
  apply (write_zero_rate Demo.fs Demo.dir (PyInt 1000000000)
           (RateFloat (Float.of_Z 0)) "H1" [("strain", Demo.zeros 4)]
           [Float.of_Z 0]).
  - reflexivity.
  - reflexivity.
  - apply Exists_cons_hd. reflexivity.
Defined.

(** X15: a NaN among the sample rates, none of them zero, makes the write
    raise [ValueError] before any file is opened.  With several channels
    it is the error of the duration check, since a NaN duration equals no
    other; with a single channel it is [int] that refuses the NaN. *)
Theorem write_nan_rate (fs : filesystem) (write_dir : Path.t) (t0 : pynum)
    (sample_rate : rate_spec) (prefix : string) (channels : channel_map)
    (rates : list float) :
  broadcast sample_rate (List.length channels) = RateList rates ->
  List.length rates = List.length channels ->
  Forall (fun r => Float.is_zero r = false) rates ->
  S754_nan ∈ rates ->
  write_timeseries fs write_dir t0 sample_rate prefix channels
  = (Raise (ValueError (match channels with
                        | [_] => "cannot convert float NaN to integer"
                        | _ => "Duration of datasets must all be equal"
                        end)), fs).
Proof.
  intros Hb Hlen Hnz Hnan.
  destruct (WriteFacts.durations_defined (List.map snd channels) rates)
    as (lengths & Hd & Hin); [now rewrite length_map|exact Hnz|].
  specialize (Hin Hnan).
  apply write_raises_before_open.
  unfold prepare_write. rewrite Hb. cbn [rate_len bind rate_iter].
  rewrite Hlen, Nat.eqb_refl. cbn [negb]. rewrite Hd. cbn [bind].
  pose proof (durations_length _ _ _ Hd) as Hl.
  rewrite length_map, Hlen, Nat.min_id in Hl.
  destruct (Nat.eqb_spec (List.length (Py.set lengths)) 1) as [Hset|Hset];
    cbn [negb].
  - rewrite (WriteFacts.set_with_nan lengths Hin Hset) in *.
    destruct channels as [|c [|c' channels]]; try discriminate. reflexivity.
  - destruct channels as [|c [|c' channels]]; try reflexivity.
    exfalso. apply Hset. destruct lengths as [|d [|d' lengths]]; try discriminate.
    reflexivity.
Qed.

Lemma write_nan_rate_witness :
  write_timeseries Demo.fs Demo.dir (PyInt 1000000000)
    (RateFloat S754_nan) "H1" [("a", Demo.zeros 4); ("b", Demo.zeros 4)]
  = (Raise (ValueError "Duration of datasets must all be equal"), Demo.fs).
Proof.
  apply (write_nan_rate Demo.fs Demo.dir (PyInt 1000000000)
           (RateFloat S754_nan) "H1" [("a", Demo.zeros 4); ("b", Demo.zeros 4)]
           [S754_nan; S754_nan]).
  - reflexivity.
  - reflexivity.
  - repeat constructor.
  - apply elem_of_cons. now left.
Defined.

(** X16: when the validations pass but the directory the file would go
    into does not exist, the write raises [OSError] and leaves the file
    system as it was: it creates no directory. *)
Theorem write_missing_directory (fs : filesystem) (write_dir : Path.t) (t0 : pynum)
    (sample_rate : rate_spec) (prefix : string) (channels : channel_map)
    (sr : rate_spec) (fname : Path.t) :
  prepare_write write_dir t0 sample_rate prefix channels = Ok (sr, fname) ->
  fs_dirs fs !! Path.str (Path.parent fname) = None ->
  exists msg,
    write_timeseries fs write_dir t0 sample_rate prefix channels
    = (Raise (OSError msg), fs).
Proof.
  intros Hp Hdir. unfold write_timeseries. rewrite Hp.
  destruct (H5Facts.open_w_missing fs fname Hdir) as [msg ->]. eauto.
Qed.

Lemma write_missing_directory_witness :
  exists msg,
    write_timeseries Demo.fs (Path.of_string "nowhere") (PyInt 1000000000)
      (RateFloat (Float.of_Z 2)) "H1" [("strain", Demo.zeros 4)]
    = (Raise (OSError msg), Demo.fs).
Proof.
  apply (write_missing_directory Demo.fs (Path.of_string "nowhere")
           (PyInt 1000000000) (RateFloat (Float.of_Z 2)) "H1"
           [("strain", Demo.zeros 4)] (RateList [Float.of_Z 2])
           (Path.of_string "nowhere/H1-1000000000-2.hdf5")).
  - vm_compute. reflexivity.
  - vm_compute. reflexivity.
Defined.

(** X17: what a write that raises leaves behind.  When the start time is
    one the archive takes and the channel names are plain and distinct,
    the file system is as it was: the write raised before it created the
    file.  In general either the file system is as it was, or the
    validations had passed and the write raised with the file open: then
    the file it created is left, listed in its directory and holding no
    dataset but channels of the write, and every other file and listing
    is as it was. *)
Theorem write_failure_frame (fs : filesystem) (write_dir : Path.t) (t0 : pynum)
    (sample_rate : rate_spec) (prefix : string) (channels : channel_map)
    (e : exn) (fs' : filesystem) :
  write_timeseries fs write_dir t0 sample_rate prefix channels = (Raise e, fs') ->
  (H5.storable t0 = true ->
   NoDup (List.map fst channels) ->
   Forall (fun k => plain_name k = true) (List.map fst channels) ->
   fs' = fs)
  /\ (fs' = fs
      \/ exists sr fname entries f,
           prepare_write write_dir t0 sample_rate prefix channels = Ok (sr, fname)
           /\ fs_dirs fs !! Path.str (Path.parent fname) = Some entries
           /\ fs' = {| fs_dirs :=
                         <[Path.str (Path.parent fname) :=
                             if bool_decide (Path.name fname ∈ entries) then entries
                             else (entries ++ [Path.name fname])%list]> (fs_dirs fs);
                       fs_files := <[Path.str fname := f]> (fs_files fs) |}
           /\ (forall k, is_Some (h5_datasets f !! k) -> k ∈ List.map fst channels)).
Proof.
  intros Hw. unfold write_timeseries in Hw.
  destruct (prepare_write _ _ _ _ _) as [[sr fname]|] eqn:Hp;
    [|injection Hw as _ <-; auto].
  pose proof Hp as Hi. apply WriteFacts.prepare_write_inv in Hi
    as (rates & d & rest & len & -> & Hb & Hlen & Hd & _ & _ & Hname).
  destruct (H5.open_w fs fname) as [fs1|] eqn:Ho; [|injection Hw as _ <-; auto].
  apply H5Facts.open_w_inv in Ho as (entries & Hdir & _ & ->).
  destruct (write_channels h5_empty t0 (RateList rates) 0 channels)
    as [[u|e'] f] eqn:Hc; [discriminate|].
  injection Hw as -> <-. split.
  - intros Hs Hnd Hplain. exfalso.
    pose proof (write_channels_ok t0 channels rates [] h5_empty Hs Hnd Hplain) as Hok.
    cbn [app List.length] in Hok. rewrite Hok in Hc; [discriminate| |lia].
    intros k [x Hx]. cbn in Hx. rewrite lookup_empty in Hx. discriminate.
  - right. exists (RateList rates), fname, entries, f.
    apply (WriteFacts.write_channels_raise t0 channels rates [] h5_empty) in Hc
      as [He Hk]; [|lia].
    split; [reflexivity|]. split; [exact Hdir|].
    split.
    + unfold H5.close. cbn [fs_dirs fs_files]. now rewrite insert_insert_eq.
    + intros k Hin. destruct (Hk k Hin) as [[x Hx]|H]; [|exact H].
      cbn in Hx. rewrite lookup_empty in Hx. discriminate.
Qed.

Lemma write_failure_frame_witness :
  let fs' :=
    snd (write_timeseries Demo.fs Demo.dir (PyInt (2 ^ 64))
           (RateFloat (Float.of_Z 2)) "H1" [("strain", Demo.zeros 4)]) in
  (H5.storable (PyInt (2 ^ 64)) = true ->
   NoDup (List.map fst [("strain", Demo.zeros 4)]) ->
   Forall (fun k => plain_name k = true) (List.map fst [("strain", Demo.zeros 4)]) ->
   fs' = Demo.fs)
  /\ (fs' = Demo.fs
      \/ exists sr fname entries f,
           prepare_write Demo.dir (PyInt (2 ^ 64)) (RateFloat (Float.of_Z 2)) "H1"
             [("strain", Demo.zeros 4)]
           = Ok (sr, fname)
           /\ fs_dirs Demo.fs !! Path.str (Path.parent fname) = Some entries
           /\ fs' = {| fs_dirs :=
                         <[Path.str (Path.parent fname) :=
                             if bool_decide (Path.name fname ∈ entries) then entries
                             else (entries ++ [Path.name fname])%list]>
                           (fs_dirs Demo.fs);
                       fs_files := <[Path.str fname := f]> (fs_files Demo.fs) |}
           /\ (forall k, is_Some (h5_datasets f !! k) ->
                         k ∈ List.map fst [("strain", Demo.zeros 4)])).
Proof.
  intros fs'.
  apply (write_failure_frame Demo.fs Demo.dir (PyInt (2 ^ 64))
           (RateFloat (Float.of_Z 2)) "H1" [("strain", Demo.zeros 4)]
           H5.no_hdf5_type fs').
  vm_compute. reflexivity.
Defined.

(** A start time the archive does not take stops the write at the first
    channel: the exception is the [TypeError] of the attribute, and the
    file that was created for the write is left empty. *)
Lemma write_unstorable_start_time (fs : filesystem) (write_dir : Path.t)
    (t0 : pynum) (sample_rate : rate_spec) (prefix : string)
    (channels : channel_map) (sr : rate_spec) (fname : Path.t) (fs0 : filesystem) :
  prepare_write write_dir t0 sample_rate prefix channels = Ok (sr, fname) ->
  H5.open_w fs fname = Ok fs0 ->
  H5.storable t0 = false ->
  write_timeseries fs write_dir t0 sample_rate prefix channels
  = (Raise H5.no_hdf5_type, H5.close fs0 fname h5_empty).
Proof.
  intros Hp Ho Hs. unfold write_timeseries. rewrite Hp, Ho.
  apply WriteFacts.prepare_write_inv in Hp
    as (rates & d & rest & len & -> & _ & _ & Hd & _).
  destruct channels as [|[key value] channels]; [discriminate|].
  cbn [write_channels]. unfold H5.set_attr. rewrite Hs. reflexivity.
Qed.

(** X18: a successful write changes one file and one directory listing.
    Every other file holds what it held, every other directory lists what
    it listed, and the directory of the file lists what it listed with
    the name of the file added at the end unless it was there. *)
Theorem write_success_frame (fs : filesystem) (write_dir : Path.t) (t0 : pynum)
    (sample_rate : rate_spec) (prefix : string) (channels : channel_map)
    (fname : Path.t) (fs' : filesystem) :
  NoDup (List.map fst channels) ->
  write_timeseries fs write_dir t0 sample_rate prefix channels = (Ok fname, fs') ->
  (forall p, p <> Path.str fname -> fs_files fs' !! p = fs_files fs !! p)
  /\ (forall d, d <> Path.str (Path.parent fname) ->
                fs_dirs fs' !! d = fs_dirs fs !! d)
  /\ exists entries,
       fs_dirs fs !! Path.str (Path.parent fname) = Some entries
       /\ fs_dirs fs' !! Path.str (Path.parent fname)
          = Some (if bool_decide (Path.name fname ∈ entries) then entries
                  else (entries ++ [Path.name fname])%list).
Proof.
  intros Hnd Hw.
  apply WriteFacts.write_ok_steps in Hw as (rates & entries & _ & _ & Hdir & ->);
    [|exact Hnd].
  cbn [fs_files fs_dirs]. split; [|split].
  - intros p Hp. now apply lookup_insert_ne.
  - intros d Hd. now apply lookup_insert_ne.
  - exists entries. split; [exact Hdir|]. apply lookup_insert_eq.
Qed.

Lemma write_success_frame_witness :
  let fname := Path.of_string "data/H1-1000000010-2.hdf5" in
  let fs' :=
    snd (write_timeseries Demo.fs_with_archive Demo.dir (PyInt 1000000010)
           (RateFloat (Float.of_Z 2)) "H1" [("strain", Demo.zeros 4)]) in
  (forall p, p <> Path.str fname ->
             fs_files fs' !! p = fs_files Demo.fs_with_archive !! p)
  /\ (forall d, d <> Path.str (Path.parent fname) ->
                fs_dirs fs' !! d = fs_dirs Demo.fs_with_archive !! d)
  /\ exists entries,
       fs_dirs Demo.fs_with_archive !! Path.str (Path.parent fname) = Some entries
       /\ fs_dirs fs' !! Path.str (Path.parent fname)
          = Some (if bool_decide (Path.name fname ∈ entries) then entries
                  else (entries ++ [Path.name fname])%list).
Proof.
  intros fname fs'.
  apply (write_success_frame Demo.fs_with_archive Demo.dir (PyInt 1000000010)
           (RateFloat (Float.of_Z 2)) "H1" [("strain", Demo.zeros 4)] fname fs').
  - apply NoDup_singleton.
  - vm_compute. reflexivity.
Defined.

(** X19: after a successful write the file holds what was written and
    nothing else, whatever a file of that name held before: the single
    attribute [t0], and for every channel a dataset with its samples and
    its rate as the only attribute; no other name is a dataset. *)
Theorem write_file_content (fs : filesystem) (write_dir : Path.t) (t0 : pynum)
    (sample_rate : rate_spec) (prefix : string) (channels : channel_map)
    (fname : Path.t) (fs' : filesystem) :
  NoDup (List.map fst channels) ->
  write_timeseries fs write_dir t0 sample_rate prefix channels = (Ok fname, fs') ->
  exists f rates,
    broadcast sample_rate (List.length channels) = RateList rates
    /\ fs_files fs' !! Path.str fname = Some f
    /\ h5_attrs f = {[ "t0" := t0 ]}
    /\ Forall (holds (h5_datasets f)) (series_of t0 channels rates)
    /\ (forall k, k ∉ List.map fst channels -> h5_datasets f !! k = None).
Proof.
  intros Hnd Hw.
  apply WriteFacts.write_ok_steps in Hw as (rates & entries & Hb & _ & _ & ->);
    [|exact Hnd].
  eexists. exists rates. split; [exact Hb|]. cbn [fs_files].
  split; [apply lookup_insert_eq|]. cbn [h5_attrs h5_datasets].
  split; [reflexivity|]. split; [now apply stored_holds|].
  intros k Hk. rewrite stored_lookup_other by exact Hk. apply lookup_empty.
Qed.

Lemma write_file_content_witness :
  let fname := Demo.archive_path in
  let fs' :=
    snd (write_timeseries Demo.fs_with_archive Demo.dir (PyInt 1000000000)
           (RateFloat (Float.of_Z 4)) "H1" [("aux", Demo.zeros 8)]) in
  exists f rates,
    broadcast (RateFloat (Float.of_Z 4)) 1 = RateList rates
    /\ fs_files fs' !! Path.str fname = Some f
    /\ h5_attrs f = {[ "t0" := PyInt 1000000000 ]}
    /\ Forall (holds (h5_datasets f))
         (series_of (PyInt 1000000000) [("aux", Demo.zeros 8)] rates)
    /\ (forall k, k ∉ List.map fst [("aux", Demo.zeros 8)] ->
                  h5_datasets f !! k = None).
Proof.
  intros fname fs'.
  apply (write_file_content Demo.fs_with_archive Demo.dir (PyInt 1000000000)
           (RateFloat (Float.of_Z 4)) "H1" [("aux", Demo.zeros 8)] fname fs').
  - apply NoDup_singleton.
  - vm_compute. reflexivity.
Defined.

(** X20: writing the same data again changes nothing: the second write
    returns the same path and leaves the file system the first one
    left. *)
Theorem write_idempotent (fs : filesystem) (write_dir : Path.t) (t0 : pynum)
    (sample_rate : rate_spec) (prefix : string) (channels : channel_map)
    (fname : Path.t) (fs' : filesystem) :
  write_timeseries fs write_dir t0 sample_rate prefix channels = (Ok fname, fs') ->
  write_timeseries fs' write_dir t0 sample_rate prefix channels = (Ok fname, fs').
Proof.
  intros Hw. unfold write_timeseries in *.
  destruct (prepare_write _ _ _ _ _) as [[sr fname']|]; [|discriminate].
  destruct (H5.open_w fs fname') as [fs0|] eqn:Ho; [|discriminate].
  destruct (write_channels _ _ _ _ _) as [[u|e] f]; [|discriminate].
  injection Hw as <- <-. unfold H5.close.
  now rewrite (WriteFacts.open_w_again fs fname' fs0 f Ho).
Qed.

Lemma write_idempotent_witness :
  let fs' :=
    snd (write_timeseries Demo.fs Demo.dir (PyInt 1000000000)
           (RateFloat (Float.of_Z 2)) "H1" [("strain", Demo.zeros 4)]) in
  write_timeseries fs' Demo.dir (PyInt 1000000000)
    (RateFloat (Float.of_Z 2)) "H1" [("strain", Demo.zeros 4)]
  = (Ok Demo.archive_path, fs').
Proof.
  intros fs'.
  apply (write_idempotent Demo.fs Demo.dir (PyInt 1000000000)
           (RateFloat (Float.of_Z 2)) "H1" [("strain", Demo.zeros 4)]).
  vm_compute. reflexivity.
Defined.

(** ** The write path: where the file goes and what it is called *)

Module PlaceFacts.
Import PathFacts JoinFacts.

Lemma segment_name_no_slash prefix t0 len :
  Str.forallb Str.no_slash prefix = true ->
  Str.forallb Str.no_slash (segment_name prefix t0 len) = true.
Proof.
  intros Hp. unfold segment_name.
  rewrite StrFacts.forallb_app, Hp. cbn [String.append Str.forallb].
  rewrite StrFacts.forallb_app, pynum_str_no_slash. cbn [String.append Str.forallb].
  rewrite StrFacts.forallb_app, pynum_str_no_slash. reflexivity.
Qed.

Lemma segment_name_is_name prefix t0 len :
  Path.is_name (segment_name prefix t0 len) = true.
Proof.
  unfold Path.is_name, segment_name. apply andb_true_intro.
  split; apply negb_true_iff, String.eqb_neq;
    destruct prefix as [|c [|c' p]]; cbn; discriminate.
Qed.

(** A single name put into a directory: the directory is the parent. *)
Lemma parent_join dir s :
  Str.forallb Str.no_slash s = true -> Path.is_name s = true ->
  Path.parent (Path.join dir s) = dir.
Proof.
  intros Hs Hn. unfold Path.join, Path.of_string, Path.parent.
  cbn [Path.root Path.names].
  rewrite root_of_no_slash, split_no_slash by exact Hs. cbn [List.filter].
  rewrite Hn. cbn [String.eqb Path.root Path.names].
  rewrite List.removelast_last. now destruct dir.
Qed.

(** A string with a root put into a directory: the directory is gone. *)
Lemma join_absolute dir rest : Path.join dir (String "/" rest) = Path.of_string (String "/" rest).
Proof.
  unfold Path.join.
  assert (H : String.eqb (Path.root (Path.of_string (String "/" rest))) "" = false).
  { cbn [Path.of_string Path.root Path.root_of].
    destruct rest as [|c2 [|c3 rest]]; cbn; try reflexivity;
      destruct (Ascii.eqb c2 "/"); try reflexivity;
      destruct (Ascii.eqb c3 "/"); reflexivity. }
  now rewrite H.
Qed.

(** The file a successful write returns is listed in its directory. *)
Lemma write_ok_listed fs write_dir t0 sample_rate prefix (channels : channel_map)
    fname fs' :
  write_timeseries fs write_dir t0 sample_rate prefix channels = (Ok fname, fs') ->
  exists entries,
    fs_dirs fs' !! Path.str (Path.parent fname) = Some entries
    /\ Path.name fname ∈ entries.
Proof.
  intros Hw. unfold write_timeseries in Hw.
  destruct (prepare_write _ _ _ _ _) as [[sr fname']|]; [|discriminate].
  destruct (H5.open_w fs fname') as [fs0|] eqn:Ho; [|discriminate].
  apply H5Facts.open_w_inv in Ho as (entries & Hdir & _ & ->).
  destruct (write_channels _ _ _ _ _) as [[u|e] f]; [|discriminate].
  injection Hw as <- <-. unfold H5.close. cbn [fs_dirs].
  eexists. split; [apply lookup_insert_eq|].
  destruct (bool_decide_reflect (Path.name fname' ∈ entries)) as [H|H]; [exact H|].
  apply elem_of_app. right. apply elem_of_cons. now left.
Qed.

Lemma nonzero_digit_val c : Str.is_nonzero_digit c = true -> 1 <= Str.digit_val c <= 9.
Proof.
  unfold Str.is_nonzero_digit, Str.digit_val. intros H.
  apply andb_prop in H as [H1 H2]. apply Nat.leb_le in H1, H2. lia.
Qed.

(** The number a length field of the grammar stands for. *)
Lemma valid_length_value l :
  Grammar.valid_length l = true -> 1 <= Str.value l <= 9999.
Proof.
  destruct l as [|c rest]; [discriminate|]. cbn [Grammar.valid_length]. intros H.
  apply andb_prop in H as [H Hlen]. apply andb_prop in H as [Hc Hrest].
  apply Nat.leb_le in Hlen. apply nonzero_digit_val in Hc.
  pose proof (DigitFacts.value_bound rest Hrest) as Hb.
  rewrite DigitFacts.value_cons.
  assert (Hpow : 1 <= 10 ^ Z.of_nat (String.length rest) <= 1000).
  { destruct (String.length rest) as [|[|[|[|k]]]]; cbn; lia. }
  nia.
Qed.

(** With a whole length that is not from 1 to 9999 the pattern is not
    found in the name. *)
Lemma int_length_name prefix t0 n :
  n <= 0 \/ 10000 <= n ->
  Re.search fname_re (segment_name prefix t0 (PyInt n)) = None.
Proof.
  intros Hn. destruct (Re.search _ _) as [m|] eqn:H; [exfalso|reflexivity].
  rewrite NameFacts.segment_name_body in H.
  apply NameFacts.search_hdf5 in H as (pre & p & t & l & Hp & Ht & Hl & E).
  apply NameFacts.valid_t0_digits in Ht as [Htl Ht].
  pose proof (NameFacts.valid_length_digits l Hl) as Hld.
  cbn [pynum_str] in E.
  destruct (Z.ltb_spec n 0) as [Hneg|Hpos].
  - unfold Str.of_Z in E. rewrite (proj2 (Z.ltb_lt n 0) Hneg) in E.
    change (String "-" (String "-" (Str.of_nonneg (- n))))
      with (String "-" "" ++ String "-" (Str.of_nonneg (- n))) in E.
    rewrite <- StrFacts.app_assoc in E.
    apply NameFacts.tail_run_unique in E as (E & _ & _);
      [|reflexivity|reflexivity|apply ReprFacts.of_nonneg_digits|exact Hld].
    symmetry in E.
    apply NameFacts.tail_run_unique in E as (_ & _ & ->);
      [|reflexivity|reflexivity|exact Ht|reflexivity].
    discriminate.
  - assert (El : l = Str.of_Z n).
    { assert (Hd : Str.forallb Str.is_digit (Str.of_Z n) = true).
      { unfold Str.of_Z. rewrite (proj2 (Z.ltb_ge n 0) Hpos).
        apply ReprFacts.of_nonneg_digits. }
      apply NameFacts.tail_run_unique in E as (_ & _ & E);
        [now symmetry|reflexivity|reflexivity|exact Hd|exact Hld]. }
    apply valid_length_value in Hl. rewrite El, PrintFacts.of_Z_value in Hl by lia.
    lia.
Qed.

End PlaceFacts.

(** X22: with a prefix that has no slash in it, the file a successful
    write returns is in [write_dir] itself: its parent is [write_dir], its
    name is [prefix-t0-length.hdf5], and [write_dir] lists it. *)
Theorem write_in_directory (fs : filesystem) (write_dir : Path.t) (t0 : pynum)
    (sample_rate : rate_spec) (prefix : string) (channels : channel_map)
    (fname : Path.t) (fs' : filesystem) :
  write_timeseries fs write_dir t0 sample_rate prefix channels = (Ok fname, fs') ->
  Str.forallb Str.no_slash prefix = true ->
  Path.parent fname = write_dir
  /\ (exists len, Path.name fname = segment_name prefix t0 len)
  /\ exists entries,
       fs_dirs fs' !! Path.str write_dir = Some entries /\ Path.name fname ∈ entries.
Proof.
  intros Hw Hp.
  destruct (PlaceFacts.write_ok_listed _ _ _ _ _ _ _ _ Hw) as (entries & Hdir & Hin).
  apply write_ok_inv in Hw as (rates & d & rest & len & _ & _ & _ & _ & _ & ->).
  pose proof (PlaceFacts.segment_name_no_slash prefix t0 len Hp) as Hs.
  pose proof (PlaceFacts.segment_name_is_name prefix t0 len) as Hn.
  rewrite (PlaceFacts.parent_join write_dir _ Hs Hn) in *.
  rewrite (PathFacts.name_join write_dir _ Hs Hn) in *.
  split; [reflexivity|]. split; [now exists len|]. now exists entries.
Qed.

Lemma write_in_directory_witness :
  let fname := Path.of_string "data/H1-1000000000-2.hdf5" in
  let fs' :=
    snd (write_timeseries Demo.fs Demo.dir (PyInt 1000000000)
           (RateFloat (Float.of_Z 2)) "H1" [("strain", Demo.zeros 4)]) in
  Path.parent fname = Demo.dir
  /\ (exists len, Path.name fname = segment_name "H1" (PyInt 1000000000) len)
  /\ exists entries,
       fs_dirs fs' !! Path.str Demo.dir = Some entries /\ Path.name fname ∈ entries.
Proof.
  intros fname fs'.
  apply (write_in_directory Demo.fs Demo.dir (PyInt 1000000000)
           (RateFloat (Float.of_Z 2)) "H1" [("strain", Demo.zeros 4)] fname fs').
  - vm_compute. reflexivity.
  - reflexivity.
Defined.

(** X23: a prefix that starts with a slash takes the file out of
    [write_dir]: the path is built by [write_dir / name], which drops
    [write_dir] when the name is absolute, so the write does the same
    whatever [write_dir] is. *)
Theorem write_absolute_prefix (fs : filesystem) (write_dir write_dir' : Path.t)
    (t0 : pynum) (sample_rate : rate_spec) (rest : string) (channels : channel_map) :
  write_timeseries fs write_dir t0 sample_rate (String "/" rest) channels
  = write_timeseries fs write_dir' t0 sample_rate (String "/" rest) channels.
Proof.
  assert (Hp : prepare_write write_dir t0 sample_rate (String "/" rest) channels
               = prepare_write write_dir' t0 sample_rate (String "/" rest) channels).
  { unfold prepare_write.
    destruct (rate_len _) as [n|]; cbn [bind]; [|reflexivity].
    destruct (negb _); [reflexivity|].
    destruct (rate_iter _) as [rates|]; cbn [bind]; [|reflexivity].
    destruct (durations _ _) as [lengths|]; cbn [bind]; [|reflexivity].
    destruct (negb _); [reflexivity|].
    destruct lengths as [|d lengths]; cbn [bind]; [reflexivity|].
    destruct (normalize_length d) as [len|]; cbn [bind]; [|reflexivity].
    unfold segment_name. cbn [String.append].
    now rewrite !PlaceFacts.join_absolute. }
  unfold write_timeseries. now rewrite Hp.
Qed.

(** X24: when the common duration is a whole number that is not from 1 to
    9999, the pattern is not found in the name of the file a successful
    write returns: the length field of the pattern takes one to four
    digits that do not start with a zero. *)
Theorem write_length_out_of_range (fs : filesystem) (write_dir : Path.t) (t0 : pynum)
    (rates : list float) (prefix : string) (channels : channel_map)
    (d : float) (rest : list float) (n : Z) (fname : Path.t) (fs' : filesystem) :
  write_timeseries fs write_dir t0 (RateList rates) prefix channels
  = (Ok fname, fs') ->
  durations (List.map snd channels) rates = Ok (d :: rest) ->
  normalize_length d = Ok (PyInt n) ->
  n <= 0 \/ 10000 <= n ->
  Re.search fname_re (Path.name fname) = None.
Proof.
  intros Hw Hd Hn Hr.
  apply write_ok_inv in Hw as (rates' & d' & rest' & len & Hb & _ & Hd' & _ & Hn' & ->).
  cbn in Hb. injection Hb as <-. rewrite Hd in Hd'. injection Hd' as <- <-.
  rewrite Hn in Hn'. injection Hn' as <-.
  rewrite JoinFacts.name_join_segment. now apply PlaceFacts.int_length_name.
Qed.

Lemma write_length_out_of_range_witness :
  Re.search fname_re
    (Path.name (Path.of_string "data/H1-1000000000-0.hdf5")) = None.
Proof.
  apply (write_length_out_of_range Demo.fs Demo.dir (PyInt 1000000000)
           [Float.of_Z 2] "H1" [("strain", Demo.zeros 0)] (Float.of_Z 0) [] 0
           (Path.of_string "data/H1-1000000000-0.hdf5")
           (snd (write_timeseries Demo.fs Demo.dir (PyInt 1000000000)
                   (RateList [Float.of_Z 2]) "H1" [("strain", Demo.zeros 0)]))).
  - vm_compute. reflexivity.
  - vm_compute. reflexivity.
  - vm_compute. reflexivity.
  - lia.
Defined.

Lemma write_fraction_unmatched_witness :
  Re.search fname_re
    (Path.name (Path.of_string "data/H1-1000000000-2.5.hdf5")) = None.
Proof.
  apply (write_fraction_unmatched Demo.fs Demo.dir (PyInt 1000000000)
           [Float.of_Z 2] "H1" [("strain", Demo.zeros 5)] (Float.make 5 (-1)) []
           (Path.of_string "data/H1-1000000000-2.5.hdf5")
           (snd (write_timeseries Demo.fs Demo.dir (PyInt 1000000000)
                   (RateList [Float.of_Z 2]) "H1" [("strain", Demo.zeros 5)]))).
  - vm_compute. reflexivity.
  - vm_compute. reflexivity.
  - vm_compute. reflexivity.
Defined.

Lemma write_float_t0_left_out_witness :
  File (IsPath (Path.of_string "data/H1-1000000000.0-2.hdf5")) ∉ ([] : list item).
Proof.
  apply (fun Hw =>
           write_float_t0_left_out Demo.fs Demo.dir (Float.of_Z 1000000000)
             (RateFloat (Float.of_Z 2)) "H1" [("strain", Demo.zeros 4)]
             (Path.of_string "data/H1-1000000000.0-2.hdf5")
             (snd (write_timeseries Demo.fs Demo.dir (PyFloat (Float.of_Z 1000000000))
                     (RateFloat (Float.of_Z 2)) "H1" [("strain", Demo.zeros 4)]))
             Hw
             [IsPath (Path.of_string "data/H1-1000000000.0-2.hdf5")] []
             (IsPath (Path.of_string "data/H1-1000000000.0-2.hdf5"))).
  - vm_compute. reflexivity.
  - left. reflexivity.
  - reflexivity.
  - vm_compute. reflexivity.
Defined.

(** ** The order of strings and of lists of strings *)

Module OrderFacts.

Lemma ascii_compare_refl c : Ascii.compare c c = Eq.
Proof. unfold Ascii.compare. apply N.compare_refl. Qed.

Lemma ascii_compare_trans a b c :
  Ascii.compare a b = Lt -> Ascii.compare b c = Lt -> Ascii.compare a c = Lt.
Proof.
  unfold Ascii.compare. rewrite !N.compare_lt_iff. apply N.lt_trans.
Qed.

Lemma compare_refl s : String.compare s s = Eq.
Proof. induction s as [|c s IH]; cbn; [reflexivity|]. now rewrite ascii_compare_refl. Qed.

Lemma compare_trans a : forall b c,
  String.compare a b = Lt -> String.compare b c = Lt -> String.compare a c = Lt.
Proof.
  induction a as [|x a IH]; intros [|y b] [|z c]; cbn; try discriminate; auto.
  destruct (Ascii.compare x y) eqn:Hxy; try discriminate;
    destruct (Ascii.compare y z) eqn:Hyz; try discriminate; intros H1 H2.
  - apply Ascii.compare_eq_iff in Hxy, Hyz. subst.
    rewrite ascii_compare_refl. now apply (IH b c).
  - apply Ascii.compare_eq_iff in Hxy. subst. now rewrite Hyz.
  - apply Ascii.compare_eq_iff in Hyz. subst. now rewrite Hxy.
  - now rewrite (ascii_compare_trans x y z Hxy Hyz).
Qed.

Lemma ltb_irrefl s : String.ltb s s = false.
Proof. unfold String.ltb. now rewrite compare_refl. Qed.

Lemma ltb_trans a b c :
  String.ltb a b = true -> String.ltb b c = true -> String.ltb a c = true.
Proof.
  unfold String.ltb.
  destruct (String.compare a b) eqn:H1; try discriminate.
  destruct (String.compare b c) eqn:H2; try discriminate.
  now rewrite (compare_trans a b c H1 H2).
Qed.

Lemma ltb_total a b : a <> b -> String.ltb a b = true \/ String.ltb b a = true.
Proof.
  intros Hne. unfold String.ltb. rewrite (String.compare_antisym b a).
  destruct (String.compare a b) eqn:H; cbn; auto.
  apply String.compare_eq_iff in H. contradiction.
Qed.

(** Lists of strings, as Python orders lists. *)
Lemma parts_ltb_irrefl a : Path.parts_ltb a a = false.
Proof. induction a as [|x a IH]; cbn; [reflexivity|]. now rewrite String.eqb_refl. Qed.

Lemma parts_ltb_trans a : forall b c,
  Path.parts_ltb a b = true -> Path.parts_ltb b c = true -> Path.parts_ltb a c = true.
Proof.
  induction a as [|x a IH]; intros [|y b] [|z c]; cbn; try discriminate; auto.
  destruct (String.eqb_spec x y) as [->|Hxy]; destruct (String.eqb_spec y z) as [->|Hyz].
  - apply IH.
  - intros _ H. exact H.
  - intros H _. destruct (String.eqb_spec x z); [contradiction|exact H].
  - intros H1 H2. pose proof (ltb_trans x y z H1 H2) as H.
    destruct (String.eqb_spec x z) as [->|_]; [|exact H].
    now rewrite ltb_irrefl in H.
Qed.

Lemma parts_ltb_total a : forall b,
  a <> b -> Path.parts_ltb a b = true \/ Path.parts_ltb b a = true.
Proof.
  induction a as [|x a IH]; intros [|y b] Hne; cbn; auto; try contradiction.
  rewrite (String.eqb_sym y x).
  destruct (String.eqb_spec x y) as [->|Hxy].
  - apply IH. congruence.
  - now apply ltb_total.
Qed.

Lemma parts_ltb_asym a b : Path.parts_ltb a b = true -> Path.parts_ltb b a = false.
Proof.
  intros H. destruct (Path.parts_ltb b a) eqn:H'; [|reflexivity].
  pose proof (parts_ltb_trans a b a H H') as Habs.
  now rewrite parts_ltb_irrefl in Habs.
Qed.

End OrderFacts.

(** ** [sorted] on elements that are compared by a key *)

Module KeySortFacts.
Import OrderFacts.

Section KeySort.
Context {A : Type} (lt : A -> A -> result bool).
Variables (good : A -> Prop) (key : A -> list string) (tie : exn).

(** Two elements with the same key cannot be ordered; otherwise [<] is
    the order of the keys. *)
Hypothesis lt_key :
  forall x y, good x -> good y ->
    lt x y = if bool_decide (key x = key y) then Raise tie
             else Ok (Path.parts_ltb (key x) (key y)).

Local Abbreviation before := (fun x y : A => Path.parts_ltb (key x) (key y) = true).

Lemma sorted_NoDup l : StronglySorted before l -> NoDup (List.map key l).
Proof.
  induction 1 as [|x l _ IH Hx]; cbn; constructor; [|exact IH].
  intros Hin. apply list_elem_of_In, in_map_iff in Hin as (y & E & Hy).
  rewrite Forall_forall in Hx. apply list_elem_of_In, Hx in Hy.
  cbn in Hy. rewrite E, parts_ltb_irrefl in Hy. discriminate.
Qed.

(** An element whose key is in a sorted list cannot be inserted. *)
Lemma insert_tie x acc :
  good x -> Forall good acc -> StronglySorted before acc ->
  key x ∈ List.map key acc -> Py.insert lt x acc = Raise tie.
Proof.
  intros Hx Hg Hs. induction Hs as [|y acc Hs IH Hy]; intros Hin; [inversion Hin|].
  apply Forall_cons in Hg as [Hgy Hg]. cbn [Py.insert].
  rewrite (lt_key x y Hx Hgy).
  destruct (bool_decide_reflect (key x = key y)) as [E|E]; [reflexivity|].
  cbn [bind]. cbn in Hin. apply elem_of_cons in Hin as [Hin|Hin]; [contradiction|].
  destruct (Path.parts_ltb (key x) (key y)) eqn:Hlt.
  - exfalso. apply list_elem_of_In, in_map_iff in Hin as (z & Ez & Hz).
    rewrite Forall_forall in Hy. apply list_elem_of_In, Hy in Hz. cbn in Hz.
    rewrite Ez in Hz.
    pose proof (parts_ltb_trans _ _ _ Hlt Hz) as Habs.
    now rewrite parts_ltb_irrefl in Habs.
  - rewrite (IH Hg Hin). reflexivity.
Qed.

(** An element with a new key goes to its place. *)
Lemma insert_fresh x acc :
  good x -> Forall good acc -> StronglySorted before acc ->
  key x ∉ List.map key acc ->
  exists acc', Py.insert lt x acc = Ok acc'
               /\ StronglySorted before acc' /\ Permutation (x :: acc) acc'.
Proof.
  intros Hx Hg Hs. induction Hs as [|y acc Hs IH Hy]; intros Hnin.
  - exists [x]. cbn. repeat split; auto. repeat constructor.
  - apply Forall_cons in Hg as [Hgy Hg]. cbn [Py.insert].
    rewrite (lt_key x y Hx Hgy). cbn in Hnin.
    apply not_elem_of_cons in Hnin as [Hne Hnin].
    rewrite bool_decide_eq_false_2 by exact Hne. cbn [bind].
    destruct (Path.parts_ltb (key x) (key y)) eqn:Hlt.
    + exists (x :: y :: acc). split; [reflexivity|]. split; [|reflexivity].
      constructor; [now constructor|]. constructor; [exact Hlt|].
      eapply Forall_impl; [exact Hy|]. cbn. intros z Hz.
      exact (parts_ltb_trans _ _ _ Hlt Hz).
    + destruct (IH Hg Hnin) as (acc' & -> & Hs' & Hp). cbn [bind].
      exists (y :: acc'). split; [reflexivity|]. split.
      * constructor; [exact Hs'|].
        eapply Permutation_Forall; [exact Hp|]. constructor; [|exact Hy].
        destruct (parts_ltb_total (key x) (key y) Hne) as [H|H]; [congruence|exact H].
      * rewrite perm_swap. now constructor.
Qed.

(** Behind everything it is greater than, an element goes last. *)
Lemma insert_last x acc :
  good x -> Forall good acc -> Forall (fun y => before y x) acc ->
  Py.insert lt x acc = Ok (acc ++ [x])%list.
Proof.
  intros Hx Hg Hlt. induction acc as [|y acc IH]; [reflexivity|].
  apply Forall_cons in Hg as [Hgy Hg]. apply Forall_cons in Hlt as [Hy Hlt].
  cbn [Py.insert]. rewrite (lt_key x y Hx Hgy).
  rewrite bool_decide_eq_false_2.
  - cbn [bind]. rewrite (parts_ltb_asym _ _ Hy), (IH Hg Hlt). reflexivity.
  - intros E. rewrite E, parts_ltb_irrefl in Hy. discriminate.
Qed.

Lemma sort_into_fresh l : forall acc,
  Forall good acc -> Forall good l -> StronglySorted before acc ->
  NoDup (List.map key (acc ++ l)) ->
  exists out, Py.sort_into lt acc l = Ok out
              /\ StronglySorted before out /\ Permutation (acc ++ l) out.
Proof.
  induction l as [|x l IH]; intros acc Hga Hgl Hs Hnd.
  - exists acc. rewrite app_nil_r. auto.
  - apply Forall_cons in Hgl as [Hx Hgl]. cbn [Py.sort_into].
    assert (Hnin : key x ∉ List.map key acc).
    { rewrite map_app in Hnd. apply NoDup_app in Hnd as (_ & Hd & _).
      intros Hin. apply (Hd _ Hin). cbn. apply elem_of_cons. now left. }
    destruct (insert_fresh x acc Hx Hga Hs Hnin) as (acc' & -> & Hs' & Hp).
    cbn [bind].
    assert (Hp' : Permutation (acc ++ x :: l) (acc' ++ l)).
    { rewrite <- Hp. symmetry. apply Permutation_middle. }
    destruct (IH acc') as (out & Hout & Hso & Hpo); auto.
    + eapply Permutation_Forall; [exact Hp|]. now constructor.
    + now rewrite <- Hp'.
    + exists out. split; [exact Hout|]. split; [exact Hso|]. now rewrite Hp'.
Qed.

Lemma sort_into_tie l : forall acc,
  Forall good acc -> Forall good l -> StronglySorted before acc ->
  ~ NoDup (List.map key (acc ++ l)) ->
  Py.sort_into lt acc l = Raise tie.
Proof.
  induction l as [|x l IH]; intros acc Hga Hgl Hs Hnd.
  - exfalso. apply Hnd. rewrite app_nil_r. now apply sorted_NoDup.
  - apply Forall_cons in Hgl as [Hx Hgl]. cbn [Py.sort_into].
    destruct (decide (key x ∈ List.map key acc)) as [Hin|Hnin].
    + now rewrite (insert_tie x acc Hx Hga Hs Hin).
    + destruct (insert_fresh x acc Hx Hga Hs Hnin) as (acc' & -> & Hs' & Hp).
      cbn [bind]. apply IH; auto.
      * eapply Permutation_Forall; [exact Hp|]. now constructor.
      * intros Hnd'. apply Hnd.
        assert (Hp' : Permutation (acc ++ x :: l) (acc' ++ l)).
        { rewrite <- Hp. symmetry. apply Permutation_middle. }
        now rewrite Hp'.
Qed.

Lemma sort_into_sorted_id l : forall acc,
  Forall good acc -> Forall good l -> StronglySorted before (acc ++ l) ->
  Py.sort_into lt acc l = Ok (acc ++ l)%list.
Proof.
  induction l as [|x l IH]; intros acc Hga Hgl Hs.
  - cbn. now rewrite app_nil_r.
  - apply Forall_cons in Hgl as [Hx Hgl]. cbn [Py.sort_into].
    assert (Hlt : Forall (fun y => before y x) acc).
    { clear -Hs. induction acc as [|y acc IH]; [constructor|].
      cbn in Hs. apply StronglySorted_inv in Hs as [Hs Hy].
      constructor; [|now apply IH].
      rewrite Forall_forall in Hy. apply Hy, elem_of_app. right.
      apply elem_of_cons. now left. }
    rewrite (insert_last x acc Hx Hga Hlt). cbn [bind].
    replace (acc ++ x :: l)%list with ((acc ++ [x]) ++ l)%list
      by (rewrite <- app_assoc; reflexivity).
    apply IH; auto.
    + apply Forall_app. split; [exact Hga|]. now constructor.
    + rewrite <- app_assoc. exact Hs.
Qed.

(** Two sorted lists with the same elements are the same list. *)
Lemma sorted_unique l : forall l',
  StronglySorted before l -> StronglySorted before l' -> Permutation l l' -> l = l'.
Proof.
  induction l as [|x l IH]; intros [|y l'] Hs Hs' Hp.
  - reflexivity.
  - apply Permutation_nil in Hp. discriminate.
  - symmetry in Hp. apply Permutation_nil in Hp. discriminate.
  - apply StronglySorted_inv in Hs as [Hs Hx], Hs' as [Hs' Hy].
    rewrite Forall_forall in Hx, Hy.
    assert (E : x = y).
    { assert (Hxin : x ∈ y :: l') by (rewrite <- Hp; apply elem_of_cons; now left).
      assert (Hyin : y ∈ x :: l) by (rewrite Hp; apply elem_of_cons; now left).
      apply elem_of_cons in Hxin as [E|Hxin]; [exact E|].
      apply elem_of_cons in Hyin as [E|Hyin]; [now symmetry|].
      apply Hx in Hyin. apply Hy in Hxin. cbn in Hxin, Hyin.
      rewrite (parts_ltb_asym _ _ Hxin) in Hyin. discriminate. }
    subst y. f_equal. apply IH; auto. now apply Permutation_cons_inv in Hp.
Qed.

Lemma sorted_fresh l :
  Forall good l -> NoDup (List.map key l) ->
  exists out, Py.sorted lt l = Ok out
              /\ StronglySorted before out /\ Permutation l out.
Proof.
  intros Hg Hnd. apply (sort_into_fresh l []); auto; constructor.
Qed.

Lemma sorted_tie l :
  Forall good l -> ~ NoDup (List.map key l) -> Py.sorted lt l = Raise tie.
Proof.
  intros Hg Hnd. apply (sort_into_tie l []); auto; constructor.
Qed.

Lemma sorted_sorted_id l :
  Forall good l -> StronglySorted before l -> Py.sorted lt l = Ok l.
Proof.
  intros Hg Hs. apply (sort_into_sorted_id l []); auto.
Qed.

(** The outcome of the sort does not depend on the order of its input. *)
Lemma sorted_perm_eq l l' :
  Forall good l -> Permutation l l' -> Py.sorted lt l = Py.sorted lt l'.
Proof.
  intros Hg Hp.
  assert (Hg' : Forall good l') by (eapply Permutation_Forall; eauto).
  destruct (decide (NoDup (List.map key l))) as [Hnd|Hnd].
  - assert (Hnd' : NoDup (List.map key l')) by now rewrite <- Hp.
    destruct (sorted_fresh l Hg Hnd) as (out & -> & Hs & Hpo).
    destruct (sorted_fresh l' Hg' Hnd') as (out' & -> & Hs' & Hpo').
    f_equal. apply sorted_unique; auto.
    now rewrite <- Hpo, Hp.
  - rewrite (sorted_tie l Hg Hnd). symmetry. apply sorted_tie; [exact Hg'|].
    now rewrite <- Hp.
Qed.

End KeySort.
End KeySortFacts.

(** ** The catalog sorter: order, ties and what the outcome depends on *)

Module CatalogFacts.
Import SorterFacts OrderFacts.

Lemma path_like_eqb_key f g :
  is_path f = is_path g ->
  path_like_eqb f g = bool_decide (file_key f = file_key g).
Proof.
  destruct f as [p|s], g as [q|t]; cbn; try discriminate; intros _; [reflexivity|].
  destruct (String.eqb_spec s t) as [->|Hne].
  - now rewrite bool_decide_eq_true_2.
  - rewrite bool_decide_eq_false_2; [reflexivity|]. intros [=]. contradiction.
Qed.

Lemma path_like_lt_key f g :
  is_path f = is_path g ->
  path_like_lt f g = Ok (Path.parts_ltb (file_key f) (file_key g)).
Proof.
  destruct f as [p|s], g as [q|t]; cbn; try discriminate; intros _; [reflexivity|].
  destruct (String.eqb_spec s t) as [->|Hne]; [|reflexivity].
  now rewrite ltb_irrefl.
Qed.

(** [<] on the tuples of two files of the same kind. *)
Lemma entry_lt_key (k : bool) a b :
  is_path (entry_file a) = k -> is_path (entry_file b) = k ->
  entry_lt a b
  = if bool_decide (entry_key a = entry_key b) then Raise match_tie
    else Ok (Path.parts_ltb (entry_key a) (entry_key b)).
Proof.
  intros Ha Hb. unfold entry_lt, entry_key. cbn [Path.parts_ltb].
  assert (Hk : is_path (entry_file a) = is_path (entry_file b)) by congruence.
  destruct (String.eqb_spec (entry_t0 a) (entry_t0 b)) as [E|E]; cbn [negb].
  - rewrite (path_like_eqb_key _ _ Hk), (path_like_lt_key _ _ Hk).
    destruct (bool_decide_reflect (file_key (entry_file a) = file_key (entry_file b)))
      as [E'|E']; cbn [negb].
    + rewrite bool_decide_eq_true_2 by congruence. reflexivity.
    + rewrite bool_decide_eq_false_2; [reflexivity|]. intros [=]. contradiction.
  - rewrite bool_decide_eq_false_2; [reflexivity|]. intros [=]. contradiction.
Qed.

Lemma kind_of l : homogeneous l -> exists k, Forall (fun f => is_path f = k) l.
Proof.
  intros [H|H]; rewrite List.forallb_forall in H.
  - exists true. apply Forall_forall. intros f Hf. apply H, list_elem_of_In, Hf.
  - exists false. apply Forall_forall. intros f Hf.
    apply list_elem_of_In, H in Hf. now destruct f.
Qed.

Lemma homogeneous_kind l k : Forall (fun f => is_path f = k) l -> homogeneous l.
Proof.
  intros H. rewrite Forall_forall in H. destruct k; [left|right];
    apply List.forallb_forall; intros f Hf; apply list_elem_of_In, H in Hf;
    now destruct f.
Qed.

Lemma match_entries_kind l k :
  Forall (fun f => is_path f = k) l ->
  Forall (fun t => is_path (entry_file t) = k) (match_entries (List.map base_name l) l).
Proof.
  intros H. apply Forall_forall. intros t Ht. apply match_entries_in in Ht.
  rewrite Forall_forall in H. now apply H.
Qed.

Lemma match_entries_keys l :
  List.map entry_key (match_entries (List.map base_name l) l)
  = List.map sort_key (List.filter matched l).
Proof.
  induction l as [|f l IH]; cbn; [reflexivity|].
  unfold matched at 1.
  destruct (Re.search fname_re (base_name f)) as [m|] eqn:Hm; cbn; [|exact IH].
  unfold sort_key at 1. rewrite Hm, IH. reflexivity.
Qed.

Lemma match_entries_filter l :
  match_entries (List.map base_name (List.filter matched l)) (List.filter matched l)
  = match_entries (List.map base_name l) l.
Proof.
  induction l as [|f l IH]; [reflexivity|].
  cbn [List.filter List.map match_entries].
  destruct (matched f) eqn:Hmf; unfold matched in Hmf;
    destruct (Re.search fname_re (base_name f)) as [m|] eqn:Hm; try discriminate.
  - cbn [List.map match_entries]. now rewrite Hm, IH.
  - exact IH.
Qed.

Lemma match_entries_perm l l' :
  Permutation l l' ->
  Permutation (match_entries (List.map base_name l) l)
              (match_entries (List.map base_name l') l').
Proof.
  induction 1 as [|f l l' _ IH|f g l|l l' l'' _ IH1 _ IH2]; cbn.
  - constructor.
  - destruct (Re.search fname_re (base_name f)); [now constructor|exact IH].
  - destruct (Re.search fname_re (base_name f)), (Re.search fname_re (base_name g));
      try reflexivity. apply perm_swap.
  - now rewrite IH1.
Qed.

(** The entries of a sorted list of files are the sorted entries. *)
Lemma match_entries_of tups :
  Forall entry_of tups ->
  match_entries (List.map base_name (List.map entry_file tups))
                (List.map entry_file tups)
  = tups.
Proof.
  induction 1 as [|[[t0 f] m] tups [Hs Ht] _ IH]; cbn; [reflexivity|].
  cbn in Hs, Ht. rewrite Hs, IH. now subst t0.
Qed.

(** The name of a path is in its parts, unless one of the two names is
    empty. *)
Lemma name_of_parts p q :
  Path.parts p = Path.parts q ->
  Path.name p = Path.name q \/ Path.name p = "" \/ Path.name q = "".
Proof.
  unfold Path.parts, Path.name.
  destruct (String.eqb (Path.root p) ""), (String.eqb (Path.root q) "").
  - intros ->. now left.
  - intros ->. destruct (Path.names q) as [|n ns]; [right; right; reflexivity|].
    now left.
  - intros <-. destruct (Path.names p) as [|n ns]; [right; left; reflexivity|].
    now left.
  - intros [= _ ->]. now left.
Qed.

Lemma matched_name f : matched f = true -> base_name f <> "".
Proof. unfold matched. intros H E. rewrite E in H. vm_compute in H. discriminate. Qed.

(** Two matching files that are equal have the same key. *)
Lemma eqb_sort_key f g :
  matched f = true -> matched g = true -> path_like_eqb f g = true ->
  sort_key f = sort_key g.
Proof.
  intros Hf Hg He.
  assert (Hk : is_path f = is_path g) by (destruct f, g; cbn in *; congruence).
  assert (Hkey : file_key f = file_key g).
  { rewrite (path_like_eqb_key f g Hk) in He. now apply bool_decide_eq_true in He. }
  assert (Hname : base_name f = base_name g).
  { pose proof (matched_name f Hf) as Hnf. pose proof (matched_name g Hg) as Hng.
    destruct f as [p|s], g as [q|t]; try discriminate;
      unfold base_name in *; cbn [to_path file_key] in *.
    - destruct (name_of_parts p q Hkey) as [E|[E|E]]; congruence.
    - congruence. }
  unfold sort_key. now rewrite Hname, Hkey.
Qed.

(** Files with distinct keys: no matching file equals an earlier one. *)
Lemma distinct_sort_keys l k :
  Forall (fun f => is_path f = k) l -> Forall (fun f => matched f = true) l ->
  pairwise_distinct l -> NoDup (List.map sort_key l).
Proof.
  intros Hk Hm Hd. induction Hd as [|f l Hf Hd IH]; cbn; constructor.
  - intros Hin. apply list_elem_of_In, in_map_iff in Hin as (g & E & Hg).
    apply Forall_cons in Hk as [Hkf Hk]. apply Forall_cons in Hm as [Hmf Hm].
    apply list_elem_of_In in Hg.
    rewrite Forall_forall in Hf, Hk, Hm.
    specialize (Hf g Hg). cbn in Hf.
    rewrite path_like_eqb_key in Hf by (rewrite (Hk g Hg); congruence).
    apply bool_decide_eq_false in Hf. apply Hf.
    unfold sort_key in E. unfold matched in Hmf. pose proof (Hm g Hg) as Hmg.
    unfold matched in Hmg.
    destruct (Re.search fname_re (base_name g)); [|discriminate].
    destruct (Re.search fname_re (base_name f)); [|discriminate].
    now injection E.
  - apply Forall_cons in Hk as [_ Hk]. apply Forall_cons in Hm as [_ Hm]. auto.
Qed.

Lemma filter_matched_all l : Forall (fun f => matched f = true) (List.filter matched l).
Proof.
  apply Forall_forall. intros f Hf.
  now apply list_elem_of_In, List.filter_In in Hf as [_ Hf].
Qed.

Lemma filter_kind l k :
  Forall (fun f => is_path f = k) l ->
  Forall (fun f => is_path f = k) (List.filter matched l).
Proof.
  rewrite !Forall_forall. intros H f Hf.
  apply list_elem_of_In, List.filter_In in Hf as [Hf _]. apply H, list_elem_of_In, Hf.
Qed.

(** A key that occurs at two places. *)
Lemma twice_not_NoDup {B} (h : PATH_LIKE -> B) l i j f g :
  (i < j)%nat -> l !! i = Some f -> l !! j = Some g ->
  matched f = true -> matched g = true -> h f = h g ->
  ~ NoDup (List.map h (List.filter matched l)).
Proof.
  intros Hij Hi Hj Hf Hg E Hnd.
  rewrite <- (take_drop_middle l i f Hi) in Hnd, Hj.
  rewrite lookup_app_r in Hj by (rewrite length_take; lia).
  rewrite length_take_le in Hj
    by (apply Nat.lt_le_incl, (lookup_lt_Some _ _ _ Hi)).
  destruct (j - i)%nat as [|d] eqn:Hd; [lia|]. cbn in Hj.
  apply list_elem_of_lookup_2 in Hj.
  rewrite List.filter_app, map_app in Hnd. cbn in Hnd. rewrite Hf in Hnd.
  cbn in Hnd. apply NoDup_app in Hnd as (_ & _ & Hnd).
  apply NoDup_cons in Hnd as [Hnin _]. apply Hnin. rewrite E.
  apply list_elem_of_In, in_map, List.filter_In. split; [|exact Hg].
  now apply list_elem_of_In.
Qed.

Lemma StronglySorted_impl {B} (R R' : B -> B -> Prop) (P : B -> Prop) l :
  (forall x y, P x -> P y -> R x y -> R' x y) ->
  Forall P l -> StronglySorted R l -> StronglySorted R' l.
Proof.
  intros Himp Hp Hs. induction Hs as [|x l Hs IH Hx]; constructor.
  - apply Forall_cons in Hp as [_ Hp]. auto.
  - apply Forall_cons in Hp as [Hpx Hp].
    rewrite Forall_forall in *. intros y Hy. apply Himp; auto.
Qed.

Lemma before_comes_before a b :
  entry_of a -> entry_of b -> is_path (entry_file a) = is_path (entry_file b) ->
  Path.parts_ltb (entry_key a) (entry_key b) = true ->
  comes_before (entry_file a) (entry_file b).
Proof.
  intros Ha Hb Hk. unfold entry_key. cbn [Path.parts_ltb].
  destruct (String.eqb_spec (entry_t0 a) (entry_t0 b)) as [E|E]; intros H.
  - right. rewrite (entry_of_key a Ha), (entry_of_key b Hb), E.
    split; [reflexivity|]. now rewrite (path_like_lt_key _ _ Hk), H.
  - left. unfold String.ltb in H. rewrite (t0_compare a b Ha Hb) in H.
    destruct (Z.compare_spec (file_t0 (entry_file a)) (file_t0 (entry_file b)));
      (discriminate || assumption).
Qed.

(** What a sort of a collection of one kind comes to: the tuples of the
    matching files are sorted by their keys, and the sort raises exactly
    when two of the keys are the same. *)
Lemma sort_by_keys fs l return_matches k :
  Forall (fun f => is_path f = k) l ->
  let tups := match_entries (List.map base_name l) l in
  (NoDup (List.map sort_key (List.filter matched l)) ->
   exists out,
     filter_and_sort_files fs (Several l) return_matches
     = Ok (List.map (fun t => if return_matches then Matched (entry_match t)
                              else File (entry_file t)) out)
     /\ Py.sorted entry_lt tups = Ok out
     /\ StronglySorted (fun a b => Path.parts_ltb (entry_key a) (entry_key b) = true) out
     /\ Permutation tups out)
  /\ (~ NoDup (List.map sort_key (List.filter matched l)) ->
      filter_and_sort_files fs (Several l) return_matches = Raise match_tie).
Proof.
  intros Hk tups.
  rewrite (sort_normalized fs l return_matches (homogeneous_kind l k Hk)).
  fold tups. rewrite <- match_entries_keys. fold tups.
  pose proof (match_entries_kind l k Hk) as Hg. fold tups in Hg.
  split; intros Hnd.
  - destruct (KeySortFacts.sorted_fresh entry_lt _ entry_key match_tie
                (entry_lt_key k) tups Hg Hnd) as (out & Hout & Hs & Hp).
    exists out. rewrite Hout. auto.
  - rewrite (KeySortFacts.sorted_tie entry_lt _ entry_key match_tie
               (entry_lt_key k) tups Hg Hnd).
    reflexivity.
Qed.

End CatalogFacts.

(** ** The catalog sorter: the outcome for a collection of one kind *)

Module OutcomeFacts.
Import SorterFacts CatalogFacts.

Lemma map_File_inj a : forall b, List.map File a = List.map File b -> a = b.
Proof.
  induction a as [|x a IH]; intros [|y b] H; try discriminate; [reflexivity|].
  injection H as -> H. f_equal. now apply IH.
Qed.

Lemma pairwise_distinct_filter (P : PATH_LIKE -> bool) l :
  pairwise_distinct l -> pairwise_distinct (List.filter P l).
Proof.
  induction 1 as [|f l Hf Hd IH]; cbn; [constructor|].
  destruct (P f); [|exact IH]. constructor; [|exact IH].
  rewrite Forall_forall in *. intros g Hg.
  apply Hf. now apply list_elem_of_In, List.filter_In in Hg as [Hg%list_elem_of_In _].
Qed.

(** The matching files of a collection of one kind, none of them equal
    to another, come out in the order of [comes_before]. *)
Lemma sorted_catalog fs l :
  homogeneous l -> pairwise_distinct (List.filter matched l) ->
  exists files,
    filter_and_sort_files fs (Several l) false = Ok (List.map File files)
    /\ Permutation (List.filter matched l) files
    /\ StronglySorted comes_before files.
Proof.
  intros Hh Hd. destruct (kind_of l Hh) as [k Hk].
  pose proof (distinct_sort_keys _ k (filter_kind l k Hk) (filter_matched_all l) Hd)
    as Hnd.
  destruct (proj1 (sort_by_keys fs l false k Hk) Hnd) as (out & Hout & _ & Hs & Hp).
  exists (List.map entry_file out). rewrite List.map_map. split; [exact Hout|].
  split.
  - rewrite <- match_entries_files. now apply Permutation_map.
  - apply StronglySorted_map.
    apply (StronglySorted_impl
             (fun a b => Path.parts_ltb (entry_key a) (entry_key b) = true) _
             (fun t => entry_of t /\ is_path (entry_file t) = k) out);
      [| |exact Hs].
    + intros a b [Ha Hka] [Hb Hkb]. apply before_comes_before; congruence.
    + eapply Permutation_Forall; [exact Hp|].
      apply Forall_and. split;
        [apply match_entries_entry_of|now apply match_entries_kind].
Qed.

(** A directory is sorted as the list of the paths of its entries. *)
Lemma sort_single fs d entries return_matches :
  fs_dirs fs !! Path.str (to_path d) = Some entries ->
  filter_and_sort_files fs (Single d) return_matches
  = filter_and_sort_files fs (Several (List.map (child (to_path d)) entries))
      return_matches.
Proof.
  intros Hdir. unfold filter_and_sort_files. rewrite Hdir.
  assert (Hp : List.forallb is_path (List.map (child (to_path d)) entries) = true).
  { apply List.forallb_forall. intros f Hf.
    apply in_map_iff in Hf as (n & <- & _). reflexivity. }
  rewrite Hp. reflexivity.
Qed.

Lemma child_name dir n : base_name (child dir n) = n.
Proof. unfold base_name, child, Path.name. cbn. apply List.last_last. Qed.

Lemma child_inj dir n n' : file_key (child dir n) = file_key (child dir n') -> n = n'.
Proof.
  unfold child, file_key, Path.parts. cbn [Path.root Path.names].
  destruct (String.eqb (Path.root dir) ""); intros H.
  - now apply app_inj_tail in H as [_ H].
  - injection H as H. now apply app_inj_tail in H as [_ H].
Qed.

(** The paths of the entries of a directory are pairwise distinct. *)
Lemma children_distinct dir entries :
  NoDup entries -> pairwise_distinct (List.map (child dir) entries).
Proof.
  induction 1 as [|n entries Hn _ IH]; cbn; constructor; [|exact IH].
  apply Forall_forall. intros g Hg.
  apply list_elem_of_In, in_map_iff in Hg as (n' & <- & Hn').
  rewrite path_like_eqb_key by reflexivity.
  apply bool_decide_eq_false. intros E. apply child_inj in E. subst n'.
  apply Hn, list_elem_of_In, Hn'.
Qed.

Lemma children_homogeneous dir entries : homogeneous (List.map (child dir) entries).
Proof.
  left. apply List.forallb_forall. intros f Hf.
  apply in_map_iff in Hf as (n & <- & _). reflexivity.
Qed.

Lemma sorted_directory fs d entries :
  fs_dirs fs !! Path.str (to_path d) = Some entries -> NoDup entries ->
  exists files,
    filter_and_sort_files fs (Single d) false = Ok (List.map File files)
    /\ Permutation (List.filter matched (List.map (child (to_path d)) entries)) files
    /\ StronglySorted comes_before files.
Proof.
  intros Hdir Hnd. rewrite (sort_single fs d entries false Hdir).
  apply sorted_catalog; [apply children_homogeneous|].
  apply pairwise_distinct_filter. now apply children_distinct.
Qed.

(** A single name joined to a directory is the path of that entry. *)
Lemma join_child dir s :
  Str.forallb Str.no_slash s = true -> Path.is_name s = true ->
  IsPath (Path.join dir s) = child dir s.
Proof.
  intros Hs Hn. unfold Path.join, Path.of_string, child.
  cbn [Path.root Path.names].
  rewrite PathFacts.root_of_no_slash, PathFacts.split_no_slash by exact Hs.
  cbn [List.filter]. rewrite Hn. reflexivity.
Qed.

(** The listing of the directory of a written file, before and after. *)
Lemma write_ok_listing fs write_dir t0 sample_rate prefix (channels : channel_map)
    fname fs' :
  write_timeseries fs write_dir t0 sample_rate prefix channels = (Ok fname, fs') ->
  exists entries,
    fs_dirs fs !! Path.str (Path.parent fname) = Some entries
    /\ fs_dirs fs' !! Path.str (Path.parent fname)
       = Some (if bool_decide (Path.name fname ∈ entries) then entries
               else (entries ++ [Path.name fname])%list).
Proof.
  intros Hw. unfold write_timeseries in Hw.
  destruct (prepare_write _ _ _ _ _) as [[sr fname']|]; [|discriminate].
  destruct (H5.open_w fs fname') as [fs0|] eqn:Ho; [|discriminate].
  apply H5Facts.open_w_inv in Ho as (entries & Hdir & _ & ->).
  destruct (write_channels _ _ _ _ _) as [[u|e] f]; [|discriminate].
  injection Hw as <- <-. unfold H5.close. cbn [fs_dirs].
  exists entries. split; [exact Hdir|]. apply lookup_insert_eq.
Qed.

End OutcomeFacts.

(** X3: the matching files of a collection of one kind, no two of them
    equal, are returned in the order of their [t0] fields, and files with
    the same [t0] in the order of the files themselves: strings as
    strings, paths by their parts. *)
Theorem sort_order (fs : filesystem) (l : list PATH_LIKE) :
  homogeneous l -> pairwise_distinct (List.filter matched l) ->
  exists files,
    filter_and_sort_files fs (Several l) false = Ok (List.map File files)
    /\ Permutation (List.filter matched l) files
    /\ StronglySorted comes_before files.
Proof. apply OutcomeFacts.sorted_catalog. Qed.

Lemma sort_order_witness :
  exists files,
    filter_and_sort_files Demo.fs
      (Several [IsStr "b-1000000000-10.hdf5"; IsStr "notes.txt";
                IsStr "a-1000000000-10.hdf5"]) false
    = Ok (List.map File files)
    /\ Permutation
         (List.filter matched
            [IsStr "b-1000000000-10.hdf5"; IsStr "notes.txt";
             IsStr "a-1000000000-10.hdf5"]) files
    /\ StronglySorted comes_before files.
Proof.
  apply (sort_order Demo.fs
           [IsStr "b-1000000000-10.hdf5"; IsStr "notes.txt";
            IsStr "a-1000000000-10.hdf5"]).
  - right. reflexivity.
  - assert (E : List.filter matched
                  [IsStr "b-1000000000-10.hdf5"; IsStr "notes.txt";
                   IsStr "a-1000000000-10.hdf5"]
                = [IsStr "b-1000000000-10.hdf5"; IsStr "a-1000000000-10.hdf5"])
      by (vm_compute; reflexivity).
    rewrite E. repeat constructor.
Defined.

(** X4: when two elements of a collection of one kind are equal and the
    pattern is found in their names, the sort raises the [TypeError] of
    comparing two match objects, whatever else the collection holds and
    whichever result is asked for. *)
Theorem sort_equal_elements (fs : filesystem) (l : list PATH_LIKE) (i j : nat)
    (f g : PATH_LIKE) (return_matches : bool) :
  homogeneous l ->
  l !! i = Some f -> l !! j = Some g -> i <> j ->
  matched f = true -> matched g = true -> path_like_eqb f g = true ->
  filter_and_sort_files fs (Several l) return_matches = Raise match_tie.
Proof.
  intros Hh Hi Hj Hij Hf Hg He. destruct (CatalogFacts.kind_of l Hh) as [k Hk].
  apply (CatalogFacts.sort_by_keys fs l return_matches k Hk).
  destruct (Nat.lt_total i j) as [Hlt|[E|Hlt]]; [|contradiction|].
  - apply (CatalogFacts.twice_not_NoDup sort_key l i j f g); auto.
    now apply CatalogFacts.eqb_sort_key.
  - apply (CatalogFacts.twice_not_NoDup sort_key l j i g f); auto.
    apply CatalogFacts.eqb_sort_key; auto.
    now rewrite SorterFacts.path_like_eqb_sym.
Qed.

Lemma sort_equal_elements_witness :
  filter_and_sort_files Demo.fs
    (Several [IsStr "H1-1000000000-10.hdf5"; IsStr "L1-1000000020-10.hdf5";
              IsStr "H1-1000000000-10.hdf5"]) true
  = Raise match_tie.
Proof.
  apply (sort_equal_elements Demo.fs
           [IsStr "H1-1000000000-10.hdf5"; IsStr "L1-1000000020-10.hdf5";
            IsStr "H1-1000000000-10.hdf5"] 0 2
           (IsStr "H1-1000000000-10.hdf5") (IsStr "H1-1000000000-10.hdf5") true).
  - right. reflexivity.
  - reflexivity.
  - reflexivity.
  - lia.
  - vm_compute. reflexivity.
  - vm_compute. reflexivity.
  - reflexivity.
Defined.

(** X5: sorting what a sort returned returns it again: the output of a
    successful sort of files is a collection of the same kind that is
    already in order. *)
Theorem sort_idempotent (fs : filesystem) (l : list PATH_LIKE) (out : list item) :
  homogeneous l ->
  filter_and_sort_files fs (Several l) false = Ok out ->
  exists files,
    out = List.map File files
    /\ filter_and_sort_files fs (Several files) false = Ok out.
Proof.
  intros Hh Hout. destruct (CatalogFacts.kind_of l Hh) as [k Hk].
  destruct (CatalogFacts.sort_by_keys fs l false k Hk) as [Hok Hno].
  destruct (decide (NoDup (List.map sort_key (List.filter matched l)))) as [Hnd|Hnd];
    [|rewrite (Hno Hnd) in Hout; discriminate].
  destruct (Hok Hnd) as (tups & Hres & _ & Hs & Hp).
  rewrite Hres in Hout. injection Hout as <-.
  exists (List.map entry_file tups). rewrite List.map_map. split; [reflexivity|].
  assert (Hg : Forall (fun t => is_path (entry_file t) = k) tups).
  { eapply Permutation_Forall; [exact Hp|]. now apply CatalogFacts.match_entries_kind. }
  assert (He : Forall entry_of tups).
  { eapply Permutation_Forall; [exact Hp|]. apply SorterFacts.match_entries_entry_of. }
  assert (Hk' : Forall (fun f => is_path f = k) (List.map entry_file tups)).
  { apply Forall_forall. intros f Hf.
    apply list_elem_of_In, in_map_iff in Hf as (t & <- & Ht).
    rewrite Forall_forall in Hg. apply Hg, list_elem_of_In, Ht. }
  rewrite (SorterFacts.sort_normalized fs _ false
             (CatalogFacts.homogeneous_kind _ k Hk')).
  rewrite (CatalogFacts.match_entries_of tups He).
  rewrite (KeySortFacts.sorted_sorted_id entry_lt _ entry_key match_tie
             (CatalogFacts.entry_lt_key k) tups Hg Hs).
  reflexivity.
Qed.

Lemma sort_idempotent_witness :
  exists files,
    [File (IsStr "a-1000000000-10.hdf5"); File (IsStr "b-1000000020-10.hdf5")]
    = List.map File files
    /\ filter_and_sort_files Demo.fs (Several files) false
       = Ok [File (IsStr "a-1000000000-10.hdf5"); File (IsStr "b-1000000020-10.hdf5")].
Proof.
  apply (sort_idempotent Demo.fs
           [IsStr "b-1000000020-10.hdf5"; IsStr "a-1000000000-10.hdf5"]).
  - right. reflexivity.
  - vm_compute. reflexivity.
Defined.

(** X6: elements in whose names the pattern is not found do not count:
    a collection of one kind is sorted as the collection of its matching
    elements is, for either kind of result. *)
Theorem sort_unmatched_ignored (fs : filesystem) (l : list PATH_LIKE)
    (return_matches : bool) :
  homogeneous l ->
  filter_and_sort_files fs (Several l) return_matches
  = filter_and_sort_files fs (Several (List.filter matched l)) return_matches.
Proof.
  intros Hh. destruct (CatalogFacts.kind_of l Hh) as [k Hk].
  rewrite (SorterFacts.sort_normalized fs l return_matches Hh).
  rewrite (SorterFacts.sort_normalized fs _ return_matches
             (CatalogFacts.homogeneous_kind _ k (CatalogFacts.filter_kind l k Hk))).
  now rewrite CatalogFacts.match_entries_filter.
Qed.

Lemma sort_unmatched_ignored_witness :
  filter_and_sort_files Demo.fs
    (Several [IsStr "notes.txt"; IsStr "a-1000000000-10.hdf5"]) false
  = filter_and_sort_files Demo.fs
      (Several (List.filter matched
                  [IsStr "notes.txt"; IsStr "a-1000000000-10.hdf5"])) false.
Proof.
  apply (sort_unmatched_ignored Demo.fs
           [IsStr "notes.txt"; IsStr "a-1000000000-10.hdf5"] false).
  right. reflexivity.
Defined.

(** X7: the outcome of the sort does not depend on the order in which
    the elements of a collection of one kind are given, nor on the file
    system: the same list is returned, or the same exception raised. *)
Theorem sort_permutation_invariant (fs fs' : filesystem) (l l' : list PATH_LIKE)
    (return_matches : bool) :
  homogeneous l -> Permutation l l' ->
  filter_and_sort_files fs (Several l) return_matches
  = filter_and_sort_files fs' (Several l') return_matches.
Proof.
  intros Hh Hp. destruct (CatalogFacts.kind_of l Hh) as [k Hk].
  assert (Hk' : Forall (fun f => is_path f = k) l')
    by (eapply Permutation_Forall; eauto).
  rewrite (SorterFacts.sort_normalized fs l return_matches Hh).
  rewrite (SorterFacts.sort_normalized fs' l' return_matches
             (CatalogFacts.homogeneous_kind _ k Hk')).
  rewrite (KeySortFacts.sorted_perm_eq entry_lt _ entry_key match_tie
             (CatalogFacts.entry_lt_key k) _ _
             (CatalogFacts.match_entries_kind l k Hk)
             (CatalogFacts.match_entries_perm l l' Hp)).
  reflexivity.
Qed.

Lemma sort_permutation_invariant_witness :
  filter_and_sort_files Demo.fs
    (Several [IsStr "b-1000000020-10.hdf5"; IsStr "a-1000000000-10.hdf5"]) false
  = filter_and_sort_files Demo.fs_with_archive
      (Several [IsStr "a-1000000000-10.hdf5"; IsStr "b-1000000020-10.hdf5"]) false.
Proof.
  apply (sort_permutation_invariant Demo.fs Demo.fs_with_archive
           [IsStr "b-1000000020-10.hdf5"; IsStr "a-1000000000-10.hdf5"]
           [IsStr "a-1000000000-10.hdf5"; IsStr "b-1000000020-10.hdf5"] false).
  - right. reflexivity.
  - apply perm_swap.
Defined.

(** X8: asked for the matches, the sort returns for each file it would
    have returned, in the same order, the match of the pattern in the
    name of that file. *)
Theorem sort_matches_agree (fs : filesystem) (l : list PATH_LIKE)
    (files : list PATH_LIKE) :
  homogeneous l ->
  filter_and_sort_files fs (Several l) false = Ok (List.map File files) ->
  exists ms,
    filter_and_sort_files fs (Several l) true = Ok (List.map Matched ms)
    /\ Forall2 (fun f m => Re.search fname_re (base_name f) = Some m) files ms.
Proof.
  intros Hh Hout.
  rewrite (SorterFacts.sort_normalized fs l false Hh) in Hout.
  rewrite (SorterFacts.sort_normalized fs l true Hh).
  destruct (Py.sorted entry_lt _) as [tups|] eqn:Hs; [|discriminate].
  cbn [bind] in *. injection Hout as Hout.
  rewrite <- (List.map_map entry_file File) in Hout.
  apply OutcomeFacts.map_File_inj in Hout. subst files.
  exists (List.map entry_match tups). rewrite List.map_map. split; [reflexivity|].
  assert (He : Forall entry_of tups).
  { eapply Permutation_Forall; [eapply SortFacts.sorted_perm, Hs|].
    apply SorterFacts.match_entries_entry_of. }
  clear Hs. induction He as [|t tups [Ht _] _ IH]; cbn; constructor; auto.
Qed.

Lemma sort_matches_agree_witness :
  exists ms,
    filter_and_sort_files Demo.fs
      (Several [IsStr "b-1000000020-10.hdf5"; IsStr "a-1000000000-10.hdf5"]) true
    = Ok (List.map Matched ms)
    /\ Forall2 (fun f m => Re.search fname_re (base_name f) = Some m)
         [IsStr "a-1000000000-10.hdf5"; IsStr "b-1000000020-10.hdf5"] ms.
Proof.
  apply (sort_matches_agree Demo.fs
           [IsStr "b-1000000020-10.hdf5"; IsStr "a-1000000000-10.hdf5"]
           [IsStr "a-1000000000-10.hdf5"; IsStr "b-1000000020-10.hdf5"]).
  - right. reflexivity.
  - vm_compute. reflexivity.
Defined.

(** X9: given a single path or string, the sort takes it for a
    directory.  When it is none the sort raises [ValueError] with the
    argument in the message; when it is one, the paths of the entries in
    whose names the pattern is found are returned in the order of
    [comes_before]. *)
Theorem sort_directory (fs : filesystem) (d : PATH_LIKE) :
  (fs_dirs fs !! Path.str (to_path d) = None ->
   forall return_matches,
     filter_and_sort_files fs (Single d) return_matches
     = Raise (ValueError ("'" ++ path_like_str d ++ "' is not a directory")))
  /\ (forall entries,
        fs_dirs fs !! Path.str (to_path d) = Some entries -> NoDup entries ->
        exists files,
          filter_and_sort_files fs (Single d) false = Ok (List.map File files)
          /\ Permutation
               (List.filter matched (List.map (child (to_path d)) entries)) files
          /\ StronglySorted comes_before files).
Proof.
  split.
  - intros Hdir rm. unfold filter_and_sort_files. rewrite Hdir. reflexivity.
  - intros entries. apply OutcomeFacts.sorted_directory.
Qed.

(** X27: when the prefix has no slash in it and the pattern is found in
    the name of the file a successful write returns, sorting [write_dir]
    afterwards returns that file, at its place in the order. *)
Theorem write_then_sort_directory (fs : filesystem) (write_dir : Path.t)
    (t0 : pynum) (sample_rate : rate_spec) (prefix : string)
    (channels : channel_map) (fname : Path.t) (fs' : filesystem) :
  write_timeseries fs write_dir t0 sample_rate prefix channels = (Ok fname, fs') ->
  Str.forallb Str.no_slash prefix = true ->
  matched (IsPath fname) = true ->
  (forall entries, fs_dirs fs !! Path.str write_dir = Some entries -> NoDup entries) ->
  exists files,
    filter_and_sort_files fs' (Single (IsPath write_dir)) false
    = Ok (List.map File files)
    /\ IsPath fname ∈ files
    /\ StronglySorted comes_before files.
Proof.
  intros Hw Hp Hm Hnd.
  destruct (OutcomeFacts.write_ok_listing _ _ _ _ _ _ _ _ Hw)
    as (entries & Hdir & Hdir').
  apply write_ok_inv in Hw as (rates & d & rest & len & _ & _ & _ & _ & _ & ->).
  pose proof (PlaceFacts.segment_name_no_slash prefix t0 len Hp) as Hs.
  pose proof (PlaceFacts.segment_name_is_name prefix t0 len) as Hn.
  rewrite (PlaceFacts.parent_join write_dir _ Hs Hn) in *.
  rewrite (PathFacts.name_join write_dir _ Hs Hn) in *.
  set (name := segment_name prefix t0 len) in *.
  set (entries' := if bool_decide (name ∈ entries) then entries
                   else (entries ++ [name])%list) in *.
  assert (Hnd' : NoDup entries').
  { specialize (Hnd entries Hdir). subst entries'.
    destruct (bool_decide_reflect (name ∈ entries)) as [H|H]; [exact Hnd|].
    apply NoDup_app. split; [exact Hnd|]. split; [|apply NoDup_singleton].
    intros x Hx Hx'. apply list_elem_of_singleton in Hx'. now subst x. }
  assert (Hin : name ∈ entries').
  { subst entries'. destruct (bool_decide_reflect (name ∈ entries)) as [H|H];
      [exact H|].
    apply elem_of_app. right. apply elem_of_cons. now left. }
  destruct (OutcomeFacts.sorted_directory fs' (IsPath write_dir) entries' Hdir' Hnd')
    as (files & Hout & Hperm & Hsorted).
  exists files. split; [exact Hout|]. split; [|exact Hsorted].
  rewrite <- Hperm. apply list_elem_of_In, List.filter_In. split; [|exact Hm].
  rewrite (OutcomeFacts.join_child write_dir name Hs Hn).
  apply in_map, list_elem_of_In, Hin.
Qed.

Lemma write_then_sort_directory_witness :
  let fname := Path.of_string "data/H1-1000000010-2.hdf5" in
  let fs' :=
    snd (write_timeseries Demo.fs_with_archive Demo.dir (PyInt 1000000010)
           (RateFloat (Float.of_Z 2)) "H1" [("strain", Demo.zeros 4)]) in
  exists files,
    filter_and_sort_files fs' (Single (IsPath Demo.dir)) false
    = Ok (List.map File files)
    /\ IsPath fname ∈ files
    /\ StronglySorted comes_before files.
Proof.
  intros fname fs'.
  apply (write_then_sort_directory Demo.fs_with_archive Demo.dir (PyInt 1000000010)
           (RateFloat (Float.of_Z 2)) "H1" [("strain", Demo.zeros 4)] fname fs').
  - vm_compute. reflexivity.
  - reflexivity.
  - vm_compute. reflexivity.
  - intros entries H.
    assert (E : fs_dirs Demo.fs_with_archive !! Path.str Demo.dir
                = Some ["H1-1000000000-2.hdf5"]) by (vm_compute; reflexivity).
    rewrite E in H. injection H as <-. apply NoDup_singleton.
Defined.

(** ** The pattern on names that follow the grammar *)

Module GroupFacts.
Import Re Grammar.

(** A subject that is matched from its first character on is found
    there by the search. *)
Lemma search_at_start r w rest new :
  Matches r w rest new ->
  exists m w' rest',
    search r (w ++ rest) = Some m /\ m_start m = 0%nat
    /\ w ++ rest = w' ++ rest' /\ Matches r w' rest' (m_groups m).
Proof.
  intros M.
  assert (Hm : is_Some (match_at r 0 (w ++ rest))).
  { unfold match_at. eapply ReFacts.exec_complete; eauto. }
  destruct Hm as [m Hm].
  assert (Hs : search r (w ++ rest) = Some m).
  { unfold search. destruct (w ++ rest); cbn; now rewrite Hm. }
  unfold match_at in Hm.
  apply ReFacts.exec_sound in Hm as (w' & rest' & new' & E & M' & [= <-]).
  exists {| m_start := 0; m_groups := (new' ++ [])%list |}, w', rest'.
  cbn. rewrite List.app_nil_r in *. auto.
Qed.

(** Of two tails of the same string the shorter one is a tail of the
    longer one. *)
Lemma tail_cmp a : forall b u v,
  a ++ u = b ++ v -> (String.length u <= String.length v)%nat ->
  exists w, v = w ++ u /\ a = b ++ w.
Proof.
  induction a as [|x a IH]; intros b u v E Hlen.
  - cbn in E. subst u. rewrite StrFacts.length_app in Hlen.
    destruct b; [|cbn in Hlen; lia]. exists "". auto.
  - destruct b as [|y b].
    + cbn in E. exists (String x a). split; [now symmetry|reflexivity].
    + cbn in E. injection E as -> E.
      destruct (IH b u v E Hlen) as (w & -> & ->). exists w. auto.
Qed.

(** The fields of a name that ends in a dot and a suffix are found in
    one way only. *)
Lemma suffix_unique A B c' x x' rest' :
  valid_suffix x = true -> valid_suffix x' = true ->
  rest' = "" \/ rest' = String Str.newline "" ->
  A ++ String "." x = (B ++ String c' x') ++ rest' ->
  A = B /\ x = x' /\ rest' = "".
Proof.
  intros Hx Hx' Hrest E. rewrite StrFacts.app_assoc in E.
  unfold valid_suffix in Hx, Hx'.
  apply orb_prop in Hx as [Hx|Hx]; [apply orb_prop in Hx as [Hx|Hx]|];
    apply String.eqb_eq in Hx; subst x;
    (apply orb_prop in Hx' as [Hx'|Hx']; [apply orb_prop in Hx' as [Hx'|Hx']|]);
    apply String.eqb_eq in Hx'; subst x';
    destruct Hrest as [->| ->]; cbn [String.append] in E;
    match type of E with
    | ?a ++ ?u = ?b ++ ?v =>
        destruct (Nat.le_ge_cases (String.length u) (String.length v)) as [Hl|Hl];
        [apply tail_cmp in E as (w & Hw & E'); [|exact Hl]
        |symmetry in E; apply tail_cmp in E as (w & Hw & E'); [|exact Hl]]
    end;
    repeat (destruct w as [|? w]; cbn in Hw; try discriminate);
    rewrite StrFacts.app_nil_r in E'; repeat split; congruence.
Qed.

Lemma fields_unique p t l p' t' l' :
  valid_t0 t = true -> valid_t0 t' = true ->
  valid_length l = true -> valid_length l' = true ->
  p ++ "-" ++ t ++ "-" ++ l = p' ++ "-" ++ t' ++ "-" ++ l' ->
  p = p' /\ t = t' /\ l = l'.
Proof.
  intros Ht Ht' Hl Hl' E.
  apply NameFacts.valid_t0_digits in Ht as [Htl Ht], Ht' as [Htl' Ht'].
  apply NameFacts.valid_length_digits in Hl, Hl'.
  assert (E' : (p ++ String "-" t) ++ String "-" l
               = (p' ++ String "-" t') ++ String "-" l').
  { rewrite !StrFacts.app_assoc. exact E. }
  apply NameFacts.tail_run_unique in E' as (E' & _ & ->); auto.
  apply NameFacts.tail_run_unique in E' as (-> & _ & ->); auto.
Qed.

End GroupFacts.

(** X1: the pattern is found in exactly the strings that hold, after any
    text, a prefix, ten digits and a length of the grammar joined by
    dashes, then any one character but a newline, then one of the three
    suffixes, at the end of the string or in front of a last newline. *)
Theorem fname_re_search_iff (s : string) :
  is_Some (Re.search fname_re s)
  <-> exists pre w rest caps, s = pre ++ w ++ rest /\ Grammar.accepted w rest caps.
Proof.
  split.
  - intros [m Hm]. apply SearchFacts.search_sound in Hm as (pre & w & rest & E & H).
    now exists pre, w, rest, (Re.m_groups m).
  - intros (pre & w & rest & caps & -> & H). eapply SearchFacts.search_complete, H.
Qed.

(** X2: in a name that follows the grammar the pattern is found from the
    first character on, and the groups of the match are the four fields
    of the name: the name is cut into its fields in one way only. *)
Theorem fname_re_groups (p t l x : string) :
  Grammar.valid_prefix p = true -> Grammar.valid_t0 t = true ->
  Grammar.valid_length l = true -> Grammar.valid_suffix x = true ->
  exists m,
    Re.search fname_re (p ++ "-" ++ t ++ "-" ++ l ++ "." ++ x) = Some m
    /\ Re.m_start m = 0%nat
    /\ Re.group m "prefix" = p /\ Re.group m "t0" = t
    /\ Re.group m "length" = l /\ Re.group m "suffix" = x.
Proof.
  intros Hp Ht Hl Hx.
  assert (Hacc : Grammar.accepted (p ++ "-" ++ t ++ "-" ++ l ++ String "." x) ""
                   [("suffix", x); ("length", l); ("t0", t); ("prefix", p)]).
  { exists p, t, l, "."%char, x. repeat split; auto. }
  apply FnameFacts.fname_re_complete, GroupFacts.search_at_start in Hacc
    as (m & w' & rest' & Hs & Hstart & E & M).
  rewrite StrFacts.app_nil_r in Hs, E.
  exists m. split; [exact Hs|]. split; [exact Hstart|].
  apply FnameFacts.fname_re_sound in M
    as (p' & t' & l' & c' & x' & Hp' & Ht' & Hl' & Hc' & Hx' & -> & Hrest & Hcaps).
  assert (E' : (p ++ "-" ++ t ++ "-" ++ l) ++ String "." x
               = ((p' ++ "-" ++ t' ++ "-" ++ l') ++ String c' x') ++ rest').
  { rewrite !StrFacts.app_assoc. cbn [String.append].
    rewrite !StrFacts.app_assoc in E. exact E. }
  apply GroupFacts.suffix_unique in E' as (E' & <- & ->); auto.
  apply GroupFacts.fields_unique in E' as (<- & <- & <-); auto.
  unfold Re.group. rewrite Hcaps. cbn. auto.
Qed.

Lemma fname_re_groups_witness :
  exists m,
    Re.search fname_re ("H1-L1" ++ "-" ++ "1000000000" ++ "-" ++ "4096" ++ "." ++ "gwf")
    = Some m
    /\ Re.m_start m = 0%nat
    /\ Re.group m "prefix" = "H1-L1" /\ Re.group m "t0" = "1000000000"
    /\ Re.group m "length" = "4096" /\ Re.group m "suffix" = "gwf".
Proof.
  apply (fname_re_groups "H1-L1" "1000000000" "4096" "gwf"); reflexivity.
Defined.

(** ** Strings with directories in them, and files a write leaves alone *)

Module TerminalFacts.

Lemma split_trailing_slash d :
  exists l, l <> [] /\ Str.split "/" (d ++ "/") = (l ++ [""])%list.
Proof.
  induction d as [|c d (l & Hne & IH)].
  - exists [""]. split; [discriminate|reflexivity].
  - cbn [String.append Str.split]. rewrite IH.
    destruct (Ascii.eqb c "/").
    + exists ("" :: l). split; [discriminate|reflexivity].
    + destruct l as [|w l]; [contradiction|]. cbn.
      exists (String c w :: l). split; [discriminate|reflexivity].
Qed.

(** The name of a string path is what follows its last slash. *)
Lemma terminal_name d n :
  Str.forallb Str.no_slash n = true -> Path.is_name n = true ->
  base_name (IsStr (d ++ "/" ++ n)) = n.
Proof.
  intros Hs Hn. unfold base_name, to_path, Path.name, Path.of_string.
  cbn [Path.names].
  replace (d ++ "/" ++ n) with ((d ++ "/") ++ n) by apply StrFacts.app_assoc.
  rewrite JoinFacts.split_app by exact Hs.
  destruct (split_trailing_slash d) as (l & _ & ->).
  rewrite List.last_last, List.filter_app. cbn [String.append List.filter].
  rewrite Hn. apply List.last_last.
Qed.

Lemma found_is_name n : is_Some (Re.search fname_re n) -> Path.is_name n = true.
Proof.
  intros [m Hm]. unfold Path.is_name.
  destruct (String.eqb_spec n "") as [->|_]; [vm_compute in Hm; discriminate|].
  destruct (String.eqb_spec n ".") as [->|_]; [vm_compute in Hm; discriminate|].
  reflexivity.
Qed.

End TerminalFacts.

(** X10: a string is matched by its terminal file name and returned as it
    was given: for a name without a slash in which the pattern is found,
    the string made of any directory text, a slash and the name is
    returned whole. *)
Theorem sort_string_terminal_name (fs : filesystem) (d n : string) :
  Str.forallb Str.no_slash n = true ->
  is_Some (Re.search fname_re n) ->
  filter_and_sort_files fs (Several [IsStr (d ++ "/" ++ n)]) false
  = Ok [File (IsStr (d ++ "/" ++ n))].
Proof.
  intros Hs Hm.
  pose proof (TerminalFacts.terminal_name d n Hs (TerminalFacts.found_is_name n Hm))
    as Hname.
  assert (Hmatched : matched (IsStr (d ++ "/" ++ n)) = true).
  { unfold matched. rewrite Hname. now destruct Hm as [m ->]. }
  destruct (OutcomeFacts.sorted_catalog fs [IsStr (d ++ "/" ++ n)])
    as (files & Hout & Hp & _).
  - right. reflexivity.
  - cbn [List.filter]. rewrite Hmatched. repeat constructor.
  - cbn [List.filter] in Hp. rewrite Hmatched in Hp.
    apply Permutation_length_1_inv in Hp. now subst files.
Qed.

Lemma sort_string_terminal_name_witness :
  filter_and_sort_files Demo.fs
    (Several [IsStr ("/archive/O3" ++ "/" ++ "H1-1000000000-10.hdf5")]) false
  = Ok [File (IsStr ("/archive/O3" ++ "/" ++ "H1-1000000000-10.hdf5"))].
Proof.
  apply (sort_string_terminal_name Demo.fs "/archive/O3" "H1-1000000000-10.hdf5").
  - reflexivity.
  - vm_compute. eauto.
Defined.

(** X21: a successful write does not disturb the other archives: reading
    any other path afterwards gives what reading it before gave. *)
Theorem write_keeps_other_files (fs : filesystem) (write_dir : Path.t)
    (t0 : pynum) (sample_rate : rate_spec) (prefix : string)
    (channels : channel_map) (fname : Path.t) (fs' : filesystem)
    (path : Path.t) (requested : list string) :
  NoDup (List.map fst channels) ->
  write_timeseries fs write_dir t0 sample_rate prefix channels = (Ok fname, fs') ->
  Path.str path <> Path.str fname ->
  read_timeseries fs' path requested = read_timeseries fs path requested.
Proof.
  intros Hnd Hw Hne.
  apply WriteFacts.write_ok_steps in Hw as (rates & entries & _ & _ & _ & ->);
    [|exact Hnd].
  unfold read_timeseries, H5.open_r. cbn [fs_files].
  now rewrite lookup_insert_ne by congruence.
Qed.

Lemma write_keeps_other_files_witness :
  read_timeseries
    (snd (write_timeseries Demo.fs_with_archive Demo.dir (PyInt 1000000010)
            (RateFloat (Float.of_Z 2)) "H1" [("strain", Demo.zeros 4)]))
    Demo.archive_path ["strain"]
  = read_timeseries Demo.fs_with_archive Demo.archive_path ["strain"].
Proof.
  apply (write_keeps_other_files Demo.fs_with_archive Demo.dir (PyInt 1000000010)
           (RateFloat (Float.of_Z 2)) "H1" [("strain", Demo.zeros 4)]
           (Path.of_string "data/H1-1000000010-2.hdf5")).
  - apply NoDup_singleton.
  - vm_compute. reflexivity.
  - vm_compute. discriminate.
Defined.

(** ** When a write succeeds, and reading back part of what was written *)

Module SuccessFacts.

Lemma series_of_entry t0 (channels : channel_map) : forall rates c,
  (List.length channels <= List.length rates)%nat ->
  c ∈ List.map fst channels ->
  exists ts, (c, ts) ∈ series_of t0 channels rates.
Proof.
  induction channels as [|[key value] channels IH]; intros [|r rates] c Hlen Hc;
    cbn in *; try lia; try (inversion Hc; fail).
  apply elem_of_cons in Hc as [->|Hc].
  - eexists. apply elem_of_cons. left. reflexivity.
  - destruct (IH rates c ltac:(lia) Hc) as [ts Hts].
    exists ts. apply elem_of_cons. now right.
Qed.

(** What can be read of a file that holds the written channels is what
    was written. *)
Lemma readable_series t0 (channels : channel_map) rates f c ts :
  Forall (holds (h5_datasets f)) (series_of t0 channels rates) ->
  c ∈ List.map fst (series_of t0 channels rates) ->
  readable f t0 c ts -> (c, ts) ∈ series_of t0 channels rates.
Proof.
  intros Hh Hc (d & rate & Hd & Hr & Hrate & Hdata & Ht0).
  apply list_elem_of_In, in_map_iff in Hc as ([c' ts'] & E & Hin). cbn in E. subst c'.
  apply list_elem_of_In in Hin.
  pose proof (series_of_t0 t0 channels rates) as Ht.
  rewrite Forall_forall in Hh. rewrite Forall_forall in Ht.
  pose proof (Hh _ Hin) as Hc. pose proof (Ht _ Hin) as Ht'.
  unfold holds in Hc. cbn [fst snd] in Hc, Ht'. rewrite Hd in Hc. injection Hc as ->.
  cbn [ds_attrs ds_data] in Hr, Hdata. rewrite lookup_singleton_eq in Hr.
  injection Hr as <-. cbn [pynum_float] in Hrate.
  replace ts with ts'; [exact Hin|].
  destruct ts, ts'; cbn in *; congruence.
Qed.

End SuccessFacts.

(** X28: after a successful write, any selection of the written channel
    names, in any order and with repetitions, can be read back: the read
    returns one series for each distinct requested name, in the order of
    first request, and each of them is the series that was written under
    that name, with its samples, its rate and, as a binary64 number, the
    [t0] of the write. *)
Theorem write_read_selection (fs : filesystem) (write_dir : Path.t) (t0 : pynum)
    (sample_rate : rate_spec) (prefix : string) (channels : channel_map)
    (fname : Path.t) (fs' : filesystem) (requested : list string) :
  NoDup (List.map fst channels) ->
  write_timeseries fs write_dir t0 sample_rate prefix channels = (Ok fname, fs') ->
  Forall (fun c => c ∈ List.map fst channels) requested ->
  exists rates ts_dict,
    broadcast sample_rate (List.length channels) = RateList rates
    /\ read_timeseries fs' fname requested = Ok ts_dict
    /\ List.map fst ts_dict = first_occurrences [] requested
    /\ Forall (fun kv => kv ∈ series_of t0 channels rates) ts_dict.
Proof.
  intros Hnd Hw Hreq.
  apply WriteFacts.write_ok_steps in Hw as (rates & entries & Hb & Hlen & _ & ->);
    [|exact Hnd].
  set (f := {| h5_attrs := {[ "t0" := t0 ]};
               h5_datasets := stored channels rates ∅ |}).
  assert (Hh : Forall (holds (h5_datasets f)) (series_of t0 channels rates))
    by now apply stored_holds.
  assert (Hkeys : List.map fst (series_of t0 channels rates) = List.map fst channels)
    by (apply series_of_keys; lia).
  assert (Hpresent : Forall (fun c => exists ts, readable f t0 c ts) requested).
  { eapply Forall_impl; [exact Hreq|]. cbn. intros c Hc.
    destruct (SuccessFacts.series_of_entry t0 channels rates c ltac:(lia) Hc)
      as [ts Hts].
    exists ts. rewrite Forall_forall in Hh. pose proof (Hh _ Hts) as Hc'.
    pose proof (series_of_t0 t0 channels rates) as Ht.
    rewrite Forall_forall in Ht. specialize (Ht _ Hts).
    unfold holds in Hc'. cbn [fst snd] in Hc', Ht.
    eexists. eexists. split; [exact Hc'|]. cbn [ds_attrs ds_data].
    split; [apply lookup_singleton_eq|]. auto. }
  exists rates.
  unfold read_timeseries, H5.open_r, H5.get_attr. cbn [fs_files].
  rewrite lookup_insert_eq. cbn [bind]. fold f. cbn [h5_attrs f].
  rewrite lookup_singleton_eq. cbn [bind].
  destruct (ReadFacts.read_channels_present fname f t0 requested [] Hpresent)
    as (ts_dict & Hrd & Hk & Hall); [constructor|].
  exists ts_dict. split; [exact Hb|]. split; [exact Hrd|]. split; [exact Hk|].
  cbn in Hk.
  destruct (ReadFacts.first_occurrences_spec requested [] NoDup_nil_2) as [_ Hin].
  cbn in Hin. rewrite Forall_forall in Hall. rewrite Forall_forall in Hreq.
  apply Forall_forall. intros [c ts] Hkv.
  apply (SuccessFacts.readable_series t0 channels rates f c ts Hh);
    [|exact (Hall _ Hkv)].
  rewrite Hkeys. apply Hreq.
  assert (Hc : c ∈ List.map fst ts_dict).
  { apply list_elem_of_In, in_map_iff. exists (c, ts).
    split; [reflexivity|now apply list_elem_of_In]. }
  rewrite Hk in Hc. apply Hin in Hc as [Hc|Hc]; [inversion Hc|exact Hc].
Qed.

Lemma write_read_selection_witness :
  let fs' :=
    snd (write_timeseries Demo.fs Demo.dir (PyInt 1000000000)
           (RateList [Float.of_Z 2; Float.of_Z 4]) "H1"
           [("a", Demo.zeros 4); ("b", Demo.zeros 8)]) in
  exists rates ts_dict,
    broadcast (RateList [Float.of_Z 2; Float.of_Z 4]) 2 = RateList rates
    /\ read_timeseries fs' Demo.archive_path ["b"; "b"] = Ok ts_dict
    /\ List.map fst ts_dict = first_occurrences [] ["b"; "b"]
    /\ Forall (fun kv => kv ∈ series_of (PyInt 1000000000)
                                 [("a", Demo.zeros 4); ("b", Demo.zeros 8)] rates)
         ts_dict.
Proof.
  intros fs'.
  apply (write_read_selection Demo.fs Demo.dir (PyInt 1000000000)
           (RateList [Float.of_Z 2; Float.of_Z 4]) "H1"
           [("a", Demo.zeros 4); ("b", Demo.zeros 8)] Demo.archive_path fs'
           ["b"; "b"]).
  - apply NoDup_cons. split; [|apply NoDup_singleton].
    intros H. apply list_elem_of_singleton in H. discriminate.
  - vm_compute. reflexivity.
  - repeat constructor; apply elem_of_cons; right; apply elem_of_cons; now left.
Defined.

(** X29: what it takes for a write to succeed.  With plain and distinct
    channel names the write returns a path exactly when there is a rate
    for every channel (a float is one for each), no rate is zero so that
    every duration is defined, all durations equal the first, which is
    finite, the start time is a float or an integer of at most 64 bits,
    and a file of the name can be created in the directory. *)
Theorem write_succeeds_iff (fs : filesystem) (write_dir : Path.t) (t0 : pynum)
    (sample_rate : rate_spec) (prefix : string) (channels : channel_map) :
  NoDup (List.map fst channels) ->
  Forall (fun k => plain_name k = true) (List.map fst channels) ->
  is_ok (fst (write_timeseries fs write_dir t0 sample_rate prefix channels))
  <-> exists rates d rest len,
        broadcast sample_rate (List.length channels) = RateList rates
        /\ List.length rates = List.length channels
        /\ durations (List.map snd channels) rates = Ok (d :: rest)
        /\ Forall (fun x => Float.eqb x d = true) rest
        /\ Float.is_finite d = true
        /\ normalize_length d = Ok len
        /\ H5.storable t0 = true
        /\ creatable fs (Path.join write_dir (segment_name prefix t0 len)).
Proof.
  intros Hnd Hplain. split.
  - destruct (write_timeseries fs write_dir t0 sample_rate prefix channels)
      as [[fname|e] fs'] eqn:Hw; [intros _|intros []].
    pose proof Hw as Hi. apply write_ok_inv in Hi
      as (rates & d & rest & len & Hb & Hlen & Hd & Hset & Hn & ->).
    exists rates, d, rest, len. split; [exact Hb|]. split; [exact Hlen|].
    split; [exact Hd|]. split; [now apply FloatFacts.set_size_one|].
    split; [exact (normalize_length_finite d len Hn)|]. split; [exact Hn|].
    rewrite (write_broadcast _ _ _ _ _ _ _ Hb) in Hw. unfold write_timeseries in Hw.
    rewrite (prepare_write_list _ _ _ _ _ _ Hlen Hd) in Hw.
    rewrite Hset in Hw. cbn [Nat.eqb negb bind] in Hw. rewrite Hn in Hw.
    cbn [bind] in Hw.
    destruct (H5.open_w fs _) as [fs0|] eqn:Ho; [|discriminate].
    destruct (write_channels h5_empty t0 (RateList rates) 0 channels)
      as [[u|e] f] eqn:Hc; [|discriminate].
    apply WriteFacts.write_channels_stored in Hc as [Hs _];
      [|exact (WriteFacts.durations_nonempty _ _ _ _ Hd)].
    split; [exact Hs|]. apply H5Facts.open_w_creatable. now rewrite Ho.
  - intros (rates & d & rest & len & Hb & Hlen & Hd & Heq & _ & Hn & Hs & Hc).
    destruct (write_then_read fs write_dir t0 sample_rate prefix channels rates
                d rest len Hb Hlen Hnd Hplain Hs Hd Heq Hn Hc) as (fs' & -> & _).
    exact I.
Qed.

Lemma write_succeeds_iff_witness :
  is_ok (fst (write_timeseries Demo.fs Demo.dir (PyInt 1000000000)
                (RateFloat (Float.of_Z 2)) "H1" [("strain", Demo.zeros 4)]))
  <-> exists rates d rest len,
        broadcast (RateFloat (Float.of_Z 2)) 1 = RateList rates
        /\ List.length rates = 1%nat
        /\ durations [Demo.zeros 4] rates = Ok (d :: rest)
        /\ Forall (fun x => Float.eqb x d = true) rest
        /\ Float.is_finite d = true
        /\ normalize_length d = Ok len
        /\ H5.storable (PyInt 1000000000) = true
        /\ creatable Demo.fs
             (Path.join Demo.dir (segment_name "H1" (PyInt 1000000000) len)).
Proof.
  apply (write_succeeds_iff Demo.fs Demo.dir (PyInt 1000000000)
           (RateFloat (Float.of_Z 2)) "H1" [("strain", Demo.zeros 4)]).
  - apply NoDup_singleton.
  - repeat constructor.
Defined.
